(** * lxns: shape tracking (app/circle.py, app/rectangle.py, app/tracker.py,
    app/presenter.py)

  A shallow embedding of the identity-matching and trajectory-accumulation
  engine: colour validation and similarity, the geometric closeness tests,
  the merge operation of circles and rectangles, the per-frame ingestion of
  the tracker, its frame loop and the persistence records, and the
  preparation and replay of the recorded trajectories by the presenter.

  Python objects are embedded as a small universe of values, numpy's
  float64 as the binary64 instance of the IEEE 754 specification of
  [SpecFloat], exceptions as an error monad and in-place mutation as
  explicit state passing. *)

From Stdlib Require Import ZArith List String Ascii Bool Lia Sorted.
From Stdlib Require Import DecimalString.
From Stdlib Require DecimalPos DecimalZ.
From Stdlib Require Import Floats.SpecFloat.
From Equations Require Import Equations.
Import ListNotations.

Open Scope string_scope.
Open Scope list_scope.
Open Scope Z_scope.

(** ** numpy.float64 / Python float: IEEE 754 binary64 *)

Module Np.

Definition prec : Z := 53.
Definition emax : Z := 1024.

Definition float64 : Type := spec_float.

(** Conversion of an integer to float64 (round to nearest, ties to even). *)
Definition of_int (z : Z) : float64 := binary_normalize prec emax z 0 false.

Definition sub (a b : float64) : float64 := SFsub prec emax a b.
Definition abs (a : float64) : float64 := SFabs a.
Definition sqrt (a : float64) : float64 := SFsqrt prec emax a.
Definition le (a b : float64) : bool := SFleb a b.

Definition isnan (a : float64) : bool :=
  match a with S754_nan => true | _ => false end.

Definition isfinite (a : float64) : bool :=
  match a with S754_zero _ | S754_finite _ _ _ => true | _ => false end.

(** Element-wise binary operation on two arrays of the same shape. *)
Fixpoint zip_with {A B C : Type} (f : A -> B -> C) (l1 : list A) (l2 : list B) : list C :=
  match l1, l2 with
  | a :: l1', b :: l2' => f a b :: zip_with f l1' l2'
  | _, _ => []
  end.

(** [np.all] of a boolean array. *)
Definition all (l : list bool) : bool := forallb (fun b => b) l.

End Np.

(** ** Python values, exceptions *)

Module Py.

(** The Python objects the tracker handles.  [NpBool] is numpy's boolean
    scalar ([numpy.bool_]), which is a different object from the
    singletons [True] and [False] ([Bool]).  [Float] also stands for
    [numpy.float64], a subclass of [float]. *)
#[warnings="-register-all"]
Inductive value : Type :=
| None_
| Bool (b : bool)
| Int (z : Z)
| Float (f : Np.float64)
| Str (s : string)
| NpBool (b : bool)
| Tuple (l : list value)
| List (l : list value)
| Dict (items : list (string * value)).

(** The exceptions that reach the embedding; the last three are kinds of
    [OSError]. *)
Inductive exn : Type :=
| TypeError
| ValueError
| FileNotFoundError
| NotADirectoryError
| PermissionError.

Inductive result (A : Type) : Type :=
| Ok (a : A)
| Raise (e : exn).
Arguments Ok {A} a.
Arguments Raise {A} e.

Definition bind {A B : Type} (c : result A) (k : A -> result B) : result B :=
  match c with
  | Ok a => k a
  | Raise e => Raise e
  end.

(** [x is False] *)
Definition is_False (v : value) : bool :=
  match v with Bool false => true | _ => false end.

(** Truth value of an object, as [if] and [not] take it. *)
Definition truthy (v : value) : bool :=
  match v with
  | None_ => false
  | Bool b => b
  | Int z => negb (z =? 0)
  | Float f => negb (SFeqb f (S754_zero false))
  | Str s => negb (String.eqb s "")
  | NpBool b => b
  | Tuple l | List l => match l with [] => false | _ => true end
  | Dict items => match items with [] => false | _ => true end
  end.

(** [for x in v]: the elements a [for] loop visits, or [TypeError] when
    the object is not iterable. *)
Definition iter (v : value) : result (list value) :=
  match v with
  | Tuple l | List l => Ok l
  | Str s => Ok (map (fun c => Str (String c EmptyString)) (list_ascii_of_string s))
  | Dict items => Ok (map (fun kv => Str (fst kv)) items)
  | None_ | Bool _ | Int _ | Float _ | NpBool _ => Raise TypeError
  end.

(** [d[k]] on a dict literal, [None] when the key is absent. *)
Fixpoint assoc (k : string) (items : list (string * value)) : option value :=
  match items with
  | [] => None
  | (k', v) :: rest => if String.eqb k k' then Some v else assoc k rest
  end.

Definition get (k : string) (d : value) : option value :=
  match d with
  | Dict items => assoc k items
  | _ => None
  end.

Definition keys (d : value) : list string :=
  match d with
  | Dict items => map fst items
  | _ => []
  end.

Definition last_error {A : Type} (l : list A) : option A :=
  match rev l with
  | [] => None
  | a :: _ => Some a
  end.

(** [f"{n}"] for an integer. *)
Definition format_int (n : Z) : string := NilZero.string_of_int (Z.to_int n).

End Py.

Notation "x <- c ;; k" := (Py.bind c (fun x => k))
  (at level 61, c at next level, right associativity).

(** ** app/circle.py *)

Module Circle.
Import Py.

Record t : Type := mk {
  x : Z;
  y : Z;
  radius : Z;
  color : value;
  frame : Z;
  data : list value
}.

(** The body of the [for] loop of [filter_nan]. *)
Fixpoint filter_nan_loop (xs : list value) (filtered_color : list value) : value :=
  match xs with
  | [] => Tuple filtered_color
  | Float f :: rest =>
      if Np.isnan f then None_ else filter_nan_loop rest (filtered_color ++ [Float f])
  | _ :: _ => None_
  end.

Definition filter_nan (color : value) : result value :=
  xs <- iter color ;;
  Ok (filter_nan_loop xs []).

Definition valid_channel (c : value) : bool :=
  match c with
  | Float f => Np.le (Np.of_int 0) f && Np.le f (Np.of_int 255)
  | _ => false
  end.

Definition is_valid_color (color : value) : bool :=
  match color with
  | Tuple l => (Z.of_nat (List.length l) =? 3) && forallb valid_channel l
  | _ => false
  end.

(** [np.array(color)] of a tuple of floats. *)
Fixpoint np_array_of (l : list value) : option (list Np.float64) :=
  match l with
  | [] => Some []
  | Float f :: rest =>
      match np_array_of rest with
      | Some fs => Some (f :: fs)
      | None => None
      end
  | _ :: _ => None
  end.

Definition np_array (color : value) : option (list Np.float64) :=
  match color with
  | Tuple l => np_array_of l
  | _ => None
  end.

Definition default_tolerance : Z := 30.

(** Returns [None_] when a colour is invalid, and otherwise what [np.all]
    yields, which is a [numpy.bool_] and not one of the singletons [True]
    and [False] (the test suite converts it with [bool(...)] before it
    compares with [is]).  The integer tolerance is converted to float64 by
    the comparison.  Both arrays exist when both colours are valid
    ([valid_color_has_array]), so the last branch is never taken. *)
Definition are_colors_similar (color1 color2 : value) (tolerance : Z) : value :=
  if negb (is_valid_color color1 && is_valid_color color2) then None_
  else
    match np_array color1, np_array color2 with
    | Some a1, Some a2 =>
        let color_diffs := map Np.abs (Np.zip_with Np.sub a1 a2) in
        NpBool (Np.all (map (fun d => Np.le d (Np.of_int tolerance)) color_diffs))
    | _, _ => None_
    end.

Definition default_distance_threshold : Z := 50.
Definition default_radius_threshold : Z := 17.

(** The distance (a float64) when the circles are close, [False] otherwise.
    [np.sqrt] converts its integer argument to float64; for positions in
    pixels the sum of squares is far below 2^53 and the conversion exact.
    On an integer that does not fit in 64 bits [np.sqrt] raises
    [TypeError]: this error is left out of the embedding, which is that of
    the test on squared distances below 2^63; what depends on the test
    returning is stated for such distances ([Pass.pixel]). *)
Definition are_circles_same (self circle : t)
    (distance_threshold radius_threshold : Z) : value :=
  let distance :=
    Np.sqrt (Np.of_int ((x circle - x self) ^ 2 + (y circle - y self) ^ 2)) in
  let radius_diff := Z.abs (radius circle - radius self) in
  if Np.le distance (Np.of_int distance_threshold) && (radius_diff <=? radius_threshold)
  then Float distance
  else Bool false.

Definition init (x0 y0 radius0 : Z) (color0 : value) (frame0 video_height : Z) : result t :=
  c <- filter_nan color0 ;;
  Ok {| x := x0; y := y0; radius := radius0; color := c; frame := frame0;
        data := [ Dict [ ("x", Int x0);
                         ("y", Int (video_height - y0));
                         ("frame", Int frame0);
                         ("radius", Int radius0);
                         ("color", c) ] ] |}.

(** [same_circle] mutates [self]; the embedding returns the returned
    boolean together with the state of [self] after the call. *)
Definition same_circle (self circle : t) (video_height : Z) : bool * t :=
  if frame circle <=? frame self then (false, self)
  else if frame circle - frame self >? 20 then (false, self)
  else
    let distance :=
      are_circles_same self circle default_distance_threshold default_radius_threshold in
    if is_False distance then (false, self)
    else if is_False (are_colors_similar (color self) (color circle) default_tolerance)
    then (false, self)
    else
      (true,
       {| x := x circle; y := y circle; radius := radius self; color := color self;
          frame := frame circle;
          data := data self ++
                  [ Dict [ ("x", Int (x circle));
                           ("y", Int (video_height - y circle));
                           ("frame", Int (frame circle));
                           ("radius", Int (radius circle));
                           ("distance", distance);
                           ("color", color circle) ] ] |}).

(** [save_circle]: the path of the file and the record dumped into it.
    A failure of the file system is caught and logged by the source. *)
Definition save_circle (self : t) (name : Z) : string * value :=
  let filename := ("circle_data_" ++ format_int name ++ ".json")%string in
  let circle_data :=
    Dict [ ("filename", Str filename);
           ("radius", Int (radius self));
           ("color", color self);
           ("data", List (data self)) ] in
  (("data/" ++ filename)%string, circle_data).

End Circle.

(** ** app/rectangle.py *)

Module Rectangle.
Import Py.

(** [Rectangle] derives from [Circle] and inherits its static methods;
    its own [__init__] sets no radius. *)
Record t : Type := mk {
  x : Z;
  y : Z;
  width : Z;
  height : Z;
  color : value;
  frame : Z;
  data : list value
}.

Definition filter_nan := Circle.filter_nan.
Definition is_valid_color := Circle.is_valid_color.
Definition are_colors_similar := Circle.are_colors_similar.

Definition init (x0 y0 width0 height0 : Z) (color0 : value) (frame0 video_height : Z)
  : result t :=
  c <- filter_nan color0 ;;
  Ok {| x := x0; y := y0; width := width0; height := height0; color := c;
        frame := frame0;
        data := [ Dict [ ("x", Int x0);
                         ("y", Int (video_height - y0));
                         ("width", Int width0);
                         ("height", Int height0);
                         ("frame", Int frame0);
                         ("color", c) ] ] |}.

Definition default_distance_threshold : Z := 40.
Definition default_size_diff_threshold : Z := 5.

(** [//] is floor division, as [Z.div] is for a positive divisor.  As in
    [Circle.are_circles_same], the [TypeError] of [np.sqrt] on an integer
    that does not fit in 64 bits is left out. *)
Definition are_rectangles_same (self rect : t)
    (distance_threshold size_diff_threshold : Z) : value :=
  let '(x1, y1, w1, h1) := (x self, y self, width self, height self) in
  let '(x2, y2, w2, h2) := (x rect, y rect, width rect, height rect) in
  let center1 := (x1 + w1 / 2, y1 + h1 / 2) in
  let center2 := (x2 + w2 / 2, y2 + h2 / 2) in
  let distance :=
    Np.sqrt (Np.of_int ((fst center2 - fst center1) ^ 2 + (snd center2 - snd center1) ^ 2)) in
  let size_diff := Z.max (Z.abs (w1 - w2)) (Z.abs (h1 - h2)) in
  if Np.le distance (Np.of_int distance_threshold) && (size_diff <=? size_diff_threshold)
  then Float distance
  else Bool false.

(** The tuple assignment of the source stores the width of the observation
    in [height] and its height in [width]; the appended record takes its
    colour from [self]. *)
Definition same_rectangle (self rectangle : t) (video_height : Z) : bool * t :=
  if frame rectangle <=? frame self then (false, self)
  else if frame rectangle - frame self >? 20 then (false, self)
  else
    let distance :=
      are_rectangles_same self rectangle default_distance_threshold
        default_size_diff_threshold in
    if is_False distance then (false, self)
    else if negb (truthy (are_colors_similar (color self) (color rectangle)
                            Circle.default_tolerance))
    then (false, self)
    else
      (true,
       {| x := x rectangle; y := y rectangle;
          height := width rectangle; width := height rectangle;
          color := color self;
          frame := frame rectangle;
          data := data self ++
                  [ Dict [ ("x", Int (x rectangle));
                           ("y", Int (video_height - y rectangle));
                           ("width", Int (width rectangle));
                           ("height", Int (height rectangle));
                           ("frame", Int (frame rectangle));
                           ("distance", distance);
                           ("color", color self) ] ] |}).

Definition save_rectangle (self : t) (name : Z) : string * value :=
  let filename := ("rectangle_data_" ++ format_int name ++ ".json")%string in
  let rectangle_data :=
    Dict [ ("width", Int (width self));
           ("height", Int (height self));
           ("color", color self);
           ("data", List (data self)) ] in
  (("data/" ++ filename)%string, rectangle_data).

End Rectangle.

(** ** The data directory: [Tracker.delete_dir] *)

Module Files.
Import Py.

(** An entry of the directory: its name, whether it is a regular file and
    whether [os.remove] succeeds on it. *)
Record entry : Type := mkEntry {
  name : string;
  isfile : bool;
  removable : bool
}.

(** What is at the path [dir_name] when [delete_dir] is called, as the
    calls of [os] answer:
    - a directory that [os.listdir] reads, with its entries in the order of
      the listing;
    - a directory on which [os.listdir] raises [e] (it may not be read);
    - no directory, and [os.makedirs] creates one;
    - no directory, and [os.makedirs] fails: then [os.listdir] raises [e],
      which is [FileNotFoundError] when nothing is there and
      [NotADirectoryError] when a regular file is in the way. *)
Inductive directory : Type :=
| Present (entries : list entry)
| Unreadable (e : exn)
| Absent
| Blocked (e : exn).

(** [sub in s] *)
Definition contains (sub s : string) : bool :=
  match String.index 0 sub s with
  | Some _ => true
  | None => false
  end.

(** The entries that [delete_dir] tries to remove: the regular files whose
    name contains one of the two markers. *)
Definition stale (e : entry) : bool :=
  isfile e && (contains "circle_data_" (name e) || contains "rectangle_data_" (name e)).

(** The [for] loop over the listing: the entries that are left.  A failure
    of [os.remove] is caught and logged, the file stays. *)
Fixpoint delete_loop (listing : list entry) : list entry :=
  match listing with
  | [] => []
  | e :: rest =>
      if isfile e then
        if contains "circle_data_" (name e) || contains "rectangle_data_" (name e) then
          if removable e then delete_loop rest else e :: delete_loop rest
        else e :: delete_loop rest
      else e :: delete_loop rest
  end.

(** [os.path.isdir(dir_name)] *)
Definition isdir (dir : directory) : bool :=
  match dir with
  | Present _ | Unreadable _ => true
  | Absent | Blocked _ => false
  end.

(** [os.listdir(dir_name)], after the attempt to create the directory. *)
Definition listdir (dir : directory) (created : bool) : result (list entry) :=
  match dir with
  | Present entries => Ok entries
  | Unreadable e => Raise e
  | Absent => if created then Ok [] else Raise FileNotFoundError
  | Blocked e => Raise e
  end.

(** [os.makedirs(dir_name)] within its [try]: the [OSError] of a failure
    is caught and logged.  Returns whether the directory was created. *)
Definition makedirs (dir : directory) : bool :=
  match dir with
  | Absent => true
  | Present _ | Unreadable _ | Blocked _ => false
  end.

(** The [if not os.path.isdir(dir_name): try: os.makedirs(dir_name)] at
    the head of [delete_dir]: whether the call created the directory. *)
Definition created (dir : directory) : bool :=
  if negb (isdir dir) then makedirs dir else false.

(** [delete_dir] (the second definition of the class, which replaces the
    first): the entries of the directory after the call.  The listing is
    outside every [try], so what [os.listdir] raises leaves the function. *)
Definition delete_dir (dir : directory) : result (list entry) :=
  listing <- listdir dir (created dir) ;;
  Ok (delete_loop listing).


End Files.

(** ** app/tracker.py *)

Module Tracker.
Import Py.

Record t : Type := mk {
  circles : list Circle.t;
  rectangles : list Rectangle.t;
  video_height : Z;
  video_width : Z
}.

Definition init : t :=
  {| circles := []; rectangles := []; video_height := 0; video_width := 0 |}.

(** A square candidate of [process_rectangles]: the bounding box of a
    contour with four vertices and the pixel sampled at its centre.
    [w_is_h] tells whether the two integers [w] and [h] that
    [cv2.boundingRect] returned are one object, which is what [w is not h]
    tests. *)
Record Quad : Type := mkQuad {
  qx : Z; qy : Z; qw : Z; qh : Z;
  w_is_h : bool;
  center_pixel : list Z
}.

(** What the detectors of OpenCV return on one frame: the rounded rows of
    [cv2.HoughCircles] ([None] when nothing is found), each with the mean
    colour of its region, and the bounding boxes of the contours that
    [cv2.approxPolyDP] reduces to four vertices. *)
Record Frame : Type := mkFrame {
  shape : Z * Z;
  HoughCircles : option (list (Z * Z * Z * list Np.float64));
  quads : list Quad
}.

(** [any(circle.same_circle(new_circle, video_height) for circle in circles)]:
    the generator is consumed up to the first circle that answers [True];
    the circles visited are returned in their state after the call. *)
Fixpoint any_same_circle (circles0 : list Circle.t) (new_circle : Circle.t)
    (video_height0 : Z) : bool * list Circle.t :=
  match circles0 with
  | [] => (false, [])
  | circle :: rest =>
      let (same, circle') := Circle.same_circle circle new_circle video_height0 in
      if same then (true, circle' :: rest)
      else
        let (found, rest') := any_same_circle rest new_circle video_height0 in
        (found, circle' :: rest')
  end.

(** Lines 144-148 of [process_circles]: append the new circle unless an
    existing one absorbed it. *)
Definition ingest_circle (self : t) (new_circle : Circle.t) : t :=
  let (found, circles') := any_same_circle (circles self) new_circle (video_height self) in
  {| circles := if negb found then circles' ++ [new_circle] else circles';
     rectangles := rectangles self;
     video_height := video_height self;
     video_width := video_width self |}.

(** [frame[y - r : y + r, x - r : x + r].size] for a slice within the frame. *)
Definition region_size (r : Z) : Z := Z.max 0 (2 * r) * Z.max 0 (2 * r) * 3.

Fixpoint process_circles_loop (self : t) (shape0 : Z * Z)
    (found : list (Z * Z * Z * list Np.float64)) (frame_counter : Z) : result t :=
  match found with
  | [] => Ok self
  | (x, y, r, average_color) :: rest =>
      if (y - r >=? 0) && (y + r <? fst shape0) && (x - r >=? 0) && (x + r <? snd shape0)
      then
        if region_size r >? 0 then
          new_circle <- Circle.init x y r (Tuple (map Float average_color))
                          frame_counter (video_height self) ;;
          process_circles_loop (ingest_circle self new_circle) shape0 rest frame_counter
        else process_circles_loop self shape0 rest frame_counter
      else process_circles_loop self shape0 rest frame_counter
  end.

Definition process_circles (self : t) (frame0 : Frame) (frame_counter : Z) : result t :=
  match HoughCircles frame0 with
  | None => Ok self
  | Some found => process_circles_loop self (shape frame0) found frame_counter
  end.

(** The [for rectangle in self.rectangles] loop of [process_rectangles]
    with its [break]: returns [is_new_rectangle] and the rectangles after
    the calls. *)
Fixpoint scan_rectangles (rectangles0 : list Rectangle.t) (new_rectangle : Rectangle.t)
    (video_height0 : Z) : bool * list Rectangle.t :=
  match rectangles0 with
  | [] => (true, [])
  | rectangle :: rest =>
      let (same, rectangle') :=
        Rectangle.same_rectangle rectangle new_rectangle video_height0 in
      if same then (false, rectangle' :: rest)
      else
        let (is_new_rectangle, rest') := scan_rectangles rest new_rectangle video_height0 in
        (is_new_rectangle, rectangle' :: rest')
  end.

(** Lines 194-200 of [process_rectangles]. *)
Definition ingest_rectangle (self : t) (new_rectangle : Rectangle.t) : t :=
  let (is_new_rectangle, rectangles') :=
    scan_rectangles (rectangles self) new_rectangle (video_height self) in
  {| circles := circles self;
     rectangles := if is_new_rectangle then rectangles' ++ [new_rectangle] else rectangles';
     video_height := video_height self;
     video_width := video_width self |}.

(** The first loop of [process_rectangles] keeps the boxes with [w == h];
    the second one builds the rectangle, skips it when [w is not h] and
    ingests it otherwise. *)
Fixpoint process_rectangles_loop (self : t) (found : list Quad) (frame_counter : Z)
  : result t :=
  match found with
  | [] => Ok self
  | q :: rest =>
      new_rectangle <- Rectangle.init (qx q) (qy q) (qw q) (qh q)
                         (Tuple (map (fun c => Float (Np.of_int c)) (center_pixel q)))
                         frame_counter (video_height self) ;;
      if negb (w_is_h q) then process_rectangles_loop self rest frame_counter
      else process_rectangles_loop (ingest_rectangle self new_rectangle) rest frame_counter
  end.

Definition process_rectangles (self : t) (frame0 : Frame) (frame_counter : Z) : result t :=
  let rectangles0 := filter (fun q => qw q =? qh q) (quads frame0) in
  process_rectangles_loop self rectangles0 frame_counter.

(** The video source and the keyboard, as the frame loop sees them.
    [isOpened n] and [waitKey n] are the answers after [n] frames were
    read, [read n] is the outcome of reading the [n]-th frame:
    [video.read] raises [ValueError], which the loop catches, or returns
    without a frame, or returns a frame. *)
Inductive read_result : Type :=
| ReadRaises
| ReadFails
| ReadFrame (frame0 : Frame).

Record VideoCapture : Type := mkVideo {
  opens : bool;
  frame_width : Z;
  frame_height : Z;
  isOpened : Z -> bool;
  read : Z -> read_result;
  waitKey : Z -> Z
}.

Definition load_video (self : t) (video : VideoCapture) : result t :=
  if negb (opens video) then Raise FileNotFoundError
  else Ok {| circles := circles self; rectangles := rectangles self;
             video_width := frame_width video;
             video_height := frame_height video |}.

Definition max_frames : Z := 1000.

(** [ord("q")] *)
Definition ord_q : Z := 113.

(** The number of iterations the bound of the loop still allows. *)
Definition frames_left (frame_counter : Z) : nat := Z.to_nat (max_frames - frame_counter).
Arguments frames_left : simpl never.

(** The [while] loop of [track].  The result is the tracker and the value
    of [frame_counter] when the loop is left; every iteration reads one
    frame, so the counter is the number of calls of [video.read]. *)
Equations? track_loop (video : VideoCapture) (self : t) (frame_counter : Z)
  : result (t * Z) by wf (frames_left frame_counter) lt :=
track_loop video self frame_counter with Z_lt_dec frame_counter max_frames => {
  | right _ => Ok (self, frame_counter)
  | left Hlt =>
      if negb (isOpened video frame_counter) then Ok (self, frame_counter)
      else
        match read video (frame_counter + 1) with
        | ReadRaises => Ok (self, frame_counter + 1)
        | ReadFails => Ok (self, frame_counter + 1)
        | ReadFrame frame0 =>
            match process_circles self frame0 (frame_counter + 1) with
            | Raise e => Raise e
            | Ok self1 =>
                match process_rectangles self1 frame0 (frame_counter + 1) with
                | Raise e => Raise e
                | Ok self2 =>
                    if Z.land (waitKey video (frame_counter + 1)) 255 =? ord_q
                    then Ok (self2, frame_counter + 1)
                    else track_loop video self2 (frame_counter + 1)
                end
            end
        end }.
Proof. unfold frames_left, max_frames in *. lia. Qed.

(** [x = 0; for circle in self.circles: x += 1; circle.save_circle(x)] *)
Fixpoint save_circles (circles0 : list Circle.t) (x : Z) : list (string * value) :=
  match circles0 with
  | [] => []
  | circle :: rest => Circle.save_circle circle (x + 1) :: save_circles rest (x + 1)
  end.

Fixpoint save_rectangles (rectangles0 : list Rectangle.t) (x : Z) : list (string * value) :=
  match rectangles0 with
  | [] => []
  | rectangle :: rest =>
      Rectangle.save_rectangle rectangle (x + 1) :: save_rectangles rest (x + 1)
  end.

(** [track]: the tracker after the run, the number of frames read, the
    entries that the clean-up left in the data directory and the files
    written, in the order of writing.  [delete_dir] comes first and what it
    raises ends the run before the video is opened.  The display of the
    frame and the log lines are left out. *)
Definition track (self : t) (dir : Files.directory) (video : VideoCapture)
  : result (t * Z * list Files.entry * list (string * value)) :=
  kept <- Files.delete_dir dir ;;
  self0 <- load_video self video ;;
  r <- track_loop video self0 0 ;;
  let '(self1, frame_counter) := r in
  Ok (self1, frame_counter, kept,
      save_circles (circles self1) 0 ++ save_rectangles (rectangles self1) 0).

End Tracker.

(** ** Sample entities, those of the test suite of the repository *)

Module Examples.
Import Py.

Definition rgb (r g b : Z) : value :=
  Tuple [Float (Np.of_int r); Float (Np.of_int g); Float (Np.of_int b)].

Definition red : value := rgb 255 0 0.
Definition green : value := rgb 0 255 0.
Definition reddish : value := rgb 250 5 5.

(** [(255.0, float("nan"), 0.0)] *)
Definition red_nan : value :=
  Tuple [Float (Np.of_int 255); Float S754_nan; Float (Np.of_int 0)].

Definition seed_circle (x y radius : Z) (color : value) (frame vh : Z) : Circle.t :=
  {| Circle.x := x; Circle.y := y; Circle.radius := radius; Circle.color := color;
     Circle.frame := frame;
     Circle.data := [ Dict [ ("x", Int x); ("y", Int (vh - y)); ("frame", Int frame);
                             ("radius", Int radius); ("color", color) ] ] |}.

Definition seed_rectangle (x y w h : Z) (color : value) (frame vh : Z) : Rectangle.t :=
  {| Rectangle.x := x; Rectangle.y := y; Rectangle.width := w; Rectangle.height := h;
     Rectangle.color := color; Rectangle.frame := frame;
     Rectangle.data := [ Dict [ ("x", Int x); ("y", Int (vh - y)); ("width", Int w);
                                ("height", Int h); ("frame", Int frame);
                                ("color", color) ] ] |}.

Definition circle1 : Circle.t := seed_circle 100 200 50 red 1 1080.
Definition circle2 : Circle.t := seed_circle 105 205 50 red 2 1080.
Definition circle2_green : Circle.t := seed_circle 105 205 50 green 2 1080.
Definition circle2_nan : Circle.t := seed_circle 105 205 50 None_ 2 1080.
Definition circle2_reddish : Circle.t := seed_circle 105 205 55 reddish 2 1080.
Definition circle21 : Circle.t := seed_circle 105 205 50 red 21 1080.
Definition circle22 : Circle.t := seed_circle 105 205 50 red 22 1080.

Definition rect1 : Rectangle.t := seed_rectangle 10 20 100 100 red 1 1080.
Definition rect2 : Rectangle.t := seed_rectangle 15 25 100 100 red 2 1080.
Definition rect2_green : Rectangle.t := seed_rectangle 15 25 100 100 green 2 1080.
Definition rect2_nan : Rectangle.t := seed_rectangle 15 25 100 100 None_ 2 1080.
Definition rect2_reddish : Rectangle.t := seed_rectangle 15 25 102 98 reddish 2 1080.
Definition rect21 : Rectangle.t := seed_rectangle 15 25 100 100 red 21 1080.
Definition rect22 : Rectangle.t := seed_rectangle 15 25 100 100 red 22 1080.

(** A frame with one white circle and one white square, and a video that
    shows it for ever. *)
Definition white_frame : Tracker.Frame :=
  {| Tracker.shape := (480, 640);
     Tracker.HoughCircles :=
       Some [ (320, 240, 50, [Np.of_int 255; Np.of_int 255; Np.of_int 255]) ];
     Tracker.quads :=
       [ {| Tracker.qx := 100; Tracker.qy := 100; Tracker.qw := 50; Tracker.qh := 50;
            Tracker.w_is_h := true; Tracker.center_pixel := [255; 255; 255] |} ] |}.


(** A video of three frames. *)
Definition short_video : Tracker.VideoCapture :=
  {| Tracker.opens := true;
     Tracker.frame_width := 640;
     Tracker.frame_height := 480;
     Tracker.isOpened := fun _ => true;
     Tracker.read := fun n => if n <=? 3 then Tracker.ReadFrame white_frame
                              else Tracker.ReadFails;
     Tracker.waitKey := fun _ => -1 |}.

(** A registry with two circles that both accept [circle2]. *)
Definition two_candidates : Tracker.t :=
  {| Tracker.circles := [circle1; seed_circle 101 201 50 red 1 1080];
     Tracker.rectangles := [];
     Tracker.video_height := 1080;
     Tracker.video_width := 1920 |}.

(** A frame with one white square of 300 by 300 pixels.  The two sides
    that [cv2.boundingRect] returns are equal and are two objects: CPython
    keeps one object per integer only from -5 to 256. *)
Definition large_square : Tracker.Quad :=
  {| Tracker.qx := 100; Tracker.qy := 100; Tracker.qw := 300; Tracker.qh := 300;
     Tracker.w_is_h := false; Tracker.center_pixel := [255; 255; 255] |}.

Definition large_square_frame : Tracker.Frame :=
  {| Tracker.shape := (1080, 1920);
     Tracker.HoughCircles := None;
     Tracker.quads := [large_square] |}.

(** The same frame with a square of 200 by 200 pixels, whose sides are one
    object. *)
Definition small_square : Tracker.Quad :=
  {| Tracker.qx := 100; Tracker.qy := 100; Tracker.qw := 200; Tracker.qh := 200;
     Tracker.w_is_h := true; Tracker.center_pixel := [255; 255; 255] |}.

Definition small_square_frame : Tracker.Frame :=
  {| Tracker.shape := (1080, 1920);
     Tracker.HoughCircles := None;
     Tracker.quads := [small_square] |}.

(** A frame with one white circle of radius 300. *)
Definition large_circle_frame : Tracker.Frame :=
  {| Tracker.shape := (1080, 1920);
     Tracker.HoughCircles :=
       Some [ (500, 500, 300, [Np.of_int 255; Np.of_int 255; Np.of_int 255]) ];
     Tracker.quads := [] |}.

(** A tracker that follows the large square since frame 1. *)
Definition large_square_tracker : Tracker.t :=
  {| Tracker.circles := [];
     Tracker.rectangles := [seed_rectangle 100 100 300 300 (rgb 255 255 255) 1 1080];
     Tracker.video_height := 1080;
     Tracker.video_width := 1920 |}.

(** The data directory of [test_delete_dir]. *)
Definition test_directory : Files.directory :=
  Files.Present [ Files.mkEntry "circle_data_test.txt" true true;
                  Files.mkEntry "rectangle_data_test.txt" true true;
                  Files.mkEntry "other_file.txt" true true ].

End Examples.

(** ** The colour rules in the words of the specification *)

Module Spec.
Import Py.

(** A channel that is a finite real number in [0,255], written as an
    integer or as a float. *)
Definition real_in_range (c : value) : bool :=
  match c with
  | Int z => (0 <=? z) && (z <=? 255)
  | Float f => Np.isfinite f && Np.le (Np.of_int 0) f && Np.le f (Np.of_int 255)
  | _ => false
  end.

(** [colorValid]: exactly three channels, each a finite real number in
    [0,255]. *)
Definition colorValid (color : value) : bool :=
  match color with
  | Tuple l | List l => (Z.of_nat (List.length l) =? 3) && forallb real_in_range l
  | _ => false
  end.

(** A channel that normalization keeps: a float other than NaN. *)
Definition float_not_nan (c : value) : bool :=
  match c with
  | Float f => negb (Np.isnan f)
  | _ => false
  end.

(** A float channel that is finite and lies in [0,255]. *)
Definition float_in_range (f : Np.float64) : Prop :=
  Np.isfinite f = true /\
  Np.le (Np.of_int 0) f = true /\
  Np.le f (Np.of_int 255) = true.

(** Ingestion of one observation: the registry is scanned in registration
    order and the first entity that accepts the merge absorbs the
    observation, the entities before and after it staying as they are;
    when no entity accepts, the observation is appended as a new entity. *)
Inductive ingested {E : Type} (merge : E -> bool * E) (observation : E)
    (registry : list E) : list E -> Prop :=
| absorbed_by_first (before : list E) (e : E) (after : list E) :
    registry = before ++ e :: after ->
    Forall (fun a => fst (merge a) = false) before ->
    fst (merge e) = true ->
    ingested merge observation registry (before ++ snd (merge e) :: after)
| registered_as_new :
    Forall (fun a => fst (merge a) = false) registry ->
    ingested merge observation registry (registry ++ [observation]).

(** The scan both loops of the tracker run, over any kind of entity: was
    the observation absorbed, and the registry after the calls. *)
Fixpoint first_match {E : Type} (merge : E -> bool * E) (registry : list E)
  : bool * list E :=
  match registry with
  | [] => (false, [])
  | e :: rest =>
      let (same, e') := merge e in
      if same then (true, e' :: rest)
      else
        let (found, rest') := first_match merge rest in
        (found, e' :: rest')
  end.



End Spec.

(** ** Trajectories and registries *)

Module Trajectory.
Import Py.

(** [record["frame"]] of a trajectory record. *)
Definition frame_of (record : value) : option Z :=
  match get "frame" record with
  | Some (Int f) => Some f
  | _ => None
  end.

(** The frames of a trajectory: they start at [first], every next one is
    later than the one before by at most 20, and they end at [last]. *)
Inductive steady (first : Z) : list Z -> Z -> Prop :=
| steady_seed : steady first [first] first
| steady_step (frames : list Z) (last f : Z) :
    steady first frames last ->
    last < f <= last + 20 ->
    steady first (frames ++ [f]) f.

(** A circle whose fields and trajectory fit together: the frames of the
    records are steady and end at the current frame, the first record
    holds the radius and the colour of the circle, the last one its
    position (y flipped against the video height) and its frame. *)
Definition circle_ok (vh first : Z) (c : Circle.t) : Prop :=
  exists frames seed current,
    map frame_of (Circle.data c) = map Some frames /\
    steady first frames (Circle.frame c) /\
    hd_error (Circle.data c) = Some seed /\
    get "radius" seed = Some (Int (Circle.radius c)) /\
    get "color" seed = Some (Circle.color c) /\
    last_error (Circle.data c) = Some current /\
    get "x" current = Some (Int (Circle.x c)) /\
    get "y" current = Some (Int (vh - Circle.y c)) /\
    get "frame" current = Some (Int (Circle.frame c)).

(** The same for a rectangle, every record of which holds the colour of
    the rectangle. *)
Definition rectangle_ok (vh first : Z) (r : Rectangle.t) : Prop :=
  exists frames current,
    map frame_of (Rectangle.data r) = map Some frames /\
    steady first frames (Rectangle.frame r) /\
    Forall (fun record => get "color" record = Some (Rectangle.color r)) (Rectangle.data r) /\
    last_error (Rectangle.data r) = Some current /\
    get "x" current = Some (Int (Rectangle.x r)) /\
    get "y" current = Some (Int (vh - Rectangle.y r)) /\
    get "frame" current = Some (Int (Rectangle.frame r)).

(** An entity of the tracker after frame [n]: it is as above, was created
    in frame 1 or later and was last seen in frame [n] or before; a
    rectangle is moreover a square. *)
Definition circle_tracked (vh n : Z) (c : Circle.t) : Prop :=
  exists first, circle_ok vh first c /\ 1 <= first /\ Circle.frame c <= n.

Definition rectangle_tracked (vh n : Z) (r : Rectangle.t) : Prop :=
  exists first,
    rectangle_ok vh first r /\ 1 <= first /\ Rectangle.frame r <= n /\
    Rectangle.width r = Rectangle.height r.

(** The circles and rectangles that the constructor and merge attempts
    produce. *)
Inductive circle_built (vh : Z) : Circle.t -> Prop :=
| circle_seeded (x y radius : Z) (color : value) (frame : Z) (c : Circle.t) :
    Circle.init x y radius color frame vh = Ok c ->
    circle_built vh c
| circle_offered (self observation : Circle.t) :
    circle_built vh self ->
    circle_built vh (snd (Circle.same_circle self observation vh)).

Inductive rectangle_built (vh : Z) : Rectangle.t -> Prop :=
| rectangle_seeded (x y width height : Z) (color : value) (frame : Z) (r : Rectangle.t) :
    Rectangle.init x y width height color frame vh = Ok r ->
    rectangle_built vh r
| rectangle_offered (self observation : Rectangle.t) :
    rectangle_built vh self ->
    rectangle_built vh (snd (Rectangle.same_rectangle self observation vh)).

(** An entity later in the run: the same radius and colour, a frame that
    is not earlier and a trajectory that was only appended to. *)
Definition circle_grows (before after : Circle.t) : Prop :=
  Circle.radius after = Circle.radius before /\
  Circle.color after = Circle.color before /\
  Circle.frame before <= Circle.frame after /\
  exists added, Circle.data after = Circle.data before ++ added.

Definition rectangle_grows (before after : Rectangle.t) : Prop :=
  Rectangle.color after = Rectangle.color before /\
  Rectangle.frame before <= Rectangle.frame after /\
  exists added, Rectangle.data after = Rectangle.data before ++ added.

(** A registry later in the run: every entity is still there, at its
    place and grown, and new entities follow. *)
Definition registry_grows {E : Type} (grows : E -> E -> Prop) (before after : list E) : Prop :=
  exists kept added, after = kept ++ added /\ Forall2 grows before kept.

(** The number of records in the trajectories of a registry. *)
Definition circle_records (circles : list Circle.t) : nat :=
  list_sum (map (fun c => List.length (Circle.data c)) circles).

Definition rectangle_records (rectangles : list Rectangle.t) : nat :=
  list_sum (map (fun r => List.length (Rectangle.data r)) rectangles).

End Trajectory.

(** ** The passes of the tracker over a frame *)

Module Pass.
Import Py.

(** The detected circles that [process_circles] builds a [Circle] of:
    those that lie within the frame and have a region. *)
Definition fits (shape0 : Z * Z) (found : Z * Z * Z * list Np.float64) : bool :=
  let '(x, y, r, _) := found in
  (y - r >=? 0) && (y + r <? fst shape0) && (x - r >=? 0) && (x + r <? snd shape0)
  && (Tracker.region_size r >? 0).

Definition circles_taken (frame0 : Tracker.Frame) : list (Z * Z * Z * list Np.float64) :=
  match Tracker.HoughCircles frame0 with
  | None => []
  | Some found => filter (fits (Tracker.shape frame0)) found
  end.

(** The boxes that [process_rectangles] ingests: those with [w == h] whose
    two sides are one integer object. *)
Definition quads_taken (frame0 : Tracker.Frame) : list Tracker.Quad :=
  filter (fun q => (Tracker.qw q =? Tracker.qh q) && Tracker.w_is_h q) (Tracker.quads frame0).

(** Both passes over one frame, as the loop of [track] runs them. *)
Definition process_frame (self : Tracker.t) (frame0 : Tracker.Frame) (frame_counter : Z)
  : result Tracker.t :=
  self1 <- Tracker.process_circles self frame0 frame_counter ;;
  Tracker.process_rectangles self1 frame0 frame_counter.

(** The passes over the frames of a list, numbered from [frame_counter + 1]. *)
Fixpoint process_frames (self : Tracker.t) (frames : list Tracker.Frame) (frame_counter : Z)
  : result Tracker.t :=
  match frames with
  | [] => Ok self
  | frame0 :: rest =>
      self' <- process_frame self frame0 (frame_counter + 1) ;;
      process_frames self' rest (frame_counter + 1)
  end.

(** What stays and what grows when a tracker [self] becomes [self']. *)
Definition circles_pass (taken : nat) (self self' : Tracker.t) : Prop :=
  Tracker.rectangles self' = Tracker.rectangles self /\
  Tracker.video_height self' = Tracker.video_height self /\
  Tracker.video_width self' = Tracker.video_width self /\
  Trajectory.registry_grows Trajectory.circle_grows (Tracker.circles self) (Tracker.circles self') /\
  Trajectory.circle_records (Tracker.circles self')
  = (Trajectory.circle_records (Tracker.circles self) + taken)%nat.

Definition rectangles_pass (taken : nat) (self self' : Tracker.t) : Prop :=
  Tracker.circles self' = Tracker.circles self /\
  Tracker.video_height self' = Tracker.video_height self /\
  Tracker.video_width self' = Tracker.video_width self /\
  Trajectory.registry_grows Trajectory.rectangle_grows (Tracker.rectangles self) (Tracker.rectangles self') /\
  Trajectory.rectangle_records (Tracker.rectangles self')
  = (Trajectory.rectangle_records (Tracker.rectangles self) + taken)%nat.

(** The video is open and delivers the frames of the list one after the
    other from frame [n + 1] on, and [q] is not pressed on any of them. *)
Definition plays (video : Tracker.VideoCapture) (n : Z) (frames : list Tracker.Frame)
  : Prop :=
  forall (i : nat) (frame0 : Tracker.Frame),
    nth_error frames i = Some frame0 ->
    Tracker.isOpened video (n + Z.of_nat i) = true /\
    Tracker.read video (n + Z.of_nat i + 1) = Tracker.ReadFrame frame0 /\
    Z.land (Tracker.waitKey video (n + Z.of_nat i + 1)) 255 <> Tracker.ord_q.

(** The tracker after frame [n]: its entities are tracked ones for the
    height [vh] of the video. *)
Definition tracked (vh n : Z) (self : Tracker.t) : Prop :=
  Tracker.video_height self = vh /\
  Forall (Trajectory.circle_tracked vh n) (Tracker.circles self) /\
  Forall (Trajectory.rectangle_tracked vh n) (Tracker.rectangles self).

(** Positions within reach of [np.sqrt].  The geometric tests hand the
    squared distance to [np.sqrt] as a Python integer, and [np.sqrt] raises
    [TypeError] on an integer that does not fit in 64 bits; the embedding
    of the tests leaves this error out.  What is proved of a pass or of a
    run is therefore proved for positions and sizes from 0 to below 2^30,
    between which no squared distance reaches 2^63
    ([circles_in_reach_distance], [rectangles_in_reach_distance]). *)
Definition pixel (z : Z) : Prop := 0 <= z < 2 ^ 30.

Definition circle_in_reach (c : Circle.t) : Prop :=
  pixel (Circle.x c) /\ pixel (Circle.y c).

Definition rectangle_in_reach (r : Rectangle.t) : Prop :=
  pixel (Rectangle.x r) /\ pixel (Rectangle.y r) /\
  pixel (Rectangle.width r) /\ pixel (Rectangle.height r).

Definition tracker_in_reach (self : Tracker.t) : Prop :=
  Forall circle_in_reach (Tracker.circles self) /\
  Forall rectangle_in_reach (Tracker.rectangles self).

(** A frame of at most 2^30 pixels a side, with the boxes of its contours
    inside this range. *)
Definition quad_in_reach (q : Tracker.Quad) : Prop :=
  pixel (Tracker.qx q) /\ pixel (Tracker.qy q) /\
  pixel (Tracker.qw q) /\ pixel (Tracker.qh q).

Definition frame_in_reach (frame0 : Tracker.Frame) : Prop :=
  fst (Tracker.shape frame0) <= 2 ^ 30 /\
  snd (Tracker.shape frame0) <= 2 ^ 30 /\
  Forall quad_in_reach (Tracker.quads frame0).

(** Every frame that the loop of [track] may read is within reach. *)
Definition video_in_reach (video : Tracker.VideoCapture) : Prop :=
  forall (k : Z) (frame0 : Tracker.Frame),
    1 <= k <= Tracker.max_frames ->
    Tracker.read video k = Tracker.ReadFrame frame0 ->
    frame_in_reach frame0.

(** A float of magnitude above 2^k: plus infinity, or positive and finite
    with more than [k] binary digits before the point, and with the
    exponent that 53 digits leave. *)
Definition above_pow2 (k : Z) (f : spec_float) : Prop :=
  match f with
  | S754_infinity false => True
  | S754_finite false m e => k < Zdigits2 (Zpos m) + e /\ k - 53 < e
  | _ => False
  end.

End Pass.

(** ** app/presenter.py: the preparation of the animation *)

Module Presenter.
Import Py.

(** A point of a loaded trajectory, [point["frame"]], [point["x"]] and
    [point["y"]]: the integers that the tracker wrote. *)
Record point : Type := mkPoint {
  frame : Z;
  x : Z;
  y : Z
}.

(** The attributes of a [Presenter]; [filenames] is [None] after a dialog
    without a selection. *)
Record t : Type := mk {
  filenames : option (list string);
  x_coords_list : list (list Z);
  y_coords_list : list (list Z);
  frames_list : list (list Z);
  min_frame : Z;
  max_frame : Z;
  max_x : Z;
  max_y : Z
}.

Definition init : t :=
  {| filenames := Some []; x_coords_list := []; y_coords_list := []; frames_list := [];
     min_frame := 0; max_frame := 0; max_x := 0; max_y := 0 |}.

(** [min(l)] and [max(l)], which raise [ValueError] on an empty list. *)
Definition py_min (l : list Z) : result Z :=
  match l with
  | [] => Raise ValueError
  | a :: rest => Ok (fold_left Z.min rest a)
  end.

Definition py_max (l : list Z) : result Z :=
  match l with
  | [] => Raise ValueError
  | a :: rest => Ok (fold_left Z.max rest a)
  end.

(** [range(a, b)] *)
Definition range (a b : Z) : list Z :=
  map (fun i => a + Z.of_nat i) (seq 0 (Z.to_nat (b - a))).

(** [new_dict[k] = v] on a dict kept in the order of insertion: the value
    of a key that is there is replaced at its place, a new key is added at
    the end. *)
Fixpoint setitem (new_dict : list (Z * (Z * Z))) (k : Z) (v : Z * Z)
  : list (Z * (Z * Z)) :=
  match new_dict with
  | [] => [(k, v)]
  | (k', v') :: rest =>
      if k' =? k then (k', v) :: rest else (k', v') :: setitem rest k v
  end.

(** [new_dict[k]] *)
Fixpoint getitem (new_dict : list (Z * (Z * Z))) (k : Z) : option (Z * Z) :=
  match new_dict with
  | [] => None
  | (k', v') :: rest => if k' =? k then Some v' else getitem rest k
  end.

(** The dict of one trajectory: (-1, -1) for every frame of
    [range(min_frame, max_frame)], then the points of the trajectory. *)
Definition full_data (min_frame0 max_frame0 : Z) (data : list point)
  : list (Z * (Z * Z)) :=
  fold_left (fun new_dict p => setitem new_dict (frame p) (x p, y p)) data
            (map (fun i => (i, (-1, -1))) (range min_frame0 max_frame0)).

(** [present], up to the creation of the figure: [loaded] is what
    [load_json_files] returned, [None] when no file was selected. *)
Definition present (self : t) (loaded : option (list (list point) * list string))
  : result t :=
  match loaded with
  | None =>
      Ok {| filenames := None;
            x_coords_list := x_coords_list self; y_coords_list := y_coords_list self;
            frames_list := frames_list self;
            min_frame := min_frame self; max_frame := max_frame self;
            max_x := max_x self; max_y := max_y self |}
  | Some ([], names) =>
      Ok {| filenames := Some names;
            x_coords_list := x_coords_list self; y_coords_list := y_coords_list self;
            frames_list := frames_list self;
            min_frame := min_frame self; max_frame := max_frame self;
            max_x := max_x self; max_y := max_y self |}
  | Some (data_list, names) =>
      let flat_frames := flat_map (map frame) data_list in
      min_frame0 <- py_min flat_frames ;;
      max_frame0 <- py_max flat_frames ;;
      max_x0 <- py_max (flat_map (map x) data_list) ;;
      max_y0 <- py_max (flat_map (map y) data_list) ;;
      let full_data_list := map (full_data min_frame0 max_frame0) data_list in
      Ok {| filenames := Some names;
            x_coords_list :=
              x_coords_list self ++ map (map (fun kv => fst (snd kv))) full_data_list;
            y_coords_list :=
              y_coords_list self ++ map (map (fun kv => snd (snd kv))) full_data_list;
            frames_list := frames_list self ++ map (map fst) full_data_list;
            min_frame := min_frame0; max_frame := max_frame0;
            max_x := max_x0; max_y := max_y0 |}
  end.

(** The last point of a trajectory in a given frame. *)
Fixpoint last_at (k : Z) (data : list point) : option point :=
  match data with
  | [] => None
  | p :: rest =>
      match last_at k rest with
      | Some q => Some q
      | None => if frame p =? k then Some p else None
      end
  end.

(** The points that [update] draws for one trajectory at a step of the
    animation: [x_coords[: frame + 1]] zipped with [y_coords[: frame + 1]],
    without the pairs that hold a -1.  The step is one of the
    [0, 1, ...] that [FuncAnimation] passes. *)
Definition filtered_points (x_coords y_coords : list Z) (step : nat) : list (Z * Z) :=
  filter (fun xy => negb (fst xy =? -1) && negb (snd xy =? -1))
         (combine (firstn (S step) x_coords) (firstn (S step) y_coords)).

(** The [if filtered_points:] of [update]: one call of [plt.plot], with
    (filtered_x, filtered_y, label), when there is a point to draw. *)
Definition plot (points : list (Z * Z)) (label : string)
  : list (list Z * list Z * string) :=
  match points with
  | [] => []
  | _ :: _ => [(map fst points, map snd points, label)]
  end.

(** [update]: the calls of [plt.plot], in order.  [zip] raises [TypeError]
    on the [None] of a dialog without selection. *)
Definition update (self : t) (step : nat) : result (list (list Z * list Z * string)) :=
  match filenames self with
  | None => Raise TypeError
  | Some names =>
      Ok (flat_map
            (fun entry =>
               plot (filtered_points (fst (fst entry)) (snd (fst entry)) step) (snd entry))
            (combine (combine (x_coords_list self) (y_coords_list self)) names))
  end.

(** The points of a trajectory to be seen at a step of the animation that
    starts at frame [first]: for each frame up to [first + step], the last
    point recorded for it, unless one of its coordinates is -1. *)
Definition visible (first : Z) (data : list point) (step : nat) : list (Z * Z) :=
  flat_map
    (fun k =>
       match last_at k data with
       | Some p => if negb (x p =? -1) && negb (y p =? -1) then [(x p, y p)] else []
       | None => []
       end)
    (range first (first + Z.of_nat (S step))).

(** The upper end of the frames of a prepared trajectory: the dict has a
    key [max_frame] only if a point of the trajectory is in that frame. *)
Definition key_end (max_frame0 : Z) (data : list point) : Z :=
  if existsb (fun p => frame p =? max_frame0) data then max_frame0 + 1 else max_frame0.

(** The coordinates to be expected for a frame: those of the last point
    recorded for it, (-1, -1) without one. *)
Definition value_at (data : list point) (k : Z) : Z * Z :=
  match last_at k data with
  | Some p => (x p, y p)
  | None => (-1, -1)
  end.

End Presenter.

Module PresenterExamples.
Import Presenter.

(** The trajectory of [presenter_test.py], and one that ends earlier. *)
Definition test_data : list point := [mkPoint 1 1 2; mkPoint 2 3 4].
Definition early_data : list point := [mkPoint 1 7 8].

End PresenterExamples.

(** * Properties *)

Import Py.

(** The sample entities are what the constructors build. *)
Lemma examples_are_constructed :
  Circle.init 100 200 50 Examples.red 1 1080 = Ok Examples.circle1 /\
  Circle.init 105 205 50 Examples.green 2 1080 = Ok Examples.circle2_green /\
  Circle.init 105 205 50 Examples.red_nan 2 1080 = Ok Examples.circle2_nan /\
  Rectangle.init 10 20 100 100 Examples.red 1 1080 = Ok Examples.rect1 /\
  Rectangle.init 15 25 100 100 Examples.green 2 1080 = Ok Examples.rect2_green /\
  Rectangle.init 15 25 100 100 Examples.red_nan 2 1080 = Ok Examples.rect2_nan.
Proof. repeat split; reflexivity. Qed.

(** The assertions of the test suite hold of the embedding. *)
Lemma circle_test_suite :
  Circle.filter_nan Examples.red_nan = Ok None_ /\
  Circle.is_valid_color Examples.red = true /\
  Circle.is_valid_color (Examples.rgb 256 0 0) = false /\
  Circle.is_valid_color (Tuple [Float (Np.of_int 256); Str "aa"; Float (Np.of_int 0)])
    = false /\
  truthy (Circle.are_colors_similar Examples.red Examples.reddish 10) = true /\
  truthy (Circle.are_colors_similar Examples.red (Examples.rgb 255 0 10) 10) = true /\
  truthy (Circle.are_colors_similar Examples.red (Examples.rgb 255 0 10) 0) = false /\
  truthy (Circle.are_colors_similar Examples.red (Examples.rgb 255 0 20) 10) = false /\
  Circle.are_circles_same Examples.circle1 Examples.circle1 50 17
    = Float (S754_zero false) /\
  is_False (Circle.are_circles_same Examples.circle1
              (Examples.seed_circle 100 200 100 Examples.red 2 1080) 50 50) = false /\
  is_False (Circle.are_circles_same Examples.circle1
              (Examples.seed_circle 100 200 100 Examples.red 2 1080) 50 49) = true /\
  is_False (Circle.are_circles_same Examples.circle1
              (Examples.seed_circle 150 250 50 Examples.red 2 1080) 70 17) = true /\
  is_False (Circle.are_circles_same Examples.circle1
              (Examples.seed_circle 150 250 50 Examples.red 2 1080) 71 17) = false /\
  fst (Circle.same_circle Examples.circle1 Examples.circle2 1080) = true /\
  fst (Circle.same_circle (Examples.seed_circle 110 210 50 Examples.red 3 1080)
         Examples.circle2 1080) = false /\
  fst (Circle.same_circle (Examples.seed_circle 110 210 50 Examples.red 3 1080)
         (Examples.seed_circle 110 210 50 Examples.red 53 1080) 1080) = false.
Proof. repeat split. Qed.

Lemma rectangle_test_suite :
  is_False (Rectangle.are_rectangles_same
              (Examples.seed_rectangle 100 200 50 50 Examples.red 1 1080)
              (Examples.seed_rectangle 105 205 55 55 (Examples.rgb 255 255 255) 2 1080)
              40 0) = true /\
  is_False (Rectangle.are_rectangles_same
              (Examples.seed_rectangle 100 200 50 50 Examples.red 1 1080)
              (Examples.seed_rectangle 105 205 55 55 (Examples.rgb 255 255 255) 2 1080)
              40 10) = false /\
  is_False (Rectangle.are_rectangles_same
              (Examples.seed_rectangle 100 200 50 50 Examples.red 1 1080)
              (Examples.seed_rectangle 105 205 55 55 (Examples.rgb 255 255 255) 2 1080)
              0 10) = true /\
  is_False (Rectangle.are_rectangles_same
              (Examples.seed_rectangle 100 200 50 50 Examples.red 1 1080)
              (Examples.seed_rectangle 105 205 55 55 (Examples.rgb 255 255 255) 2 1080)
              10 10) = false /\
  fst (Rectangle.same_rectangle Examples.rect1 Examples.rect2 1080) = true /\
  Rectangle.same_rectangle
    (Examples.seed_rectangle 10 20 100 50 Examples.red 1 1080)
    (Examples.seed_rectangle 15 25 100 50 Examples.green 2 1080) 1080
  = (false, Examples.seed_rectangle 10 20 100 50 Examples.red 1 1080).
Proof. repeat split. Qed.

(** ** Rejections leave the entity as it was *)

Ltac case_ifs :=
  repeat match goal with
         | |- context [if ?b then _ else _] => destruct b eqn:?
         end.

Lemma same_circle_rejects_unchanged (self circle : Circle.t) (vh : Z) :
  fst (Circle.same_circle self circle vh) = false ->
  Circle.same_circle self circle vh = (false, self).
Proof.
  unfold Circle.same_circle. case_ifs; simpl; congruence.
Qed.

Lemma same_rectangle_rejects_unchanged (self rectangle : Rectangle.t) (vh : Z) :
  fst (Rectangle.same_rectangle self rectangle vh) = false ->
  Rectangle.same_rectangle self rectangle vh = (false, self).
Proof.
  unfold Rectangle.same_rectangle. case_ifs; simpl; congruence.
Qed.

(** ** Chronology *)

(** C3: an observation whose frame is not after the current frame of the
    entity is refused and the entity is returned as it was, with every
    field and the trajectory untouched, for circles and for rectangles. *)
Theorem C3_stale_frame_rejected_unmutated (vh : Z) :
  (forall self circle : Circle.t,
      Circle.frame circle <= Circle.frame self ->
      Circle.same_circle self circle vh = (false, self)) /\
  (forall self rectangle : Rectangle.t,
      Rectangle.frame rectangle <= Rectangle.frame self ->
      Rectangle.same_rectangle self rectangle vh = (false, self)).
Proof.
  split; intros self obs Hle.
  - unfold Circle.same_circle.
    apply Z.leb_le in Hle. rewrite Hle. reflexivity.
  - unfold Rectangle.same_rectangle.
    apply Z.leb_le in Hle. rewrite Hle. reflexivity.
Qed.

Lemma C3_stale_frame_witness :
  Circle.same_circle Examples.circle2 Examples.circle1 1080 = (false, Examples.circle2) /\
  Rectangle.same_rectangle Examples.rect2 Examples.rect1 1080 = (false, Examples.rect2).
Proof.
  split.
  - apply (proj1 (C3_stale_frame_rejected_unmutated 1080)). simpl. lia.
  - apply (proj2 (C3_stale_frame_rejected_unmutated 1080)). simpl. lia.
Defined.

(** ** The tracking window *)

(** C4: a gap of 21 frames is refused; a gap of 20 frames is accepted when
    the geometric test returns a distance and the colours are similar. *)
Theorem C4_window_boundary_inclusive_at_20 (vh : Z) :
  (forall self circle : Circle.t,
      Circle.frame circle - Circle.frame self = 21 ->
      fst (Circle.same_circle self circle vh) = false) /\
  (forall self circle : Circle.t,
      Circle.frame circle - Circle.frame self = 20 ->
      is_False (Circle.are_circles_same self circle
                  Circle.default_distance_threshold Circle.default_radius_threshold) = false ->
      Circle.are_colors_similar (Circle.color self) (Circle.color circle)
        Circle.default_tolerance = NpBool true ->
      fst (Circle.same_circle self circle vh) = true) /\
  (forall self rectangle : Rectangle.t,
      Rectangle.frame rectangle - Rectangle.frame self = 21 ->
      fst (Rectangle.same_rectangle self rectangle vh) = false) /\
  (forall self rectangle : Rectangle.t,
      Rectangle.frame rectangle - Rectangle.frame self = 20 ->
      is_False (Rectangle.are_rectangles_same self rectangle
                  Rectangle.default_distance_threshold
                  Rectangle.default_size_diff_threshold) = false ->
      Rectangle.are_colors_similar (Rectangle.color self) (Rectangle.color rectangle)
        Circle.default_tolerance = NpBool true ->
      fst (Rectangle.same_rectangle self rectangle vh) = true).
Proof.
  repeat split.
  - intros self obs Hgap. unfold Circle.same_circle.
    destruct (Circle.frame obs <=? Circle.frame self); [reflexivity|].
    replace (Circle.frame obs - Circle.frame self >? 20) with true
      by (symmetry; apply Z.gtb_lt; lia).
    reflexivity.
  - intros self obs Hgap Hgeo Hcol. unfold Circle.same_circle.
    replace (Circle.frame obs <=? Circle.frame self) with false
      by (symmetry; apply Z.leb_gt; lia).
    replace (Circle.frame obs - Circle.frame self >? 20) with false
      by (symmetry; rewrite Z.gtb_ltb; apply Z.ltb_ge; lia).
    rewrite Hgeo, Hcol. reflexivity.
  - intros self obs Hgap. unfold Rectangle.same_rectangle.
    destruct (Rectangle.frame obs <=? Rectangle.frame self); [reflexivity|].
    replace (Rectangle.frame obs - Rectangle.frame self >? 20) with true
      by (symmetry; apply Z.gtb_lt; lia).
    reflexivity.
  - intros self obs Hgap Hgeo Hcol. unfold Rectangle.same_rectangle.
    replace (Rectangle.frame obs <=? Rectangle.frame self) with false
      by (symmetry; apply Z.leb_gt; lia).
    replace (Rectangle.frame obs - Rectangle.frame self >? 20) with false
      by (symmetry; rewrite Z.gtb_ltb; apply Z.ltb_ge; lia).
    rewrite Hgeo, Hcol. reflexivity.
Qed.

Lemma C4_window_boundary_witness :
  fst (Circle.same_circle Examples.circle1 Examples.circle22 1080) = false /\
  fst (Circle.same_circle Examples.circle1 Examples.circle21 1080) = true /\
  fst (Rectangle.same_rectangle Examples.rect1 Examples.rect22 1080) = false /\
  fst (Rectangle.same_rectangle Examples.rect1 Examples.rect21 1080) = true.
Proof.
  destruct (C4_window_boundary_inclusive_at_20 1080) as [Hc21 [Hc20 [Hr21 Hr20]]].
  split; [|split; [|split]].
  - apply Hc21. reflexivity.
  - apply Hc20; reflexivity.
  - apply Hr21. reflexivity.
  - apply Hr20; reflexivity.
Defined.

(** ** The colour test of the merge *)

(** The geometric tests return a float64 distance or [False]. *)
Lemma are_circles_same_cases (self circle : Circle.t) (dt rt : Z) :
  (exists distance, Circle.are_circles_same self circle dt rt = Float distance) \/
  Circle.are_circles_same self circle dt rt = Bool false.
Proof.
  unfold Circle.are_circles_same.
  match goal with |- context [if ?b then _ else _] => destruct b end;
    [left; eexists; reflexivity | right; reflexivity].
Qed.

Lemma are_rectangles_same_cases (self rect : Rectangle.t) (dt st : Z) :
  (exists distance, Rectangle.are_rectangles_same self rect dt st = Float distance) \/
  Rectangle.are_rectangles_same self rect dt st = Bool false.
Proof.
  unfold Rectangle.are_rectangles_same. cbv zeta.
  match goal with |- context [if ?b then _ else _] => destruct b end;
    [left; eexists; reflexivity | right; reflexivity].
Qed.

(** The colour comparison answers [None] or a [numpy.bool_], and neither
    is the object [False]. *)
Lemma are_colors_similar_cases (color1 color2 : value) (tolerance : Z) :
  Circle.are_colors_similar color1 color2 tolerance = None_ \/
  exists b, Circle.are_colors_similar color1 color2 tolerance = NpBool b.
Proof.
  unfold Circle.are_colors_similar.
  destruct (negb _); [left; reflexivity|].
  destruct (Circle.np_array color1); [|left; reflexivity].
  destruct (Circle.np_array color2); [|left; reflexivity].
  right. eexists. reflexivity.
Qed.

(** Valid colours have their float arrays, of three channels. *)
Lemma valid_color_has_array (color : value) :
  Circle.is_valid_color color = true ->
  exists f1 f2 f3, Circle.np_array color = Some [f1; f2; f3].
Proof.
  destruct color as [ | | | | | |l| | ]; simpl; try discriminate.
  intros H. apply andb_true_iff in H as [Hlen Hall].
  apply Z.eqb_eq in Hlen.
  destruct l as [|c1 [|c2 [|c3 [|c4 l]]]]; simpl in Hlen; try lia.
  cbn [forallb] in Hall.
  destruct c1, c2, c3; simpl in Hall; try discriminate;
    rewrite ?andb_false_r in Hall; try discriminate.
  simpl. eauto.
Qed.

Lemma are_colors_similar_is_not_False (color1 color2 : value) (tolerance : Z) :
  is_False (Circle.are_colors_similar color1 color2 tolerance) = false.
Proof.
  destruct (are_colors_similar_cases color1 color2 tolerance) as [H | [b H]];
    rewrite H; reflexivity.
Qed.

(** A rectangle refuses an observation whose colour comparison is unknown
    or false. *)
Lemma same_rectangle_rejects_dissimilar (self rectangle : Rectangle.t) (vh : Z) :
  Rectangle.are_colors_similar (Rectangle.color self) (Rectangle.color rectangle)
    Circle.default_tolerance <> NpBool true ->
  Rectangle.same_rectangle self rectangle vh = (false, self).
Proof.
  intros Hcol. unfold Rectangle.same_rectangle.
  case_ifs; try reflexivity.
  exfalso. apply Hcol.
  unfold Rectangle.are_colors_similar in *.
  destruct (are_colors_similar_cases (Rectangle.color self) (Rectangle.color rectangle)
              Circle.default_tolerance) as [H | [[|] H]];
    rewrite H in *; simpl in *; congruence.
Qed.

(** A circle accepts on chronology and geometry alone. *)
Lemma same_circle_accepts_any_color (self circle : Circle.t) (vh : Z) :
  Circle.frame self < Circle.frame circle <= Circle.frame self + 20 ->
  is_False (Circle.are_circles_same self circle
              Circle.default_distance_threshold Circle.default_radius_threshold) = false ->
  fst (Circle.same_circle self circle vh) = true.
Proof.
  intros Hframe Hgeo. unfold Circle.same_circle.
  replace (Circle.frame circle <=? Circle.frame self) with false
    by (symmetry; apply Z.leb_gt; lia).
  replace (Circle.frame circle - Circle.frame self >? 20) with false
    by (symmetry; rewrite Z.gtb_ltb; apply Z.ltb_ge; lia).
  rewrite Hgeo, are_colors_similar_is_not_False. reflexivity.
Qed.

(** C1: the circle path does not refuse on colour.  [same_circle] tests
    the comparison with [is False], which neither [None] (a colour is
    invalid) nor numpy's boolean satisfies: the circle of frame 1 absorbs
    an observation whose colour is absent and one whose colour is
    dissimilar, while [same_rectangle], which tests with [not], refuses
    both. *)
Theorem C1_same_circle_absorbs_undetermined_color :
  (forall color1 color2 tolerance,
      is_False (Circle.are_colors_similar color1 color2 tolerance) = false) /\
  Circle.are_colors_similar (Circle.color Examples.circle1)
    (Circle.color Examples.circle2_nan) Circle.default_tolerance = None_ /\
  fst (Circle.same_circle Examples.circle1 Examples.circle2_nan 1080) = true /\
  Circle.are_colors_similar (Circle.color Examples.circle1)
    (Circle.color Examples.circle2_green) Circle.default_tolerance = NpBool false /\
  fst (Circle.same_circle Examples.circle1 Examples.circle2_green 1080) = true /\
  Rectangle.same_rectangle Examples.rect1 Examples.rect2_nan 1080
    = (false, Examples.rect1) /\
  Rectangle.same_rectangle Examples.rect1 Examples.rect2_green 1080
    = (false, Examples.rect1).
Proof.
  split; [exact are_colors_similar_is_not_False|].
  repeat split.
Qed.

(** ** What a successful merge writes *)

(** C2, as amended: a successful merge overwrites the position and the
    frame of the entity with those of the observation, leaves the colour
    of the entity as it was, and appends one record with the position of
    the observation (y flipped against the video height), its frame, its
    size fields and the distance computed by the geometric test; the
    record of a circle carries the colour of the observation. *)
Theorem C2_merge_overwrites_position_and_frame (vh : Z) :
  (forall self circle self' : Circle.t,
      Circle.same_circle self circle vh = (true, self') ->
      Circle.x self' = Circle.x circle /\
      Circle.y self' = Circle.y circle /\
      Circle.frame self' = Circle.frame circle /\
      Circle.color self' = Circle.color self /\
      exists record distance,
        Circle.data self' = Circle.data self ++ [record] /\
        Circle.are_circles_same self circle Circle.default_distance_threshold
          Circle.default_radius_threshold = Float distance /\
        get "x" record = Some (Int (Circle.x self')) /\
        get "y" record = Some (Int (vh - Circle.y self')) /\
        get "frame" record = Some (Int (Circle.frame self')) /\
        get "radius" record = Some (Int (Circle.radius circle)) /\
        get "distance" record = Some (Float distance) /\
        get "color" record = Some (Circle.color circle)) /\
  (forall self rectangle self' : Rectangle.t,
      Rectangle.same_rectangle self rectangle vh = (true, self') ->
      Rectangle.x self' = Rectangle.x rectangle /\
      Rectangle.y self' = Rectangle.y rectangle /\
      Rectangle.frame self' = Rectangle.frame rectangle /\
      Rectangle.color self' = Rectangle.color self /\
      exists record distance,
        Rectangle.data self' = Rectangle.data self ++ [record] /\
        Rectangle.are_rectangles_same self rectangle Rectangle.default_distance_threshold
          Rectangle.default_size_diff_threshold = Float distance /\
        get "x" record = Some (Int (Rectangle.x self')) /\
        get "y" record = Some (Int (vh - Rectangle.y self')) /\
        get "frame" record = Some (Int (Rectangle.frame self')) /\
        get "width" record = Some (Int (Rectangle.width rectangle)) /\
        get "height" record = Some (Int (Rectangle.height rectangle)) /\
        get "distance" record = Some (Float distance)).
Proof.
  split.
  - intros self obs self' Hmerge. unfold Circle.same_circle in Hmerge.
    destruct (Circle.frame obs <=? Circle.frame self); [discriminate|].
    destruct (Circle.frame obs - Circle.frame self >? 20); [discriminate|].
    destruct (are_circles_same_cases self obs Circle.default_distance_threshold
                Circle.default_radius_threshold) as [[d Hd] | Hd];
      rewrite Hd in Hmerge; simpl in Hmerge; [|discriminate].
    rewrite are_colors_similar_is_not_False in Hmerge.
    injection Hmerge as <-. simpl.
    do 4 (split; [reflexivity|]).
    eexists. exists d. rewrite Hd.
    repeat (split; [reflexivity|]). reflexivity.
  - intros self obs self' Hmerge. unfold Rectangle.same_rectangle in Hmerge.
    destruct (Rectangle.frame obs <=? Rectangle.frame self); [discriminate|].
    destruct (Rectangle.frame obs - Rectangle.frame self >? 20); [discriminate|].
    destruct (are_rectangles_same_cases self obs Rectangle.default_distance_threshold
                Rectangle.default_size_diff_threshold) as [[d Hd] | Hd];
      rewrite Hd in Hmerge; simpl in Hmerge; [|discriminate].
    destruct (negb _); [discriminate|].
    injection Hmerge as <-. simpl.
    do 4 (split; [reflexivity|]).
    eexists. exists d. rewrite Hd.
    repeat (split; [reflexivity|]). reflexivity.
Qed.

Lemma C2_merge_witness :
  Circle.x (snd (Circle.same_circle Examples.circle1 Examples.circle2_reddish 1080)) = 105 /\
  Circle.frame (snd (Circle.same_circle Examples.circle1 Examples.circle2_reddish 1080)) = 2 /\
  Rectangle.y (snd (Rectangle.same_rectangle Examples.rect1 Examples.rect2_reddish 1080)) = 25 /\
  Rectangle.color (snd (Rectangle.same_rectangle Examples.rect1 Examples.rect2_reddish 1080))
    = Examples.red.
Proof.
  destruct (C2_merge_overwrites_position_and_frame 1080) as [Hc Hr].
  destruct (Hc Examples.circle1 Examples.circle2_reddish
              (snd (Circle.same_circle Examples.circle1 Examples.circle2_reddish 1080))
              eq_refl) as [Hx [_ [Hf _]]].
  destruct (Hr Examples.rect1 Examples.rect2_reddish
              (snd (Rectangle.same_rectangle Examples.rect1 Examples.rect2_reddish 1080))
              eq_refl) as [_ [Hy [_ [Hcol _]]]].
  split; [exact Hx|]. split; [exact Hf|]. split; [exact Hy|exact Hcol].
Defined.

(** C2, as stated, fails: after a successful merge the colour of the
    entity is still its own and not that of the observation (so is the
    radius of a circle), and the record a rectangle appends carries the
    colour of the entity. *)
Lemma C2_counterexample_color_not_overwritten :
  fst (Circle.same_circle Examples.circle1 Examples.circle2_reddish 1080) = true /\
  Circle.color (snd (Circle.same_circle Examples.circle1 Examples.circle2_reddish 1080))
    <> Circle.color Examples.circle2_reddish /\
  Circle.radius (snd (Circle.same_circle Examples.circle1 Examples.circle2_reddish 1080))
    <> Circle.radius Examples.circle2_reddish /\
  fst (Rectangle.same_rectangle Examples.rect1 Examples.rect2_reddish 1080) = true /\
  Rectangle.color (snd (Rectangle.same_rectangle Examples.rect1 Examples.rect2_reddish 1080))
    <> Rectangle.color Examples.rect2_reddish /\
  option_map (get "color")
    (last_error (Rectangle.data
       (snd (Rectangle.same_rectangle Examples.rect1 Examples.rect2_reddish 1080))))
    <> Some (Some (Rectangle.color Examples.rect2_reddish)).
Proof.
  split; [reflexivity|].
  split; [vm_compute; discriminate|].
  split; [vm_compute; discriminate|].
  split; [reflexivity|].
  split; vm_compute; discriminate.
Qed.

(** ** Symmetry of the colour comparison *)

Section AbsoluteDifference.

(** Rounding treats the sign apart from the magnitude. *)
Lemma abs_binary_round_aux (sx : bool) (mx ex : Z) (lx : location) :
  SFabs (binary_round_aux Np.prec Np.emax sx mx ex lx)
  = SFabs (binary_round_aux Np.prec Np.emax false mx ex lx).
Proof.
  unfold binary_round_aux.
  destruct (shr_fexp Np.prec Np.emax mx ex lx) as [mrs' e'].
  destruct (shr_fexp Np.prec Np.emax _ e' loc_Exact) as [mrs'' e''].
  destruct (shr_m mrs''); try reflexivity.
  destruct (Z.leb e'' _); reflexivity.
Qed.

Lemma abs_binary_round (sx : bool) (mx : positive) (ex : Z) :
  SFabs (binary_round Np.prec Np.emax sx mx ex)
  = SFabs (binary_round Np.prec Np.emax false mx ex).
Proof.
  unfold binary_round.
  destruct (shl_align mx ex _) as [mz ez].
  apply abs_binary_round_aux.
Qed.

Lemma abs_binary_normalize_opp (m e : Z) :
  SFabs (binary_normalize Np.prec Np.emax (- m) e false)
  = SFabs (binary_normalize Np.prec Np.emax m e false).
Proof.
  destruct m as [|p|p]; simpl; [reflexivity| |].
  - apply abs_binary_round.
  - symmetry. apply abs_binary_round.
Qed.

(** |a - b| and |b - a| are the same float64. *)
Lemma abs_sub_comm (a b : Np.float64) :
  Np.abs (Np.sub a b) = Np.abs (Np.sub b a).
Proof.
  unfold Np.abs, Np.sub.
  destruct a as [sa|sa| |sa ma ea], b as [sb|sb| |sb mb eb];
    try reflexivity;
    try (destruct sa, sb; reflexivity);
    try (destruct sa; reflexivity);
    try (destruct sb; reflexivity).
  unfold SFsub.
  rewrite (Z.min_comm eb ea).
  rewrite <- abs_binary_normalize_opp.
  f_equal. f_equal. lia.
Qed.

Lemma color_diffs_comm (a1 a2 : list Np.float64) :
  map Np.abs (Np.zip_with Np.sub a1 a2) = map Np.abs (Np.zip_with Np.sub a2 a1).
Proof.
  revert a2. induction a1 as [|x a1 IH]; intros [|y a2]; simpl; try reflexivity.
  rewrite abs_sub_comm, IH. reflexivity.
Qed.

End AbsoluteDifference.

(** C9: the colour comparison is symmetric, whatever the two colours and
    the tolerance: both orders give [None] when a colour is invalid, and
    the same boolean otherwise. *)
Theorem C9_are_colors_similar_symmetric (color1 color2 : value) (tolerance : Z) :
  Circle.are_colors_similar color1 color2 tolerance
  = Circle.are_colors_similar color2 color1 tolerance.
Proof.
  unfold Circle.are_colors_similar.
  rewrite (andb_comm (Circle.is_valid_color color2)).
  destruct (negb _); [reflexivity|].
  destruct (Circle.np_array color1) as [a1|], (Circle.np_array color2) as [a2|];
    try reflexivity.
  cbv zeta. rewrite color_diffs_comm. reflexivity.
Qed.

(** ** Validity of a colour *)

Lemma in_range_is_finite (f : Np.float64) :
  Np.le (Np.of_int 0) f = true -> Np.le f (Np.of_int 255) = true ->
  Np.isfinite f = true.
Proof.
  destruct f as [s|s| |s m e]; try reflexivity.
  - destruct s; discriminate.
  - discriminate.
Qed.

Lemma valid_channel_inv (c : value) :
  Circle.valid_channel c = true <->
  exists f, c = Float f /\ Np.isfinite f = true /\
            Np.le (Np.of_int 0) f = true /\ Np.le f (Np.of_int 255) = true.
Proof.
  split.
  - destruct c; simpl; try discriminate.
    intros H. apply andb_true_iff in H as [H0 H255].
    exists f. repeat split; auto using in_range_is_finite.
  - intros [f [-> [_ [H0 H255]]]]. unfold Circle.valid_channel.
    rewrite H0, H255. reflexivity.
Qed.

Lemma is_valid_color_inv (color : value) :
  Circle.is_valid_color color = true <->
  exists f1 f2 f3,
    color = Tuple [Float f1; Float f2; Float f3] /\
    Forall Spec.float_in_range [f1; f2; f3].
Proof.
  unfold Spec.float_in_range. split.
  - destruct color as [ | | | | | |l| | ]; simpl; try discriminate.
    intros H. apply andb_true_iff in H as [Hlen Hall].
    apply Z.eqb_eq in Hlen.
    destruct l as [|c1 [|c2 [|c3 [|c4 l]]]]; simpl in Hlen; try lia.
    cbn [forallb] in Hall.
    apply andb_true_iff in Hall as [H1 Hall].
    apply andb_true_iff in Hall as [H2 Hall].
    apply andb_true_iff in Hall as [H3 _].
    apply valid_channel_inv in H1 as [f1 [-> H1]].
    apply valid_channel_inv in H2 as [f2 [-> H2]].
    apply valid_channel_inv in H3 as [f3 [-> H3]].
    exists f1, f2, f3. split; [reflexivity|].
    repeat constructor; tauto.
  - intros [f1 [f2 [f3 [-> Hall]]]].
    inversion Hall as [|? ? [_ [Ha1 Ha2]] Hall1]; subst.
    inversion Hall1 as [|? ? [_ [Hb1 Hb2]] Hall2]; subst.
    inversion Hall2 as [|? ? [_ [Hc1 Hc2]] _]; subst.
    unfold Circle.is_valid_color, forallb, Circle.valid_channel.
    rewrite Ha1, Ha2, Hb1, Hb2, Hc1, Hc2. reflexivity.
Qed.

(** C7, as amended: [is_valid_color] holds exactly of the tuples of three
    floats, each finite and between 0 and 255; a channel written as an
    integer does not pass [isinstance(c, float)]. *)
Theorem C7_is_valid_color_iff_three_floats_in_range (color : value) :
  Circle.is_valid_color color = true <->
  exists f1 f2 f3,
    color = Tuple [Float f1; Float f2; Float f3] /\
    Forall Spec.float_in_range [f1; f2; f3].
Proof. exact (is_valid_color_inv color). Qed.

(** C7, as stated, fails on channels written as integers: (255, 0, 0) has
    three channels in range and is not valid. *)
Lemma C7_counterexample_integer_channels :
  Spec.colorValid (Tuple [Int 255; Int 0; Int 0]) = true /\
  Circle.is_valid_color (Tuple [Int 255; Int 0; Int 0]) = false.
Proof. split; reflexivity. Qed.

(** What [is_valid_color] accepts, the specification accepts. *)
Lemma is_valid_color_implies_spec (color : value) :
  Circle.is_valid_color color = true -> Spec.colorValid color = true.
Proof.
  intros H. apply is_valid_color_inv in H as [f1 [f2 [f3 [-> Hall]]]].
  inversion Hall as [|? ? [Ha [Ha1 Ha2]] Hall1]; subst.
  inversion Hall1 as [|? ? [Hb [Hb1 Hb2]] Hall2]; subst.
  inversion Hall2 as [|? ? [Hc [Hc1 Hc2]] _]; subst.
  unfold Spec.colorValid, forallb, Spec.real_in_range.
  rewrite Ha, Ha1, Ha2, Hb, Hb1, Hb2, Hc, Hc1, Hc2. reflexivity.
Qed.

(** ** Normalization of a colour *)

Lemma filter_nan_loop_spec (xs filtered_color : list value) :
  Circle.filter_nan_loop xs filtered_color
  = if forallb Spec.float_not_nan xs then Tuple (filtered_color ++ xs) else None_.
Proof.
  revert filtered_color. induction xs as [|c xs IH]; intros acc; simpl.
  - rewrite app_nil_r. reflexivity.
  - destruct c; simpl; try reflexivity.
    destruct (Np.isnan f); simpl; [reflexivity|].
    rewrite IH, <- app_assoc. reflexivity.
Qed.

Lemma invalid_color_is_undetermined (color1 color2 : value) (tolerance : Z) :
  Circle.is_valid_color color1 = false ->
  Circle.are_colors_similar color1 color2 tolerance = None_ /\
  Circle.are_colors_similar color2 color1 tolerance = None_.
Proof.
  intros H. unfold Circle.are_colors_similar.
  rewrite H, andb_false_r. split; reflexivity.
Qed.

(** C6, as amended: on a colour that can be iterated (a tuple or a list of
    channels of any length) [filter_nan] raises nothing; it answers [None]
    when a channel is not a float or is NaN and the tuple of the channels
    otherwise, whatever their number.  [is_valid_color] is a total test; it
    refuses the absent colour [None], every tuple that does not have three
    channels and every tuple with a channel that is not a float in
    [0,255]; and a comparison in which one colour is refused, the absent
    colour among them, is undetermined ([None]), whatever the other colour
    is. *)
Theorem C6_iterable_colors_never_raise :
  (forall (color : value) (channels : list value),
      iter color = Ok channels ->
      Circle.filter_nan color
      = Ok (if forallb Spec.float_not_nan channels then Tuple channels else None_)) /\
  Circle.is_valid_color None_ = false /\
  (forall channels : list value,
      List.length channels <> 3%nat -> Circle.is_valid_color (Tuple channels) = false) /\
  (forall channels : list value,
      forallb Circle.valid_channel channels = false ->
      Circle.is_valid_color (Tuple channels) = false) /\
  (forall (color color2 : value) (tolerance : Z),
      Circle.is_valid_color color = false ->
      Circle.are_colors_similar color color2 tolerance = None_ /\
      Circle.are_colors_similar color2 color tolerance = None_) /\
  (forall (color2 : value) (tolerance : Z),
      Circle.are_colors_similar None_ color2 tolerance = None_ /\
      Circle.are_colors_similar color2 None_ tolerance = None_).
Proof.
  split; [|split; [|split; [|split; [|split]]]].
  - intros color channels Hiter. unfold Circle.filter_nan. rewrite Hiter. simpl.
    rewrite filter_nan_loop_spec. reflexivity.
  - reflexivity.
  - intros channels Hlen. unfold Circle.is_valid_color.
    replace (Z.of_nat (List.length channels) =? 3) with false
      by (symmetry; apply Z.eqb_neq; lia).
    reflexivity.
  - intros channels Hchannel. unfold Circle.is_valid_color.
    rewrite Hchannel. apply andb_false_r.
  - intros color color2 tolerance. apply invalid_color_is_undetermined.
  - intros color2 tolerance. apply invalid_color_is_undetermined. reflexivity.
Qed.

Lemma C6_iterable_colors_witness :
  Circle.filter_nan Examples.red_nan = Ok None_ /\
  Circle.filter_nan (List [Float (Np.of_int 1); Int 2]) = Ok None_ /\
  Circle.is_valid_color (Tuple [Float (Np.of_int 255); Float (Np.of_int 0)]) = false /\
  Circle.is_valid_color (Examples.rgb 256 0 0) = false /\
  Circle.are_colors_similar Examples.red_nan Examples.red 30 = None_ /\
  Circle.are_colors_similar Examples.red None_ 30 = None_.
Proof.
  destruct C6_iterable_colors_never_raise
    as [Hfilter [_ [Harity [Hrange [Hrefused Habsent]]]]].
  split; [|split; [|split; [|split; [|split]]]].
  - exact (Hfilter Examples.red_nan
             [Float (Np.of_int 255); Float S754_nan; Float (Np.of_int 0)] eq_refl).
  - exact (Hfilter (List [Float (Np.of_int 1); Int 2]) [Float (Np.of_int 1); Int 2] eq_refl).
  - apply Harity. simpl. lia.
  - apply Hrange. reflexivity.
  - apply (Hrefused Examples.red_nan Examples.red 30). reflexivity.
  - apply (Habsent Examples.red 30).
Defined.

(** C6, as stated, fails: the absent colour [None], which is the default
    of the constructors, makes [filter_nan] raise [TypeError], and a colour
    of the wrong arity is not normalized to [None]. *)
Lemma C6_counterexample_none_raises_arity_kept :
  Circle.filter_nan None_ = Raise TypeError /\
  Circle.init 0 0 0 None_ 0 0 = Raise TypeError /\
  Rectangle.init 0 0 0 0 None_ 0 0 = Raise TypeError /\
  Circle.filter_nan (Tuple [Float (Np.of_int 255); Float (Np.of_int 0)])
    = Ok (Tuple [Float (Np.of_int 255); Float (Np.of_int 0)]) /\
  Circle.is_valid_color (Tuple [Float (Np.of_int 255); Float (Np.of_int 0)]) = false.
Proof. repeat split. Qed.

(** ** Persistence records *)

Lemma save_circle_record (self : Circle.t) (name : Z) :
  Circle.save_circle self name
  = (("data/circle_data_" ++ format_int name ++ ".json")%string,
     Dict [ ("filename", Str ("circle_data_" ++ format_int name ++ ".json")%string);
            ("radius", Int (Circle.radius self));
            ("color", Circle.color self);
            ("data", List (Circle.data self)) ]).
Proof. reflexivity. Qed.



(** C8: the record of a rectangle has no filename.  [save_circle] stores
    the generated name under the key "filename"; [save_rectangle] builds
    the name, uses it for the path of the file, and leaves it out of the
    record, whose keys are width, height, color and data. *)
Theorem C8_rectangle_record_lacks_filename :
  (forall (self : Rectangle.t) (name : Z),
      Rectangle.save_rectangle self name
      = (("data/rectangle_data_" ++ format_int name ++ ".json")%string,
         Dict [ ("width", Int (Rectangle.width self));
                ("height", Int (Rectangle.height self));
                ("color", Rectangle.color self);
                ("data", List (Rectangle.data self)) ])) /\
  (forall (self : Rectangle.t) (name : Z),
      get "filename" (snd (Rectangle.save_rectangle self name)) = None) /\
  (forall (self : Circle.t) (name : Z),
      get "filename" (snd (Circle.save_circle self name))
      = Some (Str ("circle_data_" ++ format_int name ++ ".json")%string)) /\
  keys (snd (Rectangle.save_rectangle Examples.rect1 1))
    = ["width"; "height"; "color"; "data"] /\
  fst (Rectangle.save_rectangle Examples.rect1 1) = "data/rectangle_data_1.json".
Proof. repeat split. Qed.

(** ** Ingestion of an observation *)

Section FirstMatch.

Variable E : Type.
Variable merge : E -> bool * E.
Variable observation : E.
Hypothesis rejects_unchanged : forall e, fst (merge e) = false -> merge e = (false, e).

Lemma first_match_cases (registry : list E) :
  (exists before e after,
      registry = before ++ e :: after /\
      Forall (fun a => fst (merge a) = false) before /\
      fst (merge e) = true /\
      Spec.first_match merge registry = (true, before ++ snd (merge e) :: after)) \/
  (Forall (fun a => fst (merge a) = false) registry /\
   Spec.first_match merge registry = (false, registry)).
Proof.
  induction registry as [|e rest IH]; simpl.
  - right. split; [constructor | reflexivity].
  - destruct (merge e) as [same e'] eqn:Hmerge.
    destruct same.
    + left. exists [], e, rest. rewrite Hmerge. simpl.
      repeat split; constructor.
    + assert (Hrej : fst (merge e) = false) by (rewrite Hmerge; reflexivity).
      assert (He : e' = e).
      { apply rejects_unchanged in Hrej. congruence. }
      subst e'.
      destruct IH as [[before [a [after [Hsplit [Hbefore [Haccept Hscan]]]]]] | [Hall Hscan]];
        rewrite Hscan.
      * left. exists (e :: before), a, after. rewrite Hsplit.
        repeat split; try assumption. constructor; assumption.
      * right. split; [constructor; assumption | reflexivity].
Qed.

Lemma first_match_ingested (registry : list E) :
  Spec.ingested merge observation registry
    (if fst (Spec.first_match merge registry)
     then snd (Spec.first_match merge registry)
     else snd (Spec.first_match merge registry) ++ [observation]).
Proof.
  destruct (first_match_cases registry)
    as [[before [a [after [Hsplit [Hbefore [Haccept Hscan]]]]]] | [Hall Hscan]];
    rewrite Hscan; simpl.
  - apply Spec.absorbed_by_first; assumption.
  - apply Spec.registered_as_new; assumption.
Qed.

End FirstMatch.

Lemma any_same_circle_first_match (circles : list Circle.t) (new_circle : Circle.t) (vh : Z) :
  Tracker.any_same_circle circles new_circle vh
  = Spec.first_match (fun circle => Circle.same_circle circle new_circle vh) circles.
Proof.
  induction circles as [|c circles IH]; simpl; [reflexivity|].
  rewrite IH. reflexivity.
Qed.

Lemma scan_rectangles_first_match (rectangles : list Rectangle.t)
    (new_rectangle : Rectangle.t) (vh : Z) :
  Tracker.scan_rectangles rectangles new_rectangle vh
  = let (found, rectangles') :=
      Spec.first_match
        (fun rectangle => Rectangle.same_rectangle rectangle new_rectangle vh) rectangles in
    (negb found, rectangles').
Proof.
  induction rectangles as [|r rectangles IH]; simpl; [reflexivity|].
  rewrite IH.
  destruct (Rectangle.same_rectangle r new_rectangle vh) as [[|] r']; [reflexivity|].
  destruct (Spec.first_match _ rectangles). reflexivity.
Qed.

(** Of two circles that would both accept, the earlier one absorbs the
    observation and the later one is not asked. *)
Lemma ingest_circle_takes_the_earliest :
  fst (Circle.same_circle (Examples.seed_circle 101 201 50 Examples.red 1 1080)
         Examples.circle2 1080) = true /\
  Tracker.circles (Tracker.ingest_circle Examples.two_candidates Examples.circle2)
  = [ snd (Circle.same_circle Examples.circle1 Examples.circle2 1080);
      Examples.seed_circle 101 201 50 Examples.red 1 1080 ].
Proof. split; reflexivity. Qed.

(** The scan of lines 144-148 and of lines 194-200: an observation that
    reaches it is offered to the entities of its kind in the order of the
    registry; the first that accepts absorbs it and the scan stops, every
    other entity staying as it was; when none accepts the observation is
    appended as a new entity.  The registry of the other kind is not
    touched. *)
Lemma scan_is_first_match (self : Tracker.t) :
  (forall new_circle : Circle.t,
      Spec.ingested
        (fun circle => Circle.same_circle circle new_circle (Tracker.video_height self))
        new_circle (Tracker.circles self)
        (Tracker.circles (Tracker.ingest_circle self new_circle)) /\
      Tracker.rectangles (Tracker.ingest_circle self new_circle)
      = Tracker.rectangles self) /\
  (forall new_rectangle : Rectangle.t,
      Spec.ingested
        (fun rectangle =>
           Rectangle.same_rectangle rectangle new_rectangle (Tracker.video_height self))
        new_rectangle (Tracker.rectangles self)
        (Tracker.rectangles (Tracker.ingest_rectangle self new_rectangle)) /\
      Tracker.circles (Tracker.ingest_rectangle self new_rectangle)
      = Tracker.circles self).
Proof.
  split.
  - intros new_circle. unfold Tracker.ingest_circle.
    rewrite any_same_circle_first_match.
    pose proof (first_match_ingested Circle.t
                  (fun circle => Circle.same_circle circle new_circle
                                   (Tracker.video_height self))
                  new_circle
                  (fun e => same_circle_rejects_unchanged e new_circle _)
                  (Tracker.circles self)) as H.
    destruct (Spec.first_match _ (Tracker.circles self)) as [[|] circles']; simpl in *;
      split; auto.
  - intros new_rectangle. unfold Tracker.ingest_rectangle.
    rewrite scan_rectangles_first_match.
    pose proof (first_match_ingested Rectangle.t
                  (fun rectangle => Rectangle.same_rectangle rectangle new_rectangle
                                      (Tracker.video_height self))
                  new_rectangle
                  (fun e => same_rectangle_rejects_unchanged e new_rectangle _)
                  (Tracker.rectangles self)) as H.
    destruct (Spec.first_match _ (Tracker.rectangles self)) as [[|] rectangles']; simpl in *;
      split; auto.
Qed.

(** A box whose two sides are not one object is skipped by the second
    loop of [process_rectangles], after its [Rectangle] was built. *)
Lemma process_rectangles_loop_skips (self : Tracker.t) (q : Tracker.Quad)
    (rest : list Tracker.Quad) (n : Z) :
  Tracker.w_is_h q = false ->
  Tracker.process_rectangles_loop self (q :: rest) n
  = Tracker.process_rectangles_loop self rest n.
Proof.
  intros Hnot. cbn [Tracker.process_rectangles_loop].
  unfold Rectangle.init, Rectangle.filter_nan, Circle.filter_nan.
  cbn [iter bind]. rewrite Hnot. reflexivity.
Qed.

(** C5: [process_rectangles] does not ingest every square.  After the
    [Rectangle] of a square is built, [if w is not h: continue] compares
    the two sides as objects; the sides of a square of 300 pixels are equal
    and are two objects, so the observation is skipped before the scan: no
    tracked rectangle is asked, not even the one that follows this very
    square since the frame before and would accept it, and nothing is
    appended.  A square of 200 pixels in the same place is appended as a
    new entity, and [process_circles], which has no such test, registers a
    circle of radius 300. *)
Theorem C5_large_square_is_not_ingested :
  (forall (self : Tracker.t) (q : Tracker.Quad) (rest : list Tracker.Quad) (n : Z),
      Tracker.w_is_h q = false ->
      Tracker.process_rectangles_loop self (q :: rest) n
      = Tracker.process_rectangles_loop self rest n) /\
  Tracker.qw Examples.large_square = Tracker.qh Examples.large_square /\
  Tracker.process_rectangles Tracker.init Examples.large_square_frame 1 = Ok Tracker.init /\
  Tracker.process_rectangles Examples.large_square_tracker Examples.large_square_frame 2
  = Ok Examples.large_square_tracker /\
  fst (Rectangle.same_rectangle
         (Examples.seed_rectangle 100 100 300 300 (Examples.rgb 255 255 255) 1 1080)
         (Examples.seed_rectangle 100 100 300 300 (Examples.rgb 255 255 255) 2 1080)
         1080) = true /\
  Tracker.process_rectangles Tracker.init Examples.small_square_frame 1
  = Ok {| Tracker.circles := [];
          Tracker.rectangles :=
            [Examples.seed_rectangle 100 100 200 200 (Examples.rgb 255 255 255) 1 0];
          Tracker.video_height := 0;
          Tracker.video_width := 0 |} /\
  Tracker.process_circles Tracker.init Examples.large_circle_frame 1
  = Ok {| Tracker.circles :=
            [Examples.seed_circle 500 500 300 (Examples.rgb 255 255 255) 1 0];
          Tracker.rectangles := [];
          Tracker.video_height := 0;
          Tracker.video_width := 0 |}.
Proof.
  split; [exact process_rectangles_loop_skips|].
  repeat split.
Qed.

(** ** The frame loop *)

Lemma circle_init_tuple (x y r : Z) (l : list value) (frame vh : Z) :
  exists circle, Circle.init x y r (Tuple l) frame vh = Ok circle.
Proof.
  unfold Circle.init, Circle.filter_nan. simpl. eexists. reflexivity.
Qed.

Lemma rectangle_init_tuple (x y w h : Z) (l : list value) (frame vh : Z) :
  exists rectangle, Rectangle.init x y w h (Tuple l) frame vh = Ok rectangle.
Proof.
  unfold Rectangle.init, Rectangle.filter_nan, Circle.filter_nan. simpl.
  eexists. reflexivity.
Qed.

(** One unfolding of the loop. *)
Lemma track_loop_unfold (video : Tracker.VideoCapture) (self : Tracker.t) (n : Z) :
  Tracker.track_loop video self n
  = if Z_lt_dec n Tracker.max_frames then
      if negb (Tracker.isOpened video n) then Ok (self, n)
      else
        match Tracker.read video (n + 1) with
        | Tracker.ReadRaises => Ok (self, n + 1)
        | Tracker.ReadFails => Ok (self, n + 1)
        | Tracker.ReadFrame frame0 =>
            self1 <- Tracker.process_circles self frame0 (n + 1) ;;
            self2 <- Tracker.process_rectangles self1 frame0 (n + 1) ;;
            if Z.land (Tracker.waitKey video (n + 1)) 255 =? Tracker.ord_q
            then Ok (self2, n + 1)
            else Tracker.track_loop video self2 (n + 1)
        end
    else Ok (self, n).
Proof.
  funelim (Tracker.track_loop video self n); rewrite Heq; reflexivity.
Qed.



(** * Further properties of the code *)

(** ** The distance thresholds on float64 *)

Section Magnitude.

Lemma digits2_pos_size (p : positive) : digits2_pos p = Pos.size p.
Proof. induction p; simpl; congruence. Qed.

(** The number of binary digits of a positive integer. *)
Lemma digits_bounds (p : positive) :
  2 ^ (Zdigits2 (Zpos p) - 1) <= Zpos p < 2 ^ Zdigits2 (Zpos p).
Proof.
  change (Zdigits2 (Zpos p)) with (Zpos (digits2_pos p)).
  rewrite digits2_pos_size.
  pose proof (Pos.size_gt p) as Hgt. pose proof (Pos.size_le p) as Hle.
  assert (H2 : Zpos (2 ^ Pos.size p) = 2 ^ Zpos (Pos.size p)) by apply Pos2Z.inj_pow.
  split.
  - assert (2 ^ Zpos (Pos.size p) <= 2 * Zpos p) by (rewrite <- H2; exact Hle).
    replace (Zpos (Pos.size p)) with (Z.succ (Zpos (Pos.size p) - 1)) in H by lia.
    rewrite Z.pow_succ_r in H by lia. lia.
  - rewrite <- H2. exact Hgt.
Qed.

Lemma digits_pos (m : Z) : 0 < m -> 0 < Zdigits2 m.
Proof. destruct m; simpl; lia. Qed.

Lemma digits_unique (m d : Z) :
  2 ^ (d - 1) <= m < 2 ^ d -> 0 < d -> Zdigits2 m = d.
Proof.
  intros Hm Hd.
  assert (0 < m) by (pose proof (Z.pow_pos_nonneg 2 (d - 1)); lia).
  destruct m as [|p|p]; try lia.
  pose proof (digits_bounds p) as Hp.
  set (d' := Zdigits2 (Zpos p)) in *.
  assert (0 < d') by (subst d'; apply digits_pos; lia).
  destruct (Z.lt_trichotomy d' d) as [Hlt | [Heq | Hgt]]; [|exact Heq|].
  - assert (2 ^ d' <= 2 ^ (d - 1)) by (apply Z.pow_le_mono_r; lia). lia.
  - assert (2 ^ d <= 2 ^ (d' - 1)) by (apply Z.pow_le_mono_r; lia). lia.
Qed.

Lemma digits_ge (m k : Z) : 0 <= k -> 2 ^ k <= m -> k < Zdigits2 m.
Proof.
  intros Hk Hm.
  assert (0 < m) by (pose proof (Z.pow_pos_nonneg 2 k); lia).
  destruct m as [|p|p]; try lia.
  pose proof (digits_bounds p) as Hp.
  destruct (Z_lt_le_dec k (Zdigits2 (Zpos p))) as [|Hle]; [assumption|].
  assert (2 ^ Zdigits2 (Zpos p) <= 2 ^ k) by (apply Z.pow_le_mono_r; lia). lia.
Qed.

Lemma digits_mono (a b : Z) : 0 < a -> a <= b -> Zdigits2 a <= Zdigits2 b.
Proof.
  intros Ha Hab.
  destruct a as [|p|p]; try lia.
  pose proof (digits_bounds p) as Hp.
  pose proof (digits_pos (Zpos p) Ha) as Hd.
  assert (Zdigits2 (Zpos p) - 1 < Zdigits2 b) by (apply digits_ge; lia).
  lia.
Qed.

(** Shifting right by one bit halves the mantissa. *)
Lemma shr_1_m (mrs : shr_record) :
  0 <= shr_m mrs -> shr_m (shr_1 mrs) = shr_m mrs / 2.
Proof.
  destruct mrs as [m r s]. simpl. intros Hm.
  destruct m as [|[p|p|]|p]; try lia; simpl shr_m.
  - reflexivity.
  - rewrite Pos2Z.inj_xI. apply Z.div_unique with (r := 1); lia.
  - rewrite Pos2Z.inj_xO. apply Z.div_unique with (r := 0); lia.
  - reflexivity.
Qed.

Lemma pow2_xO (n : positive) : 2 ^ Zpos n~0 = 2 ^ Zpos n * 2 ^ Zpos n.
Proof. rewrite Pos2Z.inj_xO, <- Z.pow_add_r by lia. f_equal. lia. Qed.

Lemma pow2_xI (n : positive) : 2 ^ Zpos n~1 = 2 * (2 ^ Zpos n * 2 ^ Zpos n).
Proof.
  rewrite Pos2Z.inj_xI, <- Z.pow_add_r by lia.
  replace (2 * Zpos n + 1) with (Z.succ (Zpos n + Zpos n)) by lia.
  rewrite Z.pow_succ_r by lia. reflexivity.
Qed.

Lemma iter_shr_1_m (n : positive) (mrs : shr_record) :
  0 <= shr_m mrs ->
  shr_m (iter_pos shr_1 n mrs) = shr_m mrs / 2 ^ Zpos n.
Proof.
  revert mrs. induction n as [n IH|n IH|]; intros mrs Hm; simpl iter_pos.
  - assert (Hpow : 0 < 2 ^ Zpos n) by (apply Z.pow_pos_nonneg; lia).
    assert (H1 : 0 <= shr_m (shr_1 mrs)) by (rewrite shr_1_m by lia; apply Z.div_pos; lia).
    assert (H2 : 0 <= shr_m (iter_pos shr_1 n (shr_1 mrs)))
      by (rewrite IH by lia; apply Z.div_pos; lia).
    rewrite IH by lia. rewrite IH by lia. rewrite shr_1_m by lia.
    rewrite !Z.div_div by lia. rewrite pow2_xI. reflexivity.
  - assert (Hpow : 0 < 2 ^ Zpos n) by (apply Z.pow_pos_nonneg; lia).
    assert (H2 : 0 <= shr_m (iter_pos shr_1 n mrs))
      by (rewrite IH by lia; apply Z.div_pos; lia).
    rewrite IH by lia. rewrite IH by lia.
    rewrite !Z.div_div by lia. rewrite pow2_xO. reflexivity.
  - rewrite shr_1_m by lia. reflexivity.
Qed.

Lemma shr_record_of_loc_m (m : Z) (l : location) : shr_m (shr_record_of_loc m l) = m.
Proof. destruct l as [|[| |]]; reflexivity. Qed.

(** One alignment step of the rounding keeps the magnitude of a number
    of the normal range and leaves at most 53 digits. *)
Lemma shr_fexp_magnitude (m e : Z) (l : location) :
  0 < m -> -1021 <= Zdigits2 m + e ->
  let '(mrs', e') := shr_fexp Np.prec Np.emax m e l in
  0 < shr_m mrs' /\
  Zdigits2 (shr_m mrs') + e' = Zdigits2 m + e /\
  Zdigits2 (shr_m mrs') <= 53.
Proof.
  intros Hm Hnormal. unfold shr_fexp, shr, fexp, emin, Np.prec, Np.emax.
  set (d := Zdigits2 m) in *.
  assert (Hd : 0 < d) by (apply digits_pos; exact Hm).
  replace (Z.max (d + e - 53) (3 - 1024 - 53) - e) with (d - 53) by lia.
  destruct (d - 53) as [|n|n] eqn:Hn.
  - rewrite shr_record_of_loc_m. fold d. lia.
  - rewrite iter_shr_1_m by (rewrite shr_record_of_loc_m; lia).
    rewrite shr_record_of_loc_m.
    destruct m as [|p|p]; try lia.
    pose proof (digits_bounds p) as Hp. fold d in Hp.
    assert (Hpow : 0 < 2 ^ Zpos n) by (apply Z.pow_pos_nonneg; lia).
    assert (Hlo : 2 ^ 52 <= Zpos p / 2 ^ Zpos n).
    { apply Z.div_le_lower_bound; [lia|].
      rewrite <- Z.pow_add_r by lia.
      replace (Zpos n + 52) with (d - 1) by lia. lia. }
    assert (Hhi : Zpos p / 2 ^ Zpos n < 2 ^ 53).
    { apply Z.div_lt_upper_bound; [lia|].
      rewrite <- Z.pow_add_r by lia.
      replace (Zpos n + 53) with d by lia. lia. }
    assert (Hdig : Zdigits2 (Zpos p / 2 ^ Zpos n) = 53)
      by (apply digits_unique; [simpl Z.sub; lia | lia]).
    rewrite Hdig. lia.
  - rewrite shr_record_of_loc_m. fold d. lia.
Qed.

Lemma round_nearest_even_cases (m : Z) (l : location) :
  round_nearest_even m l = m \/ round_nearest_even m l = m + 1.
Proof.
  destruct l as [|[| |]]; simpl; auto.
  destruct (Z.even m); auto.
Qed.

Lemma binary_round_aux_above (k mx ex : Z) (lx : location) :
  0 < mx -> -1022 <= k -> k < Zdigits2 mx + ex ->
  Pass.above_pow2 k (binary_round_aux Np.prec Np.emax false mx ex lx).
Proof.
  intros Hm Hk Hmag. unfold binary_round_aux.
  pose proof (shr_fexp_magnitude mx ex lx Hm ltac:(lia)) as H1.
  destruct (shr_fexp Np.prec Np.emax mx ex lx) as [mrs' e'].
  destruct H1 as [Hpos1 [Hmag1 Hdig1]].
  set (m1 := round_nearest_even (shr_m mrs') (loc_of_shr_record mrs')).
  assert (Hm1 : shr_m mrs' <= m1)
    by (subst m1; destruct (round_nearest_even_cases (shr_m mrs') (loc_of_shr_record mrs'))
          as [-> | ->]; lia).
  pose proof (digits_mono _ _ Hpos1 Hm1) as Hdig.
  pose proof (shr_fexp_magnitude m1 e' loc_Exact ltac:(lia) ltac:(lia)) as H2.
  destruct (shr_fexp Np.prec Np.emax m1 e' loc_Exact) as [mrs'' e''].
  destruct H2 as [Hpos2 [Hmag2 Hdig2]].
  destruct (shr_m mrs'') as [|m|m]; try lia.
  destruct (e'' <=? Np.emax - Np.prec); cbn [Pass.above_pow2]; [|exact I].
  split; lia.
Qed.


Lemma digits_iter_xO (p d : positive) :
  Zdigits2 (Zpos (Pos.iter xO p d)) = Zdigits2 (Zpos p) + Zpos d.
Proof.
  induction d as [|d IH] using Pos.peano_ind.
  - simpl. lia.
  - rewrite Pos.iter_succ.
    change (Zdigits2 (Zpos (Pos.iter xO p d)~0))
      with (Zpos (Pos.succ (digits2_pos (Pos.iter xO p d)))).
    change (Zdigits2 (Zpos (Pos.iter xO p d)))
      with (Zpos (digits2_pos (Pos.iter xO p d))) in IH.
    lia.
Qed.

(** The float64 of an integer of more than [k] bits is above 2^k. *)
Lemma of_int_above (k n : Z) :
  0 <= k -> 2 ^ k <= n -> Pass.above_pow2 k (Np.of_int n).
Proof.
  intros Hk Hn.
  assert (Hpos : 0 < n) by (pose proof (Z.pow_pos_nonneg 2 k); lia).
  pose proof (digits_ge n k Hk Hn) as Hdig.
  destruct n as [|p|p]; try lia.
  unfold Np.of_int, binary_normalize, binary_round.
  destruct (shl_align p 0 (fexp Np.prec Np.emax (Zpos (digits2_pos p) + 0)))
    as [mz ez] eqn:Halign.
  apply binary_round_aux_above; [lia | lia |].
  unfold shl_align in Halign.
  destruct (fexp Np.prec Np.emax (Zpos (digits2_pos p) + 0) - 0) as [|d|d] eqn:Hshift;
    injection Halign as <- <-.
  - exact (eq_ind _ (fun z => k < z) Hdig _ (eq_sym (Z.add_0_r _))).
  - rewrite Z.add_0_r. exact Hdig.
  - rewrite digits_iter_xO.
    unfold fexp, emin, Np.prec, Np.emax in *.
    change (Zpos (digits2_pos p)) with (Zdigits2 (Zpos p)) in *. lia.
Qed.

(** The square root of a float above 2^(2k) is above 2^k. *)
Lemma sqrt_above (k : Z) (f : spec_float) :
  0 <= k -> Pass.above_pow2 (2 * k) f -> Pass.above_pow2 k (Np.sqrt f).
Proof.
  intros Hk Hf. destruct f as [s|s| |s m e]; cbn [Pass.above_pow2] in Hf; try contradiction.
  - destruct s; [contradiction | exact I].
  - destruct s; [contradiction|]. destruct Hf as [Hmag He].
    unfold Np.sqrt, SFsqrt, SFsqrt_core_binary.
    pose proof (digits_bounds m) as Hm.
    set (d := Zdigits2 (Zpos m)) in *.
    assert (Hd : 0 < d) by (subst d; apply digits_pos; lia).
    set (e' := Z.min (fexp Np.prec Np.emax (Z.div2 (d + e + 1))) (Z.div2 e)).
    set (s := e - 2 * e').
    assert (He' : 2 * e' <= e).
    { pose proof (Zdiv2_odd_eqn e) as Hdiv. subst e'. destruct (Z.odd e); lia. }
    assert (Hs : 0 <= s) by (subst s; lia).
    set (m' := match s with Zpos _ => Z.shiftl (Zpos m) s | 0 => Zpos m | Zneg _ => 0 end).
    assert (Hm' : m' = Zpos m * 2 ^ s).
    { subst m'. clearbody s. destruct s as [|p|p];
        [rewrite Z.pow_0_r; lia | rewrite Z.shiftl_mul_pow2 by lia; reflexivity | lia]. }
    assert (Hlow : 2 ^ (d - 1 + s) <= m').
    { rewrite Hm', Z.pow_add_r by lia.
      apply Z.mul_le_mono_nonneg_r; [apply Z.pow_nonneg; lia | lia]. }
    assert (Hm'pos : 0 < m').
    { pose proof (Z.pow_pos_nonneg 2 (d - 1 + s)). lia. }
    pose proof (Z.sqrtrem_sqrt m') as Hsqrt.
    destruct (Z.sqrtrem m') as [q r]. simpl in Hsqrt. subst q.
    assert (Hq : 0 < Z.sqrt m').
    { apply Z.sqrt_pos. exact Hm'pos. }
    apply binary_round_aux_above; [exact Hq | lia |].
    destruct (Z_lt_le_dec (k - e') 0) as [Hneg | Hnonneg].
    + pose proof (digits_pos _ Hq). lia.
    + assert (k - e' < Zdigits2 (Z.sqrt m')); [|lia].
      apply digits_ge; [exact Hnonneg|].
      apply Z.sqrt_le_square; [lia | apply Z.pow_nonneg; lia |].
      rewrite <- Z.pow_add_r by lia.
      apply Z.le_trans with (2 ^ (d - 1 + s)); [|exact Hlow].
      apply Z.pow_le_mono_r; lia.
Qed.

(** A float above 2^6 is not below a float of the binade from 32 to 64. *)
Lemma above_64_not_le (f : spec_float) (m : positive) :
  Pass.above_pow2 6 f -> Np.le f (S754_finite false m (-47)) = false.
Proof.
  destruct f as [s|s| |s mf e]; cbn [Pass.above_pow2]; try contradiction.
  - destruct s; [contradiction | reflexivity].
  - destruct s; [contradiction|]. intros [_ He].
    unfold Np.le, SFleb, SFcompare.
    replace (e ?= -47) with Gt by (symmetry; apply Z.compare_gt_iff; lia).
    reflexivity.
Qed.

(** The distance test on the squares: the float64 square root of an
    integer is at most 50 exactly when the integer is at most 2500, and at
    most 40 exactly when it is at most 1600. *)
Lemma below_4096_checked :
  forallb (fun n =>
             Bool.eqb (Np.le (Np.sqrt (Np.of_int n)) (Np.of_int 50)) (n <=? 2500)
             && Bool.eqb (Np.le (Np.sqrt (Np.of_int n)) (Np.of_int 40)) (n <=? 1600))
          (map Z.of_nat (seq 0 4096)) = true.
Proof. vm_compute. reflexivity. Qed.

Lemma sqrt_le_thresholds (n : Z) :
  0 <= n ->
  Np.le (Np.sqrt (Np.of_int n)) (Np.of_int 50) = (n <=? 2500) /\
  Np.le (Np.sqrt (Np.of_int n)) (Np.of_int 40) = (n <=? 1600).
Proof.
  intros Hn. destruct (Z_lt_le_dec n 4096) as [Hsmall | Hlarge].
  - pose proof below_4096_checked as Hall.
    rewrite forallb_forall in Hall.
    specialize (Hall n).
    assert (Hin : In n (map Z.of_nat (seq 0 4096))).
    { apply in_map_iff. exists (Z.to_nat n). split; [lia|].
      apply in_seq. lia. }
    apply Hall in Hin. apply andb_true_iff in Hin as [H50 H40].
    apply Bool.eqb_prop in H50, H40. split; assumption.
  - assert (Habove : Pass.above_pow2 6 (Np.sqrt (Np.of_int n))).
    { apply sqrt_above; [lia|]. apply of_int_above; [lia|].
      change (2 ^ (2 * 6)) with 4096. exact Hlarge. }
    replace (n <=? 2500) with false by (symmetry; apply Z.leb_gt; lia).
    replace (n <=? 1600) with false by (symmetry; apply Z.leb_gt; lia).
    split; apply above_64_not_le; exact Habove.
Qed.

End Magnitude.

(** ** The geometric tests *)

Lemma are_circles_same_default (self circle : Circle.t) :
  Circle.are_circles_same self circle
    Circle.default_distance_threshold Circle.default_radius_threshold
  = if ((Circle.x circle - Circle.x self) ^ 2 + (Circle.y circle - Circle.y self) ^ 2
        <=? 2500)
       && (Z.abs (Circle.radius circle - Circle.radius self) <=? 17)
    then Float (Np.sqrt (Np.of_int ((Circle.x circle - Circle.x self) ^ 2
                                    + (Circle.y circle - Circle.y self) ^ 2)))
    else Bool false.
Proof.
  unfold Circle.are_circles_same.
  unfold Circle.default_distance_threshold, Circle.default_radius_threshold.
  set (n := (Circle.x circle - Circle.x self) ^ 2 + (Circle.y circle - Circle.y self) ^ 2).
  assert (Hn : 0 <= n) by (subst n; nia).
  destruct (sqrt_le_thresholds n Hn) as [H50 _].
  rewrite H50. reflexivity.
Qed.

Lemma are_rectangles_same_default (self rect : Rectangle.t) :
  Rectangle.are_rectangles_same self rect
    Rectangle.default_distance_threshold Rectangle.default_size_diff_threshold
  = if ((Rectangle.x rect + Rectangle.width rect / 2
         - (Rectangle.x self + Rectangle.width self / 2)) ^ 2
        + (Rectangle.y rect + Rectangle.height rect / 2
           - (Rectangle.y self + Rectangle.height self / 2)) ^ 2 <=? 1600)
       && (Z.abs (Rectangle.width self - Rectangle.width rect) <=? 5)
       && (Z.abs (Rectangle.height self - Rectangle.height rect) <=? 5)
    then Float (Np.sqrt (Np.of_int
                  ((Rectangle.x rect + Rectangle.width rect / 2
                    - (Rectangle.x self + Rectangle.width self / 2)) ^ 2
                   + (Rectangle.y rect + Rectangle.height rect / 2
                      - (Rectangle.y self + Rectangle.height self / 2)) ^ 2)))
    else Bool false.
Proof.
  unfold Rectangle.are_rectangles_same. cbv zeta. cbn [fst snd].
  unfold Rectangle.default_distance_threshold, Rectangle.default_size_diff_threshold.
  set (n := (Rectangle.x rect + Rectangle.width rect / 2
             - (Rectangle.x self + Rectangle.width self / 2)) ^ 2
            + (Rectangle.y rect + Rectangle.height rect / 2
               - (Rectangle.y self + Rectangle.height self / 2)) ^ 2).
  assert (Hn : 0 <= n) by (subst n; nia).
  destruct (sqrt_le_thresholds n Hn) as [_ H40].
  rewrite H40.
  replace (Z.max (Z.abs (Rectangle.width self - Rectangle.width rect))
                 (Z.abs (Rectangle.height self - Rectangle.height rect)) <=? 5)
    with ((Z.abs (Rectangle.width self - Rectangle.width rect) <=? 5)
          && (Z.abs (Rectangle.height self - Rectangle.height rect) <=? 5)).
  - rewrite andb_assoc. reflexivity.
  - destruct (Z.leb_spec (Z.abs (Rectangle.width self - Rectangle.width rect)) 5);
      destruct (Z.leb_spec (Z.abs (Rectangle.height self - Rectangle.height rect)) 5);
      destruct (Z.leb_spec (Z.max (Z.abs (Rectangle.width self - Rectangle.width rect))
                                  (Z.abs (Rectangle.height self - Rectangle.height rect))) 5);
      simpl; try reflexivity; lia.
Qed.

(** X1: with the default thresholds [are_circles_same] returns the
    distance exactly when the squared distance of the centres is at most
    2500 and the radii differ by at most 17, and [False] otherwise; the
    float64 square root decides the bound of 50 exactly. *)
Theorem are_circles_same_exact (self circle : Circle.t) :
  (Circle.x circle - Circle.x self) ^ 2 + (Circle.y circle - Circle.y self) ^ 2 < 2 ^ 63 ->
  Circle.are_circles_same self circle
    Circle.default_distance_threshold Circle.default_radius_threshold
  = if ((Circle.x circle - Circle.x self) ^ 2 + (Circle.y circle - Circle.y self) ^ 2
        <=? 2500)
       && (Z.abs (Circle.radius circle - Circle.radius self) <=? 17)
    then Float (Np.sqrt (Np.of_int ((Circle.x circle - Circle.x self) ^ 2
                                    + (Circle.y circle - Circle.y self) ^ 2)))
    else Bool false.
Proof. intros _. apply are_circles_same_default. Qed.

Lemma are_circles_same_exact_witness :
  Circle.are_circles_same Examples.circle1 Examples.circle2 50 17
  = Float (Np.sqrt (Np.of_int 50)).
Proof.
  exact (are_circles_same_exact Examples.circle1 Examples.circle2 eq_refl).
Defined.

(** X2: with the default thresholds [are_rectangles_same] returns the
    distance exactly when the squared distance of the centres (corner plus
    half the side, halved by floor division) is at most 1600 and neither
    the widths nor the heights differ by more than 5. *)
Theorem are_rectangles_same_exact (self rect : Rectangle.t) :
  (Rectangle.x rect + Rectangle.width rect / 2
   - (Rectangle.x self + Rectangle.width self / 2)) ^ 2
  + (Rectangle.y rect + Rectangle.height rect / 2
     - (Rectangle.y self + Rectangle.height self / 2)) ^ 2 < 2 ^ 63 ->
  Rectangle.are_rectangles_same self rect
    Rectangle.default_distance_threshold Rectangle.default_size_diff_threshold
  = if ((Rectangle.x rect + Rectangle.width rect / 2
         - (Rectangle.x self + Rectangle.width self / 2)) ^ 2
        + (Rectangle.y rect + Rectangle.height rect / 2
           - (Rectangle.y self + Rectangle.height self / 2)) ^ 2 <=? 1600)
       && (Z.abs (Rectangle.width self - Rectangle.width rect) <=? 5)
       && (Z.abs (Rectangle.height self - Rectangle.height rect) <=? 5)
    then Float (Np.sqrt (Np.of_int
                  ((Rectangle.x rect + Rectangle.width rect / 2
                    - (Rectangle.x self + Rectangle.width self / 2)) ^ 2
                   + (Rectangle.y rect + Rectangle.height rect / 2
                      - (Rectangle.y self + Rectangle.height self / 2)) ^ 2)))
    else Bool false.
Proof. intros _. apply are_rectangles_same_default. Qed.

Lemma are_rectangles_same_exact_witness :
  Rectangle.are_rectangles_same Examples.rect1 Examples.rect2 40 5
  = Float (Np.sqrt (Np.of_int 50)).
Proof.
  exact (are_rectangles_same_exact Examples.rect1 Examples.rect2 eq_refl).
Defined.

(** X3: the geometric tests are symmetric, whatever the thresholds: the
    two entities may be exchanged, the answer (the distance or [False])
    is the same. *)
Theorem geometric_tests_symmetric :
  (forall (a b : Circle.t) (distance_threshold radius_threshold : Z),
      Circle.are_circles_same a b distance_threshold radius_threshold
      = Circle.are_circles_same b a distance_threshold radius_threshold) /\
  (forall (a b : Rectangle.t) (distance_threshold size_diff_threshold : Z),
      Rectangle.are_rectangles_same a b distance_threshold size_diff_threshold
      = Rectangle.are_rectangles_same b a distance_threshold size_diff_threshold).
Proof.
  split.
  - intros a b dt rt. unfold Circle.are_circles_same.
    replace ((Circle.x a - Circle.x b) ^ 2 + (Circle.y a - Circle.y b) ^ 2)
      with ((Circle.x b - Circle.x a) ^ 2 + (Circle.y b - Circle.y a) ^ 2) by ring.
    replace (Z.abs (Circle.radius a - Circle.radius b))
      with (Z.abs (Circle.radius b - Circle.radius a)) by lia.
    reflexivity.
  - intros a b dt st. unfold Rectangle.are_rectangles_same. cbv zeta. cbn [fst snd].
    replace ((Rectangle.x a + Rectangle.width a / 2
              - (Rectangle.x b + Rectangle.width b / 2)) ^ 2
             + (Rectangle.y a + Rectangle.height a / 2
                - (Rectangle.y b + Rectangle.height b / 2)) ^ 2)
      with ((Rectangle.x b + Rectangle.width b / 2
             - (Rectangle.x a + Rectangle.width a / 2)) ^ 2
            + (Rectangle.y b + Rectangle.height b / 2
               - (Rectangle.y a + Rectangle.height a / 2)) ^ 2) by ring.
    replace (Z.abs (Rectangle.width b - Rectangle.width a))
      with (Z.abs (Rectangle.width a - Rectangle.width b)) by lia.
    replace (Z.abs (Rectangle.height b - Rectangle.height a))
      with (Z.abs (Rectangle.height a - Rectangle.height b)) by lia.
    reflexivity.
Qed.

(** ** The decision of a merge *)

(** X4: [same_rectangle] accepts exactly when the observation is 1 to 20
    frames later, the centres are at most 40 apart (squared distance at
    most 1600), widths and heights differ by at most 5, and the colour
    comparison is true. *)
Theorem same_rectangle_decision (self rectangle : Rectangle.t) (vh : Z) :
  (Rectangle.x rectangle + Rectangle.width rectangle / 2
   - (Rectangle.x self + Rectangle.width self / 2)) ^ 2
  + (Rectangle.y rectangle + Rectangle.height rectangle / 2
     - (Rectangle.y self + Rectangle.height self / 2)) ^ 2 < 2 ^ 63 ->
  fst (Rectangle.same_rectangle self rectangle vh)
  = (Rectangle.frame self <? Rectangle.frame rectangle)
    && (Rectangle.frame rectangle - Rectangle.frame self <=? 20)
    && ((Rectangle.x rectangle + Rectangle.width rectangle / 2
         - (Rectangle.x self + Rectangle.width self / 2)) ^ 2
        + (Rectangle.y rectangle + Rectangle.height rectangle / 2
           - (Rectangle.y self + Rectangle.height self / 2)) ^ 2 <=? 1600)
    && (Z.abs (Rectangle.width self - Rectangle.width rectangle) <=? 5)
    && (Z.abs (Rectangle.height self - Rectangle.height rectangle) <=? 5)
    && truthy (Rectangle.are_colors_similar (Rectangle.color self)
                 (Rectangle.color rectangle) Circle.default_tolerance).
Proof.
  intros _. unfold Rectangle.same_rectangle.
  rewrite (are_rectangles_same_default self rectangle).
  rewrite (Z.ltb_antisym (Rectangle.frame rectangle) (Rectangle.frame self)).
  rewrite Z.gtb_ltb, (Z.ltb_antisym _ 20).
  destruct (Rectangle.frame rectangle <=? Rectangle.frame self); [reflexivity|].
  destruct (Rectangle.frame rectangle - Rectangle.frame self <=? 20); [|reflexivity].
  cbn [negb andb].
  rewrite <- !andb_assoc.
  destruct (_ <=? 1600); [|reflexivity].
  destruct (Z.abs (Rectangle.width self - Rectangle.width rectangle) <=? 5); [|reflexivity].
  destruct (Z.abs (Rectangle.height self - Rectangle.height rectangle) <=? 5);
    [|reflexivity].
  cbn [andb is_False].
  destruct (truthy _); reflexivity.
Qed.

Lemma same_rectangle_decision_witness :
  fst (Rectangle.same_rectangle Examples.rect1 Examples.rect2_green 1080) = false.
Proof.
  exact (same_rectangle_decision Examples.rect1 Examples.rect2_green 1080 eq_refl).
Defined.

(** X5: [same_circle] accepts exactly when the observation is 1 to 20
    frames later, the centres are at most 50 apart (squared distance at
    most 2500) and the radii differ by at most 17; its colour test
    refuses nothing. *)
Theorem same_circle_decision (self circle : Circle.t) (vh : Z) :
  (Circle.x circle - Circle.x self) ^ 2 + (Circle.y circle - Circle.y self) ^ 2 < 2 ^ 63 ->
  fst (Circle.same_circle self circle vh)
  = (Circle.frame self <? Circle.frame circle)
    && (Circle.frame circle - Circle.frame self <=? 20)
    && ((Circle.x circle - Circle.x self) ^ 2 + (Circle.y circle - Circle.y self) ^ 2
        <=? 2500)
    && (Z.abs (Circle.radius circle - Circle.radius self) <=? 17).
Proof.
  intros _. unfold Circle.same_circle.
  rewrite (are_circles_same_default self circle).
  rewrite are_colors_similar_is_not_False.
  rewrite (Z.ltb_antisym (Circle.frame circle) (Circle.frame self)).
  rewrite Z.gtb_ltb, (Z.ltb_antisym _ 20).
  destruct (Circle.frame circle <=? Circle.frame self); [reflexivity|].
  destruct (Circle.frame circle - Circle.frame self <=? 20); [|reflexivity].
  cbn [negb andb].
  destruct (_ <=? 2500); [|reflexivity].
  destruct (Z.abs (Circle.radius circle - Circle.radius self) <=? 17); reflexivity.
Qed.

Lemma same_circle_decision_witness :
  fst (Circle.same_circle Examples.circle1 Examples.circle2 1080) = true.
Proof.
  exact (same_circle_decision Examples.circle1 Examples.circle2 1080 eq_refl).
Defined.

(** ** More on colours *)

Lemma sub_self_is_zero (f : Np.float64) :
  Np.isfinite f = true -> Np.abs (Np.sub f f) = S754_zero false.
Proof.
  destruct f as [s|s| |s m e]; try discriminate; intros _.
  - destruct s; reflexivity.
  - unfold Np.sub, SFsub. rewrite Z.sub_diag. reflexivity.
Qed.

Lemma zero_le_of_int (tolerance : Z) :
  0 <= tolerance -> Np.le (S754_zero false) (Np.of_int tolerance) = true.
Proof.
  intros Htol. destruct (Z.eq_dec tolerance 0) as [-> | Hnz]; [reflexivity|].
  pose proof (of_int_above 0 tolerance ltac:(lia) ltac:(simpl; lia)) as Habove.
  destruct (Np.of_int tolerance) as [s|s| |s m e]; cbn [Pass.above_pow2] in Habove;
    try contradiction; destruct s; try contradiction; reflexivity.
Qed.

(** X6: a valid colour is similar to itself under every tolerance that is
    not negative. *)
Theorem are_colors_similar_reflexive (color : value) (tolerance : Z) :
  Circle.is_valid_color color = true ->
  0 <= tolerance ->
  Circle.are_colors_similar color color tolerance = NpBool true.
Proof.
  intros Hvalid Htol.
  unfold Circle.are_colors_similar. rewrite Hvalid. cbn [andb negb].
  apply is_valid_color_inv in Hvalid as [f1 [f2 [f3 [-> Hall]]]].
  inversion Hall as [|? ? [Ha _] Hall1]; subst.
  inversion Hall1 as [|? ? [Hb _] Hall2]; subst.
  inversion Hall2 as [|? ? [Hc _] _]; subst.
  cbn [Circle.np_array Circle.np_array_of Np.zip_with map Np.all forallb].
  rewrite !sub_self_is_zero by assumption.
  rewrite zero_le_of_int by assumption. reflexivity.
Qed.

Lemma are_colors_similar_reflexive_witness :
  Circle.are_colors_similar Examples.red Examples.red 0 = NpBool true.
Proof.
  apply are_colors_similar_reflexive; [reflexivity | lia].
Defined.

(** X7: the comparison is undetermined ([None]) exactly when one of the
    two colours is not valid; on two valid colours it is a boolean of
    numpy. *)
Theorem are_colors_similar_none_iff (color1 color2 : value) (tolerance : Z) :
  (Circle.are_colors_similar color1 color2 tolerance = None_ <->
   Circle.is_valid_color color1 = false \/ Circle.is_valid_color color2 = false) /\
  ((exists b, Circle.are_colors_similar color1 color2 tolerance = NpBool b) <->
   Circle.is_valid_color color1 = true /\ Circle.is_valid_color color2 = true).
Proof.
  unfold Circle.are_colors_similar.
  destruct (Circle.is_valid_color color1) eqn:H1;
    destruct (Circle.is_valid_color color2) eqn:H2; cbn [andb negb].
  - destruct (valid_color_has_array color1 H1) as [a1 [a2 [a3 ->]]].
    destruct (valid_color_has_array color2 H2) as [b1 [b2 [b3 ->]]].
    split; split.
    + discriminate.
    + intros [H | H]; discriminate.
    + auto.
    + intros _. eexists. reflexivity.
  - split; split; auto.
    + intros [b Hb]. discriminate.
    + intros [_ H]. discriminate.
  - split; split; auto.
    + intros [b Hb]. discriminate.
    + intros [H _]. discriminate.
  - split; split; auto.
    + intros [b Hb]. discriminate.
    + intros [H _]. discriminate.
Qed.

Lemma valid_channel_not_nan (c : value) :
  Circle.valid_channel c = true -> Spec.float_not_nan c = true.
Proof.
  intros H. apply valid_channel_inv in H as [f [-> [Hfin _]]].
  destruct f; try discriminate; reflexivity.
Qed.

(** X8: normalization leaves a valid colour as it is, so the constructors
    store a valid colour unchanged, in the entity and in its first
    record. *)
Theorem valid_color_kept (color : value) :
  Circle.is_valid_color color = true ->
  Circle.filter_nan color = Ok color /\
  (forall x y radius frame vh,
      exists c, Circle.init x y radius color frame vh = Ok c /\
                Circle.color c = color) /\
  (forall x y width height frame vh,
      exists r, Rectangle.init x y width height color frame vh = Ok r /\
                Rectangle.color r = color).
Proof.
  intros Hvalid.
  assert (Hfilter : Circle.filter_nan color = Ok color).
  { destruct color as [ | | | | | |l| | ]; try discriminate.
    unfold Circle.filter_nan. cbn [iter bind].
    rewrite filter_nan_loop_spec. cbn [app].
    unfold Circle.is_valid_color in Hvalid.
    apply andb_true_iff in Hvalid as [_ Hall].
    replace (forallb Spec.float_not_nan l) with true; [reflexivity|].
    symmetry. apply forallb_forall. intros c Hc.
    apply valid_channel_not_nan.
    rewrite forallb_forall in Hall. apply Hall. exact Hc. }
  split; [exact Hfilter|]. split.
  - intros x y radius frame vh. unfold Circle.init. rewrite Hfilter. cbn [bind].
    eexists. split; reflexivity.
  - intros x y width height frame vh. unfold Rectangle.init, Rectangle.filter_nan.
    rewrite Hfilter. cbn [bind]. eexists. split; reflexivity.
Qed.

Lemma valid_color_kept_witness :
  Circle.filter_nan Examples.red = Ok Examples.red.
Proof.
  exact (proj1 (valid_color_kept Examples.red eq_refl)).
Defined.

(** ** The trajectory of an entity *)

Section Steady.

Import Trajectory.

Lemma steady_bounds (first : Z) (frames : list Z) (last : Z) :
  steady first frames last ->
  first <= last /\
  Forall (fun f => first <= f <= last) frames /\
  Z.of_nat (List.length frames) <= last - first + 1.
Proof.
  induction 1 as [|frames last f Hsteady [IHle [IHall IHlen]] Hstep].
  - split; [lia|]. split; [repeat constructor; lia | simpl; lia].
  - split; [lia|]. split.
    + apply Forall_app. split.
      * eapply Forall_impl; [|exact IHall]. simpl. intros a Ha. lia.
      * repeat constructor; lia.
    + rewrite length_app. simpl. lia.
Qed.

Lemma sorted_snoc (frames : list Z) (f : Z) :
  StronglySorted Z.lt frames -> Forall (fun a => a < f) frames ->
  StronglySorted Z.lt (frames ++ [f]).
Proof.
  induction 1 as [|a frames Hsorted IH Hall]; intros Hlt; simpl.
  - repeat constructor.
  - inversion Hlt as [|? ? Ha Hrest]; subst.
    constructor; [apply IH; exact Hrest|].
    apply Forall_app. split; [exact Hall | repeat constructor; exact Ha].
Qed.

Lemma steady_sorted (first : Z) (frames : list Z) (last : Z) :
  steady first frames last -> StronglySorted Z.lt frames.
Proof.
  induction 1 as [|frames last f Hsteady IH Hstep].
  - repeat constructor.
  - apply sorted_snoc; [exact IH|].
    destruct (steady_bounds _ _ _ Hsteady) as [_ [Hall _]].
    eapply Forall_impl; [|exact Hall]. simpl. intros a Ha. lia.
Qed.

Lemma last_error_snoc {A : Type} (l : list A) (a : A) : last_error (l ++ [a]) = Some a.
Proof. unfold last_error. rewrite rev_app_distr. reflexivity. Qed.

Lemma hd_error_snoc {A : Type} (l : list A) (a b : A) :
  hd_error l = Some a -> hd_error (l ++ [b]) = Some a.
Proof. destruct l; simpl; [discriminate | auto]. Qed.

End Steady.

(** What a merge attempt does to a circle: nothing, or the assignments
    and the record of an observation 1 to 20 frames later. *)
Lemma same_circle_cases (self circle : Circle.t) (vh : Z) :
  Circle.same_circle self circle vh = (false, self) \/
  (Circle.frame self < Circle.frame circle <= Circle.frame self + 20 /\
   exists distance,
     Circle.same_circle self circle vh
     = (true,
        {| Circle.x := Circle.x circle; Circle.y := Circle.y circle;
           Circle.radius := Circle.radius self; Circle.color := Circle.color self;
           Circle.frame := Circle.frame circle;
           Circle.data := Circle.data self ++
             [ Dict [ ("x", Int (Circle.x circle));
                      ("y", Int (vh - Circle.y circle));
                      ("frame", Int (Circle.frame circle));
                      ("radius", Int (Circle.radius circle));
                      ("distance", distance);
                      ("color", Circle.color circle) ] ] |})).
Proof.
  unfold Circle.same_circle.
  destruct (Z.leb_spec (Circle.frame circle) (Circle.frame self)); [left; reflexivity|].
  rewrite Z.gtb_ltb.
  destruct (Z.ltb_spec 20 (Circle.frame circle - Circle.frame self)); [left; reflexivity|].
  destruct (is_False _); [left; reflexivity|].
  destruct (is_False _); [left; reflexivity|].
  right. split; [lia|]. eexists. reflexivity.
Qed.

Lemma same_rectangle_cases (self rectangle : Rectangle.t) (vh : Z) :
  Rectangle.same_rectangle self rectangle vh = (false, self) \/
  (Rectangle.frame self < Rectangle.frame rectangle <= Rectangle.frame self + 20 /\
   exists distance,
     Rectangle.same_rectangle self rectangle vh
     = (true,
        {| Rectangle.x := Rectangle.x rectangle; Rectangle.y := Rectangle.y rectangle;
           Rectangle.height := Rectangle.width rectangle;
           Rectangle.width := Rectangle.height rectangle;
           Rectangle.color := Rectangle.color self;
           Rectangle.frame := Rectangle.frame rectangle;
           Rectangle.data := Rectangle.data self ++
             [ Dict [ ("x", Int (Rectangle.x rectangle));
                      ("y", Int (vh - Rectangle.y rectangle));
                      ("width", Int (Rectangle.width rectangle));
                      ("height", Int (Rectangle.height rectangle));
                      ("frame", Int (Rectangle.frame rectangle));
                      ("distance", distance);
                      ("color", Rectangle.color self) ] ] |})).
Proof.
  unfold Rectangle.same_rectangle.
  destruct (Z.leb_spec (Rectangle.frame rectangle) (Rectangle.frame self));
    [left; reflexivity|].
  rewrite Z.gtb_ltb.
  destruct (Z.ltb_spec 20 (Rectangle.frame rectangle - Rectangle.frame self));
    [left; reflexivity|].
  destruct (is_False _); [left; reflexivity|].
  destruct (negb _); [left; reflexivity|].
  right. split; [lia|]. eexists. reflexivity.
Qed.

Lemma circle_init_ok (x y radius : Z) (color : value) (frame vh : Z) (c : Circle.t) :
  Circle.init x y radius color frame vh = Ok c ->
  Trajectory.circle_ok vh frame c /\ Circle.frame c = frame /\
  List.length (Circle.data c) = 1%nat.
Proof.
  unfold Circle.init. destruct (Circle.filter_nan color) as [col|]; [|discriminate].
  cbn [bind]. intros [= <-]. cbn. split; [|split; reflexivity].
  eexists [frame], _, _.
  repeat split; try reflexivity. constructor.
Qed.

Lemma circle_merge_ok (vh first : Z) (self circle : Circle.t) :
  Trajectory.circle_ok vh first self ->
  Trajectory.circle_ok vh first (snd (Circle.same_circle self circle vh)).
Proof.
  intros Hok.
  destruct (same_circle_cases self circle vh) as [-> | [Hframe [d ->]]]; [exact Hok|].
  destruct Hok as [frames [seed [current [Hframes [Hsteady [Hhd [Hrad [Hcol _]]]]]]]].
  cbn [snd].
  eexists (frames ++ [Circle.frame circle]), seed, _. cbn.
  split; [rewrite !map_app, Hframes; reflexivity|].
  split; [apply Trajectory.steady_step with (last := Circle.frame self); assumption|].
  split; [apply hd_error_snoc; exact Hhd|].
  split; [exact Hrad|]. split; [exact Hcol|].
  split; [apply last_error_snoc|].
  repeat split; reflexivity.
Qed.

Lemma rectangle_init_ok (x y width height : Z) (color : value) (frame vh : Z)
    (r : Rectangle.t) :
  Rectangle.init x y width height color frame vh = Ok r ->
  Trajectory.rectangle_ok vh frame r /\ Rectangle.frame r = frame /\
  List.length (Rectangle.data r) = 1%nat /\
  Rectangle.width r = width /\ Rectangle.height r = height.
Proof.
  unfold Rectangle.init. destruct (Rectangle.filter_nan color) as [col|]; [|discriminate].
  cbn [bind]. intros [= <-]. cbn. split; [|repeat split; reflexivity].
  eexists [frame], _.
  repeat split; try reflexivity; repeat constructor.
Qed.

Lemma rectangle_merge_ok (vh first : Z) (self rectangle : Rectangle.t) :
  Trajectory.rectangle_ok vh first self ->
  Trajectory.rectangle_ok vh first (snd (Rectangle.same_rectangle self rectangle vh)).
Proof.
  intros Hok.
  destruct (same_rectangle_cases self rectangle vh) as [-> | [Hframe [d ->]]];
    [exact Hok|].
  destruct Hok as [frames [current [Hframes [Hsteady [Hcolors _]]]]].
  cbn [snd].
  eexists (frames ++ [Rectangle.frame rectangle]), _. cbn.
  split; [rewrite !map_app, Hframes; reflexivity|].
  split; [apply Trajectory.steady_step with (last := Rectangle.frame self); assumption|].
  split; [apply Forall_app; split; [exact Hcolors | repeat constructor]|].
  split; [apply last_error_snoc|].
  repeat split; reflexivity.
Qed.

(** X9: a circle made by the constructor and any sequence of merge
    attempts has a trajectory that fits its fields: there is a record for
    each frame of a strictly increasing sequence with steps of at most 20
    that ends at the current frame, the first record holds the radius and
    colour of the circle, the last record its position (y flipped) and
    frame; so no frame occurs twice and the records are no more than the
    frames from the first to the current one. *)
Theorem circle_trajectory_invariant (vh : Z) (c : Circle.t) :
  Trajectory.circle_built vh c ->
  exists first,
    Trajectory.circle_ok vh first c /\
    forall frames,
      map Trajectory.frame_of (Circle.data c) = map Some frames ->
      StronglySorted Z.lt frames /\
      Z.of_nat (List.length (Circle.data c)) <= Circle.frame c - first + 1.
Proof.
  intros Hbuilt.
  assert (Hok : exists first, Trajectory.circle_ok vh first c).
  { induction Hbuilt as [x y radius color frame c Hinit | self obs Hbuilt [first IH]].
    - exists frame. apply (circle_init_ok _ _ _ _ _ _ _ Hinit).
    - exists first. apply circle_merge_ok. exact IH. }
  destruct Hok as [first Hok]. exists first. split; [exact Hok|].
  intros frames Hframes.
  destruct Hok as [frames' [_ [_ [Hframes' [Hsteady _]]]]].
  assert (frames = frames').
  { assert (Hinj : map Some frames = map Some frames') by congruence.
    clear - Hinj. revert frames' Hinj.
    induction frames as [|a l IH]; intros [|b l'] H; simpl in H; try discriminate;
      [reflexivity|].
    injection H as -> H. f_equal. apply IH. exact H. }
  subst frames'.
  split; [exact (steady_sorted _ _ _ Hsteady)|].
  destruct (steady_bounds _ _ _ Hsteady) as [_ [_ Hlen]].
  assert (List.length (Circle.data c) = List.length frames).
  { rewrite <- (length_map Trajectory.frame_of), Hframes, length_map. reflexivity. }
  lia.
Qed.

Lemma circle_trajectory_witness :
  exists first,
    Trajectory.circle_ok 1080 first
      (snd (Circle.same_circle Examples.circle1 Examples.circle2 1080)).
Proof.
  destruct (circle_trajectory_invariant 1080
              (snd (Circle.same_circle Examples.circle1 Examples.circle2 1080)))
    as [first [Hok _]].
  - apply Trajectory.circle_offered.
    apply (Trajectory.circle_seeded 1080 100 200 50 Examples.red 1). reflexivity.
  - exists first. exact Hok.
Defined.

(** X10: a rectangle made by the constructor and any sequence of merge
    attempts has a record for each frame of a strictly increasing sequence
    with steps of at most 20 that ends at the current frame; the last
    record holds the position (y flipped) and frame of the rectangle, and
    every record holds the colour the rectangle was created with. *)
Theorem rectangle_trajectory_invariant (vh : Z) (r : Rectangle.t) :
  Trajectory.rectangle_built vh r ->
  exists first,
    Trajectory.rectangle_ok vh first r /\
    forall frames,
      map Trajectory.frame_of (Rectangle.data r) = map Some frames ->
      StronglySorted Z.lt frames /\
      Z.of_nat (List.length (Rectangle.data r)) <= Rectangle.frame r - first + 1.
Proof.
  intros Hbuilt.
  assert (Hok : exists first, Trajectory.rectangle_ok vh first r).
  { induction Hbuilt as [x y w h color frame r Hinit | self obs Hbuilt [first IH]].
    - exists frame. apply (rectangle_init_ok _ _ _ _ _ _ _ _ Hinit).
    - exists first. apply rectangle_merge_ok. exact IH. }
  destruct Hok as [first Hok]. exists first. split; [exact Hok|].
  intros frames Hframes.
  destruct Hok as [frames' [_ [Hframes' [Hsteady _]]]].
  assert (frames = frames').
  { assert (Hinj : map Some frames = map Some frames') by congruence.
    clear - Hinj. revert frames' Hinj.
    induction frames as [|a l IH]; intros [|b l'] H; simpl in H; try discriminate;
      [reflexivity|].
    injection H as -> H. f_equal. apply IH. exact H. }
  subst frames'.
  split; [exact (steady_sorted _ _ _ Hsteady)|].
  destruct (steady_bounds _ _ _ Hsteady) as [_ [_ Hlen]].
  assert (List.length (Rectangle.data r) = List.length frames).
  { rewrite <- (length_map Trajectory.frame_of), Hframes, length_map. reflexivity. }
  lia.
Qed.

Lemma rectangle_trajectory_witness :
  exists first,
    Trajectory.rectangle_ok 1080 first
      (snd (Rectangle.same_rectangle Examples.rect1 Examples.rect2 1080)).
Proof.
  destruct (rectangle_trajectory_invariant 1080
              (snd (Rectangle.same_rectangle Examples.rect1 Examples.rect2 1080)))
    as [first [Hok _]].
  - apply Trajectory.rectangle_offered.
    apply (Trajectory.rectangle_seeded 1080 10 20 100 100 Examples.red 1). reflexivity.
  - exists first. exact Hok.
Defined.

(** X11: once an entity has absorbed an observation it refuses every
    observation of that frame or an earlier one, the same observation
    included: an entity takes at most one detection of a frame. *)
Theorem no_second_merge_in_a_frame (vh : Z) :
  (forall self first second : Circle.t,
      fst (Circle.same_circle self first vh) = true ->
      Circle.frame second <= Circle.frame first ->
      Circle.same_circle (snd (Circle.same_circle self first vh)) second vh
      = (false, snd (Circle.same_circle self first vh))) /\
  (forall self first second : Rectangle.t,
      fst (Rectangle.same_rectangle self first vh) = true ->
      Rectangle.frame second <= Rectangle.frame first ->
      Rectangle.same_rectangle (snd (Rectangle.same_rectangle self first vh)) second vh
      = (false, snd (Rectangle.same_rectangle self first vh))).
Proof.
  split; intros self first second Haccept Hframe.
  - destruct (same_circle_cases self first vh) as [H | [_ [d H]]]; rewrite H in *;
      [discriminate|].
    cbn [snd]. unfold Circle.same_circle at 1. cbn [Circle.frame].
    apply Z.leb_le in Hframe. rewrite Hframe. reflexivity.
  - destruct (same_rectangle_cases self first vh) as [H | [_ [d H]]]; rewrite H in *;
      [discriminate|].
    cbn [snd]. unfold Rectangle.same_rectangle at 1. cbn [Rectangle.frame].
    apply Z.leb_le in Hframe. rewrite Hframe. reflexivity.
Qed.

Lemma no_second_merge_witness :
  Circle.same_circle (snd (Circle.same_circle Examples.circle1 Examples.circle2 1080))
    Examples.circle2_green 1080
  = (false, snd (Circle.same_circle Examples.circle1 Examples.circle2 1080)).
Proof.
  apply (proj1 (no_second_merge_in_a_frame 1080)); [reflexivity | simpl; lia].
Defined.

(** ** Registries *)

Section Registry.

Variable E : Type.
Variable merge : E -> bool * E.
Variable grows : E -> E -> Prop.
Variable size : E -> nat.
Variable inv : E -> Prop.

Hypothesis grows_refl : forall e, grows e e.
Hypothesis merge_grows : forall e, grows e (snd (merge e)).
Hypothesis merge_size :
  forall e, size (snd (merge e)) = (size e + if fst (merge e) then 1 else 0)%nat.
Hypothesis merge_inv : forall e, inv e -> inv (snd (merge e)).

Lemma Forall2_refl_grows (l : list E) : Forall2 grows l l.
Proof. induction l; constructor; auto. Qed.

Lemma first_match_grows (registry : list E) :
  Forall2 grows registry (snd (Spec.first_match merge registry)).
Proof.
  induction registry as [|e rest IH]; simpl; [constructor|].
  pose proof (merge_grows e) as He.
  destruct (merge e) as [[|] e']; simpl in *.
  - constructor; [exact He | apply Forall2_refl_grows].
  - destruct (Spec.first_match merge rest) as [found rest']. simpl in *.
    constructor; assumption.
Qed.

Lemma first_match_size (registry : list E) :
  list_sum (map size (snd (Spec.first_match merge registry)))
  = (list_sum (map size registry)
     + if fst (Spec.first_match merge registry) then 1 else 0)%nat.
Proof.
  induction registry as [|e rest IH]; simpl; [reflexivity|].
  pose proof (merge_size e) as He.
  destruct (merge e) as [[|] e']; simpl in *.
  - lia.
  - destruct (Spec.first_match merge rest) as [found rest']. simpl in *. lia.
Qed.

Lemma first_match_inv (registry : list E) :
  Forall inv registry -> Forall inv (snd (Spec.first_match merge registry)).
Proof.
  induction registry as [|e rest IH]; simpl; intros Hall; [constructor|].
  inversion Hall as [|? ? He Hrest]; subst.
  pose proof (merge_inv e He) as He'.
  destruct (merge e) as [[|] e']; simpl in *.
  - constructor; assumption.
  - specialize (IH Hrest).
    destruct (Spec.first_match merge rest) as [found rest']. simpl in *.
    constructor; assumption.
Qed.

End Registry.

Section Growth.

Import Trajectory.

Lemma registry_grows_refl {E : Type} (grows : E -> E -> Prop) (l : list E) :
  (forall e, grows e e) -> registry_grows grows l l.
Proof.
  intros Hrefl. exists l, []. split; [rewrite app_nil_r; reflexivity|].
  induction l; constructor; auto.
Qed.

Lemma Forall2_trans {E : Type} (grows : E -> E -> Prop) (a b c : list E) :
  (forall x y z, grows x y -> grows y z -> grows x z) ->
  Forall2 grows a b -> Forall2 grows b c -> Forall2 grows a c.
Proof.
  intros Htrans Hab. revert c.
  induction Hab as [|x y a b Hxy Hab IH]; intros c Hbc; inversion Hbc; subst;
    constructor; eauto.
Qed.

Lemma registry_grows_trans {E : Type} (grows : E -> E -> Prop) (a b c : list E) :
  (forall x y z, grows x y -> grows y z -> grows x z) ->
  registry_grows grows a b -> registry_grows grows b c -> registry_grows grows a c.
Proof.
  intros Htrans [kept1 [added1 [-> H1]]] [kept2 [added2 [-> H2]]].
  apply Forall2_app_inv_l in H2 as [k2a [k2b [Ha [Hb ->]]]].
  exists k2a, (k2b ++ added2). split; [rewrite app_assoc; reflexivity|].
  eapply Forall2_trans; eassumption.
Qed.

Lemma registry_grows_snoc {E : Type} (grows : E -> E -> Prop) (a b : list E) (e : E) :
  Forall2 grows a b -> registry_grows grows a (b ++ [e]).
Proof. intros H. exists b, [e]. split; [reflexivity | exact H]. Qed.

Lemma registry_grows_same_length {E : Type} (grows : E -> E -> Prop) (a b : list E) :
  Forall2 grows a b -> registry_grows grows a b.
Proof. intros H. exists b, []. split; [rewrite app_nil_r; reflexivity | exact H]. Qed.

Lemma circle_grows_refl (c : Circle.t) : circle_grows c c.
Proof.
  split; [reflexivity|]. split; [reflexivity|]. split; [lia|].
  exists []. rewrite app_nil_r. reflexivity.
Qed.

Lemma circle_grows_trans (a b c : Circle.t) :
  circle_grows a b -> circle_grows b c -> circle_grows a c.
Proof.
  intros [Hr1 [Hc1 [Hf1 [d1 Hd1]]]] [Hr2 [Hc2 [Hf2 [d2 Hd2]]]].
  split; [congruence|]. split; [congruence|]. split; [lia|].
  exists (d1 ++ d2). rewrite Hd2, Hd1, app_assoc. reflexivity.
Qed.

Lemma rectangle_grows_refl (r : Rectangle.t) : rectangle_grows r r.
Proof.
  split; [reflexivity|]. split; [lia|].
  exists []. rewrite app_nil_r. reflexivity.
Qed.

Lemma rectangle_grows_trans (a b c : Rectangle.t) :
  rectangle_grows a b -> rectangle_grows b c -> rectangle_grows a c.
Proof.
  intros [Hc1 [Hf1 [d1 Hd1]]] [Hc2 [Hf2 [d2 Hd2]]].
  split; [congruence|]. split; [lia|].
  exists (d1 ++ d2). rewrite Hd2, Hd1, app_assoc. reflexivity.
Qed.

Lemma same_circle_grows (self circle : Circle.t) (vh : Z) :
  circle_grows self (snd (Circle.same_circle self circle vh)).
Proof.
  destruct (same_circle_cases self circle vh) as [-> | [Hframe [d ->]]];
    [apply circle_grows_refl|].
  unfold circle_grows. cbn.
  split; [reflexivity|]. split; [reflexivity|]. split; [lia|].
  eexists. reflexivity.
Qed.

Lemma same_rectangle_grows (self rectangle : Rectangle.t) (vh : Z) :
  rectangle_grows self (snd (Rectangle.same_rectangle self rectangle vh)).
Proof.
  destruct (same_rectangle_cases self rectangle vh) as [-> | [Hframe [d ->]]];
    [apply rectangle_grows_refl|].
  unfold rectangle_grows. cbn.
  split; [reflexivity|]. split; [lia|].
  eexists. reflexivity.
Qed.

Lemma same_circle_size (self circle : Circle.t) (vh : Z) :
  List.length (Circle.data (snd (Circle.same_circle self circle vh)))
  = (List.length (Circle.data self)
     + if fst (Circle.same_circle self circle vh) then 1 else 0)%nat.
Proof.
  destruct (same_circle_cases self circle vh) as [-> | [Hframe [d ->]]]; cbn.
  - lia.
  - rewrite length_app. reflexivity.
Qed.

Lemma same_rectangle_size (self rectangle : Rectangle.t) (vh : Z) :
  List.length (Rectangle.data (snd (Rectangle.same_rectangle self rectangle vh)))
  = (List.length (Rectangle.data self)
     + if fst (Rectangle.same_rectangle self rectangle vh) then 1 else 0)%nat.
Proof.
  destruct (same_rectangle_cases self rectangle vh) as [-> | [Hframe [d ->]]]; cbn.
  - lia.
  - rewrite length_app. reflexivity.
Qed.

Lemma same_circle_tracked (vh n : Z) (self circle : Circle.t) :
  Circle.frame circle <= n ->
  circle_tracked vh n self ->
  circle_tracked vh n (snd (Circle.same_circle self circle vh)).
Proof.
  intros Hn [first [Hok [Hfirst Hframe]]]. exists first.
  split; [apply circle_merge_ok; exact Hok|]. split; [exact Hfirst|].
  destruct (same_circle_cases self circle vh) as [-> | [_ [d ->]]]; cbn; lia.
Qed.

Lemma same_rectangle_tracked (vh n : Z) (self rectangle : Rectangle.t) :
  Rectangle.frame rectangle <= n ->
  Rectangle.width rectangle = Rectangle.height rectangle ->
  rectangle_tracked vh n self ->
  rectangle_tracked vh n (snd (Rectangle.same_rectangle self rectangle vh)).
Proof.
  intros Hn Hsquare [first [Hok [Hfirst [Hframe Hsq]]]]. exists first.
  split; [apply rectangle_merge_ok; exact Hok|]. split; [exact Hfirst|].
  destruct (same_rectangle_cases self rectangle vh) as [-> | [_ [d ->]]]; cbn;
    split; try lia; congruence.
Qed.

Lemma circle_tracked_mono (vh n n' : Z) (c : Circle.t) :
  n <= n' -> circle_tracked vh n c -> circle_tracked vh n' c.
Proof. intros Hn [first [Hok [Hfirst Hframe]]]. exists first. repeat split; auto; lia. Qed.

Lemma rectangle_tracked_mono (vh n n' : Z) (r : Rectangle.t) :
  n <= n' -> rectangle_tracked vh n r -> rectangle_tracked vh n' r.
Proof.
  intros Hn [first [Hok [Hfirst [Hframe Hsq]]]]. exists first. repeat split; auto; lia.
Qed.

End Growth.

(** ** Positions within reach of [np.sqrt] *)

Section Reach.

Ltac pixels :=
  unfold Pass.pixel in *; change (2 ^ 30) with 1073741824 in *.

Lemma square_below (d bound : Z) : - bound < d < bound -> 0 <= d ^ 2 < bound ^ 2.
Proof.
  intros H. rewrite !Z.pow_2_r.
  destruct (Z_le_gt_dec 0 d).
  - split; [apply Z.mul_nonneg_nonneg; lia | apply Z.mul_lt_mono_nonneg; lia].
  - replace (d * d) with (- d * - d) by ring.
    split; [apply Z.mul_nonneg_nonneg; lia | apply Z.mul_lt_mono_nonneg; lia].
Qed.

(** Between two circles within reach the squared distance fits in a signed
    64-bit integer, so [np.sqrt] converts it and returns. *)
Lemma circles_in_reach_distance (a b : Circle.t) :
  Pass.circle_in_reach a -> Pass.circle_in_reach b ->
  0 <= (Circle.x b - Circle.x a) ^ 2 + (Circle.y b - Circle.y a) ^ 2 < 2 ^ 63.
Proof.
  intros [Hxa Hya] [Hxb Hyb]. pixels.
  pose proof (square_below (Circle.x b - Circle.x a) 1073741824 ltac:(lia)) as Hx.
  pose proof (square_below (Circle.y b - Circle.y a) 1073741824 ltac:(lia)) as Hy.
  change (1073741824 ^ 2) with 1152921504606846976 in Hx, Hy.
  change (2 ^ 63) with 9223372036854775808. lia.
Qed.

Lemma half_bounds (w : Z) : 0 <= w -> 0 <= w / 2 <= w.
Proof.
  intros Hw. split; [apply Z.div_pos; lia|].
  apply Z.div_le_upper_bound; lia.
Qed.

Lemma rectangles_in_reach_distance (a b : Rectangle.t) :
  Pass.rectangle_in_reach a -> Pass.rectangle_in_reach b ->
  0 <= (Rectangle.x b + Rectangle.width b / 2 - (Rectangle.x a + Rectangle.width a / 2)) ^ 2
       + (Rectangle.y b + Rectangle.height b / 2
          - (Rectangle.y a + Rectangle.height a / 2)) ^ 2
    < 2 ^ 63.
Proof.
  intros [Hxa [Hya [Hwa Hha]]] [Hxb [Hyb [Hwb Hhb]]].
  pixels.
  pose proof (half_bounds (Rectangle.width a) ltac:(lia)).
  pose proof (half_bounds (Rectangle.width b) ltac:(lia)).
  pose proof (half_bounds (Rectangle.height a) ltac:(lia)).
  pose proof (half_bounds (Rectangle.height b) ltac:(lia)).
  pose proof (square_below
                (Rectangle.x b + Rectangle.width b / 2
                 - (Rectangle.x a + Rectangle.width a / 2)) 2147483648 ltac:(lia)) as Hx.
  pose proof (square_below
                (Rectangle.y b + Rectangle.height b / 2
                 - (Rectangle.y a + Rectangle.height a / 2)) 2147483648 ltac:(lia)) as Hy.
  change (2147483648 ^ 2) with 4611686018427387904 in Hx, Hy.
  change (2 ^ 63) with 9223372036854775808. lia.
Qed.

(** A merge attempt leaves an entity within reach. *)
Lemma same_circle_in_reach (vh : Z) (self circle : Circle.t) :
  Pass.circle_in_reach circle ->
  Pass.circle_in_reach self ->
  Pass.circle_in_reach (snd (Circle.same_circle self circle vh)).
Proof.
  intros Hobs Hself.
  destruct (same_circle_cases self circle vh) as [-> | [_ [d ->]]]; assumption.
Qed.

Lemma same_rectangle_in_reach (vh : Z) (self rectangle : Rectangle.t) :
  Pass.rectangle_in_reach rectangle ->
  Pass.rectangle_in_reach self ->
  Pass.rectangle_in_reach (snd (Rectangle.same_rectangle self rectangle vh)).
Proof.
  intros Hobs Hself.
  destruct (same_rectangle_cases self rectangle vh) as [-> | [_ [d ->]]];
    [assumption|].
  destruct Hobs as [Hx [Hy [Hw Hh]]]. split; [|split; [|split]]; assumption.
Qed.

Lemma circle_init_position (x y radius : Z) (color : value) (frame vh : Z) (c : Circle.t) :
  Circle.init x y radius color frame vh = Ok c -> Circle.x c = x /\ Circle.y c = y.
Proof.
  unfold Circle.init. destruct (Circle.filter_nan color) as [col|]; [|discriminate].
  cbn [bind]. intros [= <-]. split; reflexivity.
Qed.

Lemma rectangle_init_position (x y width height : Z) (color : value) (frame vh : Z)
    (r : Rectangle.t) :
  Rectangle.init x y width height color frame vh = Ok r ->
  Rectangle.x r = x /\ Rectangle.y r = y.
Proof.
  unfold Rectangle.init. destruct (Rectangle.filter_nan color) as [col|]; [|discriminate].
  cbn [bind]. intros [= <-]. split; reflexivity.
Qed.

(** A detected circle that lies within a frame of at most 2^30 pixels a
    side, with a region that is not empty, has its centre within reach. *)
Lemma fits_in_reach (shape0 : Z * Z) (x y r : Z) :
  fst shape0 <= 2 ^ 30 -> snd shape0 <= 2 ^ 30 ->
  ((y - r >=? 0) && (y + r <? fst shape0) && (x - r >=? 0) && (x + r <? snd shape0)) = true ->
  (Tracker.region_size r >? 0) = true ->
  Pass.pixel x /\ Pass.pixel y.
Proof.
  intros Hh Hw Hfit Hregion.
  change (2 ^ 30) with 1073741824 in Hh, Hw.
  apply andb_true_iff in Hfit as [Hfit Hx2].
  apply andb_true_iff in Hfit as [Hfit Hx1].
  apply andb_true_iff in Hfit as [Hy1 Hy2].
  apply Z.geb_le in Hy1, Hx1. apply Z.ltb_lt in Hy2, Hx2.
  assert (Hr : 0 < r).
  { rewrite Z.gtb_ltb in Hregion. apply Z.ltb_lt in Hregion.
    unfold Tracker.region_size in Hregion.
    destruct (Z.max_spec 0 (2 * r)) as [[_ Hm] | [Hle Hm]]; rewrite Hm in Hregion; lia. }
  pixels. lia.
Qed.

End Reach.

(** ** The passes over a frame *)

Section Passes.

Import Trajectory.

Lemma ingest_circle_unfold (self : Tracker.t) (new_circle : Circle.t) :
  Tracker.ingest_circle self new_circle
  = {| Tracker.circles :=
         if fst (Spec.first_match
                   (fun c => Circle.same_circle c new_circle (Tracker.video_height self))
                   (Tracker.circles self))
         then snd (Spec.first_match
                     (fun c => Circle.same_circle c new_circle (Tracker.video_height self))
                     (Tracker.circles self))
         else snd (Spec.first_match
                     (fun c => Circle.same_circle c new_circle (Tracker.video_height self))
                     (Tracker.circles self)) ++ [new_circle];
       Tracker.rectangles := Tracker.rectangles self;
       Tracker.video_height := Tracker.video_height self;
       Tracker.video_width := Tracker.video_width self |}.
Proof.
  unfold Tracker.ingest_circle. rewrite any_same_circle_first_match.
  destruct (Spec.first_match _ (Tracker.circles self)) as [[|] circles']; reflexivity.
Qed.

Lemma ingest_rectangle_unfold (self : Tracker.t) (new_rectangle : Rectangle.t) :
  Tracker.ingest_rectangle self new_rectangle
  = {| Tracker.circles := Tracker.circles self;
       Tracker.rectangles :=
         if fst (Spec.first_match
                   (fun r => Rectangle.same_rectangle r new_rectangle
                               (Tracker.video_height self))
                   (Tracker.rectangles self))
         then snd (Spec.first_match
                     (fun r => Rectangle.same_rectangle r new_rectangle
                                 (Tracker.video_height self))
                     (Tracker.rectangles self))
         else snd (Spec.first_match
                     (fun r => Rectangle.same_rectangle r new_rectangle
                                 (Tracker.video_height self))
                     (Tracker.rectangles self)) ++ [new_rectangle];
       Tracker.video_height := Tracker.video_height self;
       Tracker.video_width := Tracker.video_width self |}.
Proof.
  unfold Tracker.ingest_rectangle. rewrite scan_rectangles_first_match.
  destruct (Spec.first_match _ (Tracker.rectangles self)) as [[|] rectangles'];
    reflexivity.
Qed.

Lemma circle_records_app (a b : list Circle.t) :
  circle_records (a ++ b) = (circle_records a + circle_records b)%nat.
Proof. unfold circle_records. rewrite map_app, list_sum_app. reflexivity. Qed.

Lemma rectangle_records_app (a b : list Rectangle.t) :
  rectangle_records (a ++ b) = (rectangle_records a + rectangle_records b)%nat.
Proof. unfold rectangle_records. rewrite map_app, list_sum_app. reflexivity. Qed.

Lemma ingest_circle_pass (self : Tracker.t) (new_circle : Circle.t) :
  List.length (Circle.data new_circle) = 1%nat ->
  Pass.circles_pass 1 self (Tracker.ingest_circle self new_circle).
Proof.
  intros Hone. rewrite ingest_circle_unfold. unfold Pass.circles_pass.
  cbn [Tracker.rectangles Tracker.circles Tracker.video_height Tracker.video_width].
  repeat (split; [reflexivity|]).
  set (merge := fun c => Circle.same_circle c new_circle (Tracker.video_height self)).
  pose proof (first_match_grows Circle.t merge circle_grows circle_grows_refl
                (fun e => same_circle_grows e new_circle _) (Tracker.circles self))
    as Hgrows.
  pose proof (first_match_size Circle.t merge (fun c => List.length (Circle.data c))
                (fun e => same_circle_size e new_circle _) (Tracker.circles self))
    as Hsize.
  fold (circle_records (snd (Spec.first_match merge (Tracker.circles self)))) in Hsize.
  fold (circle_records (Tracker.circles self)) in Hsize.
  destruct (fst (Spec.first_match merge (Tracker.circles self))).
  - split; [apply registry_grows_same_length; exact Hgrows | exact Hsize].
  - split; [apply registry_grows_snoc; exact Hgrows|].
    rewrite circle_records_app, Hsize. unfold circle_records at 2. simpl. lia.
Qed.

Lemma ingest_rectangle_pass (self : Tracker.t) (new_rectangle : Rectangle.t) :
  List.length (Rectangle.data new_rectangle) = 1%nat ->
  Pass.rectangles_pass 1 self (Tracker.ingest_rectangle self new_rectangle).
Proof.
  intros Hone. rewrite ingest_rectangle_unfold. unfold Pass.rectangles_pass.
  cbn [Tracker.rectangles Tracker.circles Tracker.video_height Tracker.video_width].
  repeat (split; [reflexivity|]).
  set (merge := fun r => Rectangle.same_rectangle r new_rectangle
                           (Tracker.video_height self)).
  pose proof (first_match_grows Rectangle.t merge rectangle_grows rectangle_grows_refl
                (fun e => same_rectangle_grows e new_rectangle _)
                (Tracker.rectangles self)) as Hgrows.
  pose proof (first_match_size Rectangle.t merge
                (fun r => List.length (Rectangle.data r))
                (fun e => same_rectangle_size e new_rectangle _)
                (Tracker.rectangles self)) as Hsize.
  fold (rectangle_records (snd (Spec.first_match merge (Tracker.rectangles self))))
    in Hsize.
  fold (rectangle_records (Tracker.rectangles self)) in Hsize.
  destruct (fst (Spec.first_match merge (Tracker.rectangles self))).
  - split; [apply registry_grows_same_length; exact Hgrows | exact Hsize].
  - split; [apply registry_grows_snoc; exact Hgrows|].
    rewrite rectangle_records_app, Hsize. unfold rectangle_records at 2. simpl. lia.
Qed.

Lemma circles_pass_refl (self : Tracker.t) : Pass.circles_pass 0 self self.
Proof.
  repeat (split; [reflexivity|]).
  split; [apply registry_grows_refl; apply circle_grows_refl | lia].
Qed.

Lemma circles_pass_trans (a b : nat) (s1 s2 s3 : Tracker.t) :
  Pass.circles_pass a s1 s2 -> Pass.circles_pass b s2 s3 -> Pass.circles_pass (a + b) s1 s3.
Proof.
  intros [Hr1 [Hh1 [Hw1 [Hg1 Hn1]]]] [Hr2 [Hh2 [Hw2 [Hg2 Hn2]]]].
  split; [congruence|]. split; [congruence|]. split; [congruence|].
  split; [eapply registry_grows_trans; eauto using circle_grows_trans | lia].
Qed.

Lemma rectangles_pass_refl (self : Tracker.t) : Pass.rectangles_pass 0 self self.
Proof.
  repeat (split; [reflexivity|]).
  split; [apply registry_grows_refl; apply rectangle_grows_refl | lia].
Qed.

Lemma rectangles_pass_trans (a b : nat) (s1 s2 s3 : Tracker.t) :
  Pass.rectangles_pass a s1 s2 -> Pass.rectangles_pass b s2 s3 -> Pass.rectangles_pass (a + b) s1 s3.
Proof.
  intros [Hr1 [Hh1 [Hw1 [Hg1 Hn1]]]] [Hr2 [Hh2 [Hw2 [Hg2 Hn2]]]].
  split; [congruence|]. split; [congruence|]. split; [congruence|].
  split; [eapply registry_grows_trans; eauto using rectangle_grows_trans | lia].
Qed.

Lemma ingest_circle_tracked (n : Z) (self : Tracker.t) (new_circle : Circle.t) :
  Circle.frame new_circle <= n ->
  circle_tracked (Tracker.video_height self) n new_circle ->
  Forall (circle_tracked (Tracker.video_height self) n) (Tracker.circles self) ->
  Forall (circle_tracked (Tracker.video_height self) n)
    (Tracker.circles (Tracker.ingest_circle self new_circle)).
Proof.
  intros Hn Hnew Hall. rewrite ingest_circle_unfold. cbn.
  pose proof (first_match_inv Circle.t
                (fun c => Circle.same_circle c new_circle (Tracker.video_height self))
                (circle_tracked (Tracker.video_height self) n)
                (fun e He => same_circle_tracked _ n e new_circle Hn He)
                (Tracker.circles self) Hall) as Hinv.
  destruct (fst _); [exact Hinv|].
  apply Forall_app. split; [exact Hinv | repeat constructor; exact Hnew].
Qed.

Lemma ingest_rectangle_tracked (n : Z) (self : Tracker.t) (new_rectangle : Rectangle.t) :
  Rectangle.frame new_rectangle <= n ->
  Rectangle.width new_rectangle = Rectangle.height new_rectangle ->
  rectangle_tracked (Tracker.video_height self) n new_rectangle ->
  Forall (rectangle_tracked (Tracker.video_height self) n) (Tracker.rectangles self) ->
  Forall (rectangle_tracked (Tracker.video_height self) n)
    (Tracker.rectangles (Tracker.ingest_rectangle self new_rectangle)).
Proof.
  intros Hn Hsq Hnew Hall. rewrite ingest_rectangle_unfold. cbn.
  pose proof (first_match_inv Rectangle.t
                (fun r => Rectangle.same_rectangle r new_rectangle
                            (Tracker.video_height self))
                (rectangle_tracked (Tracker.video_height self) n)
                (fun e He => same_rectangle_tracked _ n e new_rectangle Hn Hsq He)
                (Tracker.rectangles self) Hall) as Hinv.
  destruct (fst _); [exact Hinv|].
  apply Forall_app. split; [exact Hinv | repeat constructor; exact Hnew].
Qed.

Lemma ingest_circle_in_reach (self : Tracker.t) (new_circle : Circle.t) :
  Pass.circle_in_reach new_circle ->
  Pass.tracker_in_reach self ->
  Pass.tracker_in_reach (Tracker.ingest_circle self new_circle).
Proof.
  intros Hnew [Hc Hr]. rewrite ingest_circle_unfold. split; [|exact Hr].
  cbn [Tracker.circles].
  pose proof (first_match_inv Circle.t
                (fun c => Circle.same_circle c new_circle (Tracker.video_height self))
                Pass.circle_in_reach
                (fun e He => same_circle_in_reach _ e new_circle Hnew He)
                (Tracker.circles self) Hc) as Hinv.
  destruct (fst _); [exact Hinv|].
  apply Forall_app. split; [exact Hinv | constructor; [exact Hnew | constructor]].
Qed.

Lemma ingest_rectangle_in_reach (self : Tracker.t) (new_rectangle : Rectangle.t) :
  Pass.rectangle_in_reach new_rectangle ->
  Pass.tracker_in_reach self ->
  Pass.tracker_in_reach (Tracker.ingest_rectangle self new_rectangle).
Proof.
  intros Hnew [Hc Hr]. rewrite ingest_rectangle_unfold. split; [exact Hc|].
  cbn [Tracker.rectangles].
  pose proof (first_match_inv Rectangle.t
                (fun r => Rectangle.same_rectangle r new_rectangle
                            (Tracker.video_height self))
                Pass.rectangle_in_reach
                (fun e He => same_rectangle_in_reach _ e new_rectangle Hnew He)
                (Tracker.rectangles self) Hr) as Hinv.
  destruct (fst _); [exact Hinv|].
  apply Forall_app. split; [exact Hinv | constructor; [exact Hnew | constructor]].
Qed.

(** The loop of [process_circles] over the detected circles, on a frame
    and a registry within reach. *)
Lemma process_circles_loop_pass (shape0 : Z * Z) (n : Z)
    (found : list (Z * Z * Z * list Np.float64)) (self : Tracker.t) :
  fst shape0 <= 2 ^ 30 -> snd shape0 <= 2 ^ 30 ->
  Pass.tracker_in_reach self ->
  exists self',
    Tracker.process_circles_loop self shape0 found n = Ok self' /\
    Pass.circles_pass (List.length (filter (Pass.fits shape0) found)) self self' /\
    Pass.tracker_in_reach self' /\
    (1 <= n ->
     Forall (circle_tracked (Tracker.video_height self) n) (Tracker.circles self) ->
     Forall (circle_tracked (Tracker.video_height self) n) (Tracker.circles self')).
Proof.
  intros Hheight Hwidth. revert self.
  induction found as [|[[[x y] r] average_color] found IH]; intros self Hreach.
  - exists self. split; [reflexivity|].
    split; [apply circles_pass_refl|]. split; [exact Hreach | auto].
  - cbn [Tracker.process_circles_loop filter Pass.fits].
    destruct ((y - r >=? 0) && (y + r <? fst shape0) && (x - r >=? 0)
              && (x + r <? snd shape0)) eqn:Hfit; cbn [andb]; [|apply IH; exact Hreach].
    destruct (Tracker.region_size r >? 0) eqn:Hregion; [|apply IH; exact Hreach].
    destruct (circle_init_tuple x y r (map Float average_color) n
                (Tracker.video_height self)) as [c Hc].
    rewrite Hc. cbn [bind].
    destruct (circle_init_ok _ _ _ _ _ _ _ Hc) as [Hok [Hframe Hone]].
    destruct (circle_init_position _ _ _ _ _ _ _ Hc) as [Hcx Hcy].
    assert (Hnew : Pass.circle_in_reach c).
    { unfold Pass.circle_in_reach. rewrite Hcx, Hcy.
      exact (fits_in_reach shape0 x y r Hheight Hwidth Hfit Hregion). }
    destruct (IH (Tracker.ingest_circle self c) (ingest_circle_in_reach self c Hnew Hreach))
      as [self' [Hloop [Hpass [Hreach' Hinv]]]].
    pose proof (ingest_circle_pass self c Hone) as Hingest.
    exists self'. split; [exact Hloop|]. split; [|split; [exact Hreach'|]].
    + cbn [List.length].
      change (S (List.length (filter (Pass.fits shape0) found)))
        with (1 + List.length (filter (Pass.fits shape0) found))%nat.
      eapply circles_pass_trans; eassumption.
    + intros Hn Hall.
      assert (Hvh : Tracker.video_height (Tracker.ingest_circle self c)
                    = Tracker.video_height self)
        by (rewrite ingest_circle_unfold; reflexivity).
      rewrite Hvh in Hinv. apply Hinv; [exact Hn|].
      apply ingest_circle_tracked; [lia | | exact Hall].
      exists n. split; [exact Hok | lia].
Qed.

Lemma filter_filter {A : Type} (f g : A -> bool) (l : list A) :
  filter g (filter f l) = filter (fun a => f a && g a) l.
Proof.
  induction l as [|a l IH]; simpl; [reflexivity|].
  destruct (f a); simpl; [destruct (g a)|]; rewrite IH; reflexivity.
Qed.

(** The second loop of [process_rectangles], over boxes and a registry
    within reach. *)
Lemma process_rectangles_loop_pass (n : Z) (found : list Tracker.Quad) (self : Tracker.t) :
  Forall Pass.quad_in_reach found ->
  Pass.tracker_in_reach self ->
  exists self',
    Tracker.process_rectangles_loop self found n = Ok self' /\
    Pass.rectangles_pass (List.length (filter Tracker.w_is_h found)) self self' /\
    Pass.tracker_in_reach self' /\
    (1 <= n ->
     Forall (fun q => Tracker.qw q = Tracker.qh q) found ->
     Forall (rectangle_tracked (Tracker.video_height self) n) (Tracker.rectangles self) ->
     Forall (rectangle_tracked (Tracker.video_height self) n) (Tracker.rectangles self')).
Proof.
  revert self. induction found as [|q found IH]; intros self Hquads Hreach.
  - exists self. split; [reflexivity|].
    split; [apply rectangles_pass_refl|]. split; [exact Hreach | auto].
  - apply Forall_cons_iff in Hquads as [Hquad Hquads].
    cbn [Tracker.process_rectangles_loop filter].
    destruct (rectangle_init_tuple (Tracker.qx q) (Tracker.qy q) (Tracker.qw q)
                (Tracker.qh q)
                (map (fun c => Float (Np.of_int c)) (Tracker.center_pixel q)) n
                (Tracker.video_height self)) as [r Hr].
    rewrite Hr. cbn [bind].
    destruct (rectangle_init_ok _ _ _ _ _ _ _ _ Hr) as [Hok [Hframe [Hone [Hw Hh]]]].
    destruct (rectangle_init_position _ _ _ _ _ _ _ _ Hr) as [Hrx Hry].
    assert (Hnew : Pass.rectangle_in_reach r).
    { unfold Pass.rectangle_in_reach. rewrite Hrx, Hry, Hw, Hh. exact Hquad. }
    destruct (Tracker.w_is_h q); cbn [negb].
    + destruct (IH (Tracker.ingest_rectangle self r) Hquads
                  (ingest_rectangle_in_reach self r Hnew Hreach))
        as [self' [Hloop [Hpass [Hreach' Hinv]]]].
      pose proof (ingest_rectangle_pass self r Hone) as Hingest.
      exists self'. split; [exact Hloop|]. split; [|split; [exact Hreach'|]].
      * cbn [List.length].
        change (S (List.length (filter Tracker.w_is_h found)))
          with (1 + List.length (filter Tracker.w_is_h found))%nat.
        eapply rectangles_pass_trans; eassumption.
      * intros Hn Hsquares Hall.
        apply Forall_cons_iff in Hsquares as [Hq Hrest].
        assert (Hvh : Tracker.video_height (Tracker.ingest_rectangle self r)
                      = Tracker.video_height self)
          by (rewrite ingest_rectangle_unfold; reflexivity).
        rewrite Hvh in Hinv. apply Hinv; [exact Hn | exact Hrest|].
        apply ingest_rectangle_tracked; [lia | congruence | | exact Hall].
        exists n. split; [exact Hok|]. split; [lia|]. split; [lia | congruence].
    + destruct (IH self Hquads Hreach) as [self' [Hloop [Hpass [Hreach' Hinv]]]].
      exists self'. split; [exact Hloop|]. split; [exact Hpass|].
      split; [exact Hreach'|].
      intros Hn Hsquares Hall.
      apply Forall_cons_iff in Hsquares as [Hq Hrest]. auto.
Qed.

Lemma filter_in_reach (f : Tracker.Quad -> bool) (quads : list Tracker.Quad) :
  Forall Pass.quad_in_reach quads -> Forall Pass.quad_in_reach (filter f quads).
Proof.
  intros H. apply Forall_forall. intros q Hq. apply filter_In in Hq as [Hq _].
  rewrite Forall_forall in H. apply H. exact Hq.
Qed.

End Passes.

(** X12: on a frame of at most 2^30 pixels a side and a registry whose
    positions lie within this range, [process_circles] raises nothing and
    changes only the registry of circles: the rectangles and the size of
    the video stay, every circle that was tracked is still at its place
    with its radius and colour and a trajectory that was only appended to,
    new circles come after them, the records of all trajectories grow by
    one for each detected circle that lies within the frame and has a
    region that is not empty, none lost and none doubled, and the positions
    of the registry are within the range again. *)
Theorem process_circles_pass (self : Tracker.t) (frame0 : Tracker.Frame) (n : Z) :
  Pass.tracker_in_reach self ->
  Pass.frame_in_reach frame0 ->
  exists self',
    Tracker.process_circles self frame0 n = Ok self' /\
    Tracker.rectangles self' = Tracker.rectangles self /\
    Tracker.video_height self' = Tracker.video_height self /\
    Tracker.video_width self' = Tracker.video_width self /\
    Trajectory.registry_grows Trajectory.circle_grows
      (Tracker.circles self) (Tracker.circles self') /\
    Trajectory.circle_records (Tracker.circles self')
    = (Trajectory.circle_records (Tracker.circles self)
       + List.length (Pass.circles_taken frame0))%nat /\
    Pass.tracker_in_reach self'.
Proof.
  intros Hreach [Hheight [Hwidth _]].
  unfold Tracker.process_circles, Pass.circles_taken.
  destruct (Tracker.HoughCircles frame0) as [found|].
  - destruct (process_circles_loop_pass (Tracker.shape frame0) n found self
                Hheight Hwidth Hreach)
      as [self' [Hloop [[Hrect [Hvh [Hvw [Hgrows Hrecords]]]] [Hreach' _]]]].
    exists self'. repeat (split; [assumption|]). exact Hreach'.
  - exists self. split; [reflexivity|].
    destruct (circles_pass_refl self) as [Hrect [Hvh [Hvw [Hgrows Hrecords]]]].
    repeat (split; [assumption|]). exact Hreach.
Qed.

Lemma white_frame_in_reach : Pass.frame_in_reach Examples.white_frame.
Proof.
  split; [simpl; lia|]. split; [simpl; lia|].
  repeat constructor; simpl; lia.
Qed.

Lemma init_in_reach : Pass.tracker_in_reach Tracker.init.
Proof. split; constructor. Qed.

Lemma process_circles_pass_witness :
  exists self',
    Tracker.process_circles Tracker.init Examples.white_frame 1 = Ok self' /\
    Trajectory.circle_records (Tracker.circles self') = 1%nat.
Proof.
  destruct (process_circles_pass Tracker.init Examples.white_frame 1
              init_in_reach white_frame_in_reach)
    as [self' [Hpass [_ [_ [_ [_ [Hrecords _]]]]]]].
  exists self'. split; [exact Hpass | exact Hrecords].
Defined.

(** X13: on boxes and a registry whose positions and sizes lie from 0 to
    below 2^30, [process_rectangles] raises nothing and changes only the
    registry of rectangles: the circles and the size of the video stay,
    every rectangle that was tracked is still at its place with its colour
    and a trajectory that was only appended to, the records of all
    trajectories grow by one for each box that is a square ([w == h]) and
    passes the identity test [w is h], every other box is dropped, and the
    positions and sizes of the registry are within the range again. *)
Theorem process_rectangles_pass (self : Tracker.t) (frame0 : Tracker.Frame) (n : Z) :
  Pass.tracker_in_reach self ->
  Pass.frame_in_reach frame0 ->
  exists self',
    Tracker.process_rectangles self frame0 n = Ok self' /\
    Tracker.circles self' = Tracker.circles self /\
    Tracker.video_height self' = Tracker.video_height self /\
    Tracker.video_width self' = Tracker.video_width self /\
    Trajectory.registry_grows Trajectory.rectangle_grows
      (Tracker.rectangles self) (Tracker.rectangles self') /\
    Trajectory.rectangle_records (Tracker.rectangles self')
    = (Trajectory.rectangle_records (Tracker.rectangles self)
       + List.length (Pass.quads_taken frame0))%nat /\
    Pass.tracker_in_reach self'.
Proof.
  intros Hreach [_ [_ Hquads]].
  unfold Tracker.process_rectangles, Pass.quads_taken.
  destruct (process_rectangles_loop_pass n
              (filter (fun q => Tracker.qw q =? Tracker.qh q) (Tracker.quads frame0)) self
              (filter_in_reach _ _ Hquads) Hreach)
    as [self' [Hloop [[Hcirc [Hvh [Hvw [Hgrows Hrecords]]]] [Hreach' _]]]].
  rewrite filter_filter in Hrecords.
  exists self'. repeat (split; [assumption|]). exact Hreach'.
Qed.

Lemma process_rectangles_pass_witness :
  exists self',
    Tracker.process_rectangles Tracker.init Examples.white_frame 1 = Ok self' /\
    Trajectory.rectangle_records (Tracker.rectangles self') = 1%nat.
Proof.
  destruct (process_rectangles_pass Tracker.init Examples.white_frame 1
              init_in_reach white_frame_in_reach)
    as [self' [Hpass [_ [_ [_ [_ [Hrecords _]]]]]]].
  exists self'. split; [exact Hpass | exact Hrecords].
Defined.

(** X23: the scan that an observation reaches.  A circle that
    [process_circles] built, or a square that passed the identity test of
    [process_rectangles], is offered to the entities of its kind in the
    order of the registry; the first that accepts absorbs it and the scan
    stops, the entities before it having refused and every entity but the
    accepting one staying as it was; when none accepts, the observation is
    appended as a new entity.  The registry of the other kind is not
    touched.  With positions within reach, every squared distance that a
    merge attempt of the scan would hand to [np.sqrt] is below 2^63, and
    the positions of the registry stay within reach. *)
Theorem ingestion_takes_first_match (self : Tracker.t) :
  Pass.tracker_in_reach self ->
  (forall new_circle : Circle.t,
      Pass.circle_in_reach new_circle ->
      Forall (fun circle =>
                0 <= (Circle.x new_circle - Circle.x circle) ^ 2
                     + (Circle.y new_circle - Circle.y circle) ^ 2 < 2 ^ 63)
             (Tracker.circles self) /\
      Spec.ingested
        (fun circle => Circle.same_circle circle new_circle (Tracker.video_height self))
        new_circle (Tracker.circles self)
        (Tracker.circles (Tracker.ingest_circle self new_circle)) /\
      Tracker.rectangles (Tracker.ingest_circle self new_circle)
      = Tracker.rectangles self /\
      Pass.tracker_in_reach (Tracker.ingest_circle self new_circle)) /\
  (forall new_rectangle : Rectangle.t,
      Pass.rectangle_in_reach new_rectangle ->
      Forall (fun rectangle =>
                0 <= (Rectangle.x new_rectangle + Rectangle.width new_rectangle / 2
                      - (Rectangle.x rectangle + Rectangle.width rectangle / 2)) ^ 2
                     + (Rectangle.y new_rectangle + Rectangle.height new_rectangle / 2
                        - (Rectangle.y rectangle + Rectangle.height rectangle / 2)) ^ 2
                  < 2 ^ 63)
             (Tracker.rectangles self) /\
      Spec.ingested
        (fun rectangle =>
           Rectangle.same_rectangle rectangle new_rectangle (Tracker.video_height self))
        new_rectangle (Tracker.rectangles self)
        (Tracker.rectangles (Tracker.ingest_rectangle self new_rectangle)) /\
      Tracker.circles (Tracker.ingest_rectangle self new_rectangle)
      = Tracker.circles self /\
      Pass.tracker_in_reach (Tracker.ingest_rectangle self new_rectangle)).
Proof.
  intros Hreach. destruct (scan_is_first_match self) as [Hcircles Hrectangles].
  split.
  - intros new_circle Hnew. destruct (Hcircles new_circle) as [Hscan Hother].
    split.
    { eapply Forall_impl; [|exact (proj1 Hreach)].
      intros circle Hcircle. apply circles_in_reach_distance; assumption. }
    split; [exact Hscan|]. split; [exact Hother|].
    apply ingest_circle_in_reach; assumption.
  - intros new_rectangle Hnew. destruct (Hrectangles new_rectangle) as [Hscan Hother].
    split.
    { eapply Forall_impl; [|exact (proj2 Hreach)].
      intros rectangle Hrectangle. apply rectangles_in_reach_distance; assumption. }
    split; [exact Hscan|]. split; [exact Hother|].
    apply ingest_rectangle_in_reach; assumption.
Qed.

Lemma two_candidates_in_reach : Pass.tracker_in_reach Examples.two_candidates.
Proof.
  split; [|constructor].
  repeat (constructor; [split; unfold Pass.pixel; simpl; lia|]). constructor.
Qed.

Lemma ingestion_takes_first_match_witness :
  Spec.ingested
    (fun circle => Circle.same_circle circle Examples.circle2 1080)
    Examples.circle2 [Examples.circle1; Examples.seed_circle 101 201 50 Examples.red 1 1080]
    [ snd (Circle.same_circle Examples.circle1 Examples.circle2 1080);
      Examples.seed_circle 101 201 50 Examples.red 1 1080 ].
Proof.
  destruct (proj1 (ingestion_takes_first_match Examples.two_candidates
                     two_candidates_in_reach) Examples.circle2) as [_ [Hscan _]].
  - split; unfold Pass.pixel; simpl; lia.
  - exact Hscan.
Defined.

(** ** The run of the tracker *)

Section Run.

Import Trajectory.

Lemma tracked_mono (vh n n' : Z) (self : Tracker.t) :
  n <= n' -> Pass.tracked vh n self -> Pass.tracked vh n' self.
Proof.
  intros Hn [Hvh [Hc Hr]]. split; [exact Hvh|]. split.
  - eapply Forall_impl; [|exact Hc]. intros c. apply circle_tracked_mono. exact Hn.
  - eapply Forall_impl; [|exact Hr]. intros r. apply rectangle_tracked_mono. exact Hn.
Qed.

Lemma process_frame_tracked (vh n : Z) (self : Tracker.t) (frame0 : Tracker.Frame) :
  1 <= n ->
  Pass.frame_in_reach frame0 ->
  Pass.tracker_in_reach self ->
  Pass.tracked vh n self ->
  exists self',
    Pass.process_frame self frame0 n = Ok self' /\
    Pass.tracker_in_reach self' /\
    Pass.tracked vh n self'.
Proof.
  intros Hn [Hheight [Hwidth Hquads]] Hreach [Hvh [Hc Hr]]. unfold Pass.process_frame.
  assert (H1 : exists self1,
             Tracker.process_circles self frame0 n = Ok self1 /\
             Tracker.video_height self1 = vh /\
             Tracker.rectangles self1 = Tracker.rectangles self /\
             Pass.tracker_in_reach self1 /\
             Forall (circle_tracked vh n) (Tracker.circles self1)).
  { unfold Tracker.process_circles.
    destruct (Tracker.HoughCircles frame0) as [found|].
    - destruct (process_circles_loop_pass (Tracker.shape frame0) n found self
                  Hheight Hwidth Hreach)
        as [self1 [Hloop [[Hrect [Hh _]] [Hreach1 Hinv]]]].
      exists self1. rewrite Hvh in *.
      split; [exact Hloop|]. split; [exact Hh|]. split; [exact Hrect|].
      split; [exact Hreach1|]. apply Hinv; assumption.
    - exists self. split; [reflexivity|]. split; [exact Hvh|]. split; [reflexivity|].
      split; [exact Hreach | exact Hc]. }
  destruct H1 as [self1 [Hp1 [Hvh1 [Hrect1 [Hreach1 Hc1]]]]].
  rewrite Hp1. cbn [bind].
  unfold Tracker.process_rectangles.
  destruct (process_rectangles_loop_pass n
              (filter (fun q => Tracker.qw q =? Tracker.qh q) (Tracker.quads frame0)) self1
              (filter_in_reach _ _ Hquads) Hreach1)
    as [self2 [Hloop [[Hcirc [Hh _]] [Hreach2 Hinv]]]].
  exists self2. split; [exact Hloop|]. split; [exact Hreach2|].
  rewrite Hvh1 in *. split; [exact Hh|]. split; [rewrite Hcirc; exact Hc1|].
  apply Hinv; [exact Hn | | rewrite Hrect1; exact Hr].
  apply Forall_forall. intros q Hq. apply filter_In in Hq as [_ Hq].
  apply Z.eqb_eq. exact Hq.
Qed.

(** On a video and a registry within reach the loop returns, with the
    counter between its start and the bound and with tracked entities. *)
Lemma track_loop_tracked (video : Tracker.VideoCapture) (vh : Z)
    (self : Tracker.t) (n : Z) :
  Pass.video_in_reach video ->
  0 <= n ->
  Pass.tracker_in_reach self ->
  Pass.tracked vh n self ->
  exists self' n',
    Tracker.track_loop video self n = Ok (self', n') /\
    n <= n' <= Z.max n Tracker.max_frames /\
    Pass.tracker_in_reach self' /\
    Pass.tracked vh n' self'.
Proof.
  intros Hvideo.
  funelim (Tracker.track_loop video self n); intros Hn Hreach Hinv.
  - destruct (negb _);
      [exists self, frame_counter;
       split; [reflexivity | split; [lia | split; [exact Hreach | exact Hinv]]]|].
    assert (Hnext : Pass.tracked vh (frame_counter + 1) self)
      by (apply tracked_mono with (n := frame_counter); [lia | exact Hinv]).
    destruct (Tracker.read video (frame_counter + 1)) as [| |frame0] eqn:Hread;
      try (exists self, (frame_counter + 1);
           split; [reflexivity | split; [lia | split; [exact Hreach | exact Hnext]]]).
    assert (Hframe : Pass.frame_in_reach frame0)
      by (apply (Hvideo (frame_counter + 1)); [lia | exact Hread]).
    destruct (process_frame_tracked vh (frame_counter + 1) self frame0 ltac:(lia)
                Hframe Hreach Hnext)
      as [self2 [Hpass [Hreach2 Hinv2]]].
    unfold Pass.process_frame in Hpass.
    destruct (Tracker.process_circles self frame0 (frame_counter + 1)) as [self1|];
      [|discriminate].
    cbn [bind] in Hpass. rewrite Hpass.
    destruct (_ =? _);
      [exists self2, (frame_counter + 1);
       split; [reflexivity | split; [lia | split; [exact Hreach2 | exact Hinv2]]]|].
    destruct (H frame0 self1 self2 vh Hvideo ltac:(lia) Hreach2 Hinv2)
      as [self' [n' [Hloop [Hb [Hreach' Hinv']]]]].
    exists self', n'. split; [exact Hloop|]. split; [lia|].
    split; [exact Hreach' | exact Hinv'].
  - exists self, frame_counter.
    split; [reflexivity | split; [lia | split; [exact Hreach | exact Hinv]]].
Qed.

Lemma circle_tracked_length (vh n : Z) (c : Circle.t) :
  circle_tracked vh n c -> Z.of_nat (List.length (Circle.data c)) <= n.
Proof.
  intros [first [[frames [seed [current [Hframes [Hsteady _]]]]] [Hfirst Hframe]]].
  destruct (steady_bounds _ _ _ Hsteady) as [_ [_ Hlen]].
  assert (List.length (Circle.data c) = List.length frames).
  { rewrite <- (length_map frame_of), Hframes, length_map. reflexivity. }
  lia.
Qed.

Lemma rectangle_tracked_length (vh n : Z) (r : Rectangle.t) :
  rectangle_tracked vh n r -> Z.of_nat (List.length (Rectangle.data r)) <= n.
Proof.
  intros [first [[frames [current [Hframes [Hsteady _]]]] [Hfirst [Hframe _]]]].
  destruct (steady_bounds _ _ _ Hsteady) as [_ [_ Hlen]].
  assert (List.length (Rectangle.data r) = List.length frames).
  { rewrite <- (length_map frame_of), Hframes, length_map. reflexivity. }
  lia.
Qed.

Lemma process_frame_in_reach (n : Z) (self : Tracker.t) (frame0 : Tracker.Frame) :
  Pass.frame_in_reach frame0 ->
  Pass.tracker_in_reach self ->
  exists self',
    Pass.process_frame self frame0 n = Ok self' /\ Pass.tracker_in_reach self'.
Proof.
  intros [Hheight [Hwidth Hquads]] Hreach. unfold Pass.process_frame.
  assert (H1 : exists self1,
             Tracker.process_circles self frame0 n = Ok self1 /\
             Pass.tracker_in_reach self1).
  { unfold Tracker.process_circles.
    destruct (Tracker.HoughCircles frame0) as [found|].
    - destruct (process_circles_loop_pass (Tracker.shape frame0) n found self
                  Hheight Hwidth Hreach) as [self1 [Hloop [_ [Hreach1 _]]]].
      exists self1. split; assumption.
    - exists self. split; [reflexivity | exact Hreach]. }
  destruct H1 as [self1 [Hp1 Hreach1]]. rewrite Hp1. cbn [bind].
  unfold Tracker.process_rectangles.
  destruct (process_rectangles_loop_pass n
              (filter (fun q => Tracker.qw q =? Tracker.qh q) (Tracker.quads frame0)) self1
              (filter_in_reach _ _ Hquads) Hreach1)
    as [self2 [Hloop [_ [Hreach2 _]]]].
  exists self2. split; assumption.
Qed.

(** On a video and a registry within reach the loop returns, and leaves
    the counter between its start and the bound. *)
Lemma track_loop_returns (video : Tracker.VideoCapture) (self : Tracker.t) (n : Z) :
  Pass.video_in_reach video ->
  0 <= n ->
  Pass.tracker_in_reach self ->
  exists self' n',
    Tracker.track_loop video self n = Ok (self', n') /\
    n <= n' <= Z.max n Tracker.max_frames /\
    Pass.tracker_in_reach self'.
Proof.
  intros Hvideo.
  funelim (Tracker.track_loop video self n); intros Hn Hreach.
  - destruct (negb _);
      [exists self, frame_counter; split; [reflexivity | split; [lia | exact Hreach]]|].
    destruct (Tracker.read video (frame_counter + 1)) as [| |frame0] eqn:Hread;
      try (exists self, (frame_counter + 1);
           split; [reflexivity | split; [lia | exact Hreach]]).
    assert (Hframe : Pass.frame_in_reach frame0)
      by (apply (Hvideo (frame_counter + 1)); [lia | exact Hread]).
    destruct (process_frame_in_reach (frame_counter + 1) self frame0 Hframe Hreach)
      as [self2 [Hpass Hreach2]].
    unfold Pass.process_frame in Hpass.
    destruct (Tracker.process_circles self frame0 (frame_counter + 1)) as [self1|];
      [|discriminate].
    cbn [bind] in Hpass. rewrite Hpass.
    destruct (_ =? _);
      [exists self2, (frame_counter + 1);
       split; [reflexivity | split; [lia | exact Hreach2]]|].
    destruct (H frame0 self1 self2 Hvideo ltac:(lia) Hreach2)
      as [self' [n' [Hloop [Hb Hreach']]]].
    exists self', n'. split; [exact Hloop|]. split; [lia | exact Hreach'].
  - exists self, frame_counter. split; [reflexivity | split; [lia | exact Hreach]].
Qed.




Lemma short_video_in_reach : Pass.video_in_reach Examples.short_video.
Proof.
  intros k frame0 _ Hread. cbn [Examples.short_video Tracker.read] in Hread.
  destruct (k <=? 3); [|discriminate].
  injection Hread as <-. exact white_frame_in_reach.
Qed.

End Run.


(** A video that ends after three frames: the fourth read fails, and the
    one circle and the one square tracked so far are saved under index 1;
    the clean-up has left the one file that was not of an earlier run. *)
Lemma track_short_video :
  match Tracker.track Tracker.init Examples.test_directory Examples.short_video with
  | Ok (_, frame_counter, kept, files) =>
      frame_counter = 4 /\
      map Files.name kept = ["other_file.txt"] /\
      map fst files = ["data/circle_data_1.json"; "data/rectangle_data_1.json"]
  | Raise _ => False
  end.
Proof. vm_compute. repeat split. Qed.



(** X14: a run of [track] that starts with empty registries, on a data
    directory that can be listed and a video within reach that opens, ends
    with entities that are all well-formed: each has a trajectory with
    strictly increasing frames in steps of at most 20 between frame 1 and
    the number [n] of frames read, whose last record is the current
    position and frame of the entity; every rectangle is a square; and no
    trajectory has more than [n] records, [n] being at most 1000. *)
Theorem track_entities_well_formed (self : Tracker.t) (dir : Files.directory)
    (video : Tracker.VideoCapture) (kept : list Files.entry) :
  Tracker.circles self = [] ->
  Tracker.rectangles self = [] ->
  Pass.video_in_reach video ->
  Files.delete_dir dir = Ok kept ->
  Tracker.opens video = true ->
  exists self' n files,
    Tracker.track self dir video = Ok (self', n, kept, files) /\
    0 <= n <= 1000 /\
    Forall (fun c => Trajectory.circle_tracked (Tracker.frame_height video) n c /\
                     Z.of_nat (List.length (Circle.data c)) <= n)
           (Tracker.circles self') /\
    Forall (fun r => Trajectory.rectangle_tracked (Tracker.frame_height video) n r /\
                     Z.of_nat (List.length (Rectangle.data r)) <= n)
           (Tracker.rectangles self').
Proof.
  intros Hc Hr Hvideo Hkept Hopens. unfold Tracker.track, Tracker.load_video.
  rewrite Hkept, Hopens, Hc, Hr. cbn [negb bind].
  match goal with
  | |- context [Tracker.track_loop video ?s 0] =>
      destruct (track_loop_tracked video (Tracker.frame_height video) s 0 Hvideo
                  ltac:(lia))
        as [self' [n [Hloop [Hbound [_ [Hvh [Hcircles Hrects]]]]]]]
  end.
  { split; constructor. }
  { split; [reflexivity|]. split; constructor. }
  rewrite Hloop. cbn [bind].
  exists self', n, (Tracker.save_circles (Tracker.circles self') 0
                    ++ Tracker.save_rectangles (Tracker.rectangles self') 0).
  split; [reflexivity|]. split; [unfold Tracker.max_frames in Hbound; lia|].
  split.
  - eapply Forall_impl; [|exact Hcircles]. intros c Hcok.
    split; [exact Hcok | exact (circle_tracked_length _ _ _ Hcok)].
  - eapply Forall_impl; [|exact Hrects]. intros r Hrok.
    split; [exact Hrok | exact (rectangle_tracked_length _ _ _ Hrok)].
Qed.

Lemma track_entities_witness :
  exists self' n files,
    Tracker.track Tracker.init Examples.test_directory Examples.short_video
    = Ok (self', n, [Files.mkEntry "other_file.txt" true true], files) /\
    0 <= n <= 1000.
Proof.
  destruct (track_entities_well_formed Tracker.init Examples.test_directory
              Examples.short_video [Files.mkEntry "other_file.txt" true true]
              eq_refl eq_refl short_video_in_reach eq_refl eq_refl)
    as [self' [n [files [Htrack [Hn _]]]]].
  exists self', n, files. split; assumption.
Defined.

(** X15: on a registry and a video within reach [track] raises in two
    cases only.  When the listing of the data directory raises, [track]
    ends in that exception, before the video is opened; when the directory
    was listed and the video cannot be opened, it ends in
    [FileNotFoundError].  In both cases nothing is tracked or saved, and on
    a video that opens the per-frame passes raise nothing. *)
Theorem track_raises_iff (self : Tracker.t) (dir : Files.directory)
    (video : Tracker.VideoCapture) (e : exn) :
  Pass.tracker_in_reach self ->
  Pass.video_in_reach video ->
  Tracker.track self dir video = Raise e <->
  Files.delete_dir dir = Raise e \/
  ((exists kept, Files.delete_dir dir = Ok kept) /\
   Tracker.opens video = false /\ e = FileNotFoundError).
Proof.
  intros Hreach Hvideo. unfold Tracker.track.
  destruct (Files.delete_dir dir) as [kept|e0]; cbn [bind].
  - unfold Tracker.load_video.
    destruct (Tracker.opens video); cbn [negb bind].
    + match goal with
      | |- context [Tracker.track_loop video ?s 0] =>
          destruct (track_loop_returns video s 0 Hvideo ltac:(lia) Hreach)
            as [self' [n [Hloop _]]]
      end.
      rewrite Hloop. cbn [bind]. split; [discriminate|].
      intros [H | [_ [H _]]]; discriminate.
    + split.
      * intros [= <-]. right. split; [exists kept; reflexivity | split; reflexivity].
      * intros [H | [_ [_ ->]]]; [discriminate | reflexivity].
  - split.
    + intros [= <-]. left. reflexivity.
    + intros [[= <-] | [[kept H] _]]; [reflexivity | discriminate].
Qed.

Lemma track_raises_witness :
  Tracker.track Tracker.init (Files.Blocked NotADirectoryError) Examples.short_video
  = Raise NotADirectoryError.
Proof.
  apply (track_raises_iff Tracker.init (Files.Blocked NotADirectoryError)
           Examples.short_video NotADirectoryError init_in_reach short_video_in_reach).
  left. reflexivity.
Defined.

(** The loop over a video that plays a list of frames is the passes over
    these frames followed by the rest of the loop. *)
Lemma track_loop_prefix (video : Tracker.VideoCapture) (frames : list Tracker.Frame)
    (self : Tracker.t) (n : Z) :
  Pass.plays video n frames ->
  n + Z.of_nat (List.length frames) <= Tracker.max_frames ->
  Tracker.track_loop video self n
  = (self' <- Pass.process_frames self frames n ;;
     Tracker.track_loop video self' (n + Z.of_nat (List.length frames))).
Proof.
  revert self n. induction frames as [|frame0 frames IH]; intros self n Hplays Hbound.
  - cbn [Pass.process_frames bind List.length]. rewrite Z.add_0_r. reflexivity.
  - cbn [List.length] in Hbound. rewrite track_loop_unfold.
    destruct (Z_lt_dec n Tracker.max_frames) as [_|Hge]; [|lia].
    destruct (Hplays 0%nat frame0 eq_refl) as [Hopen [Hread Hkey]].
    rewrite Z.add_0_r in Hopen, Hread, Hkey.
    rewrite Hopen, Hread. cbn [negb].
    apply Z.eqb_neq in Hkey. rewrite Hkey.
    cbn [Pass.process_frames]. unfold Pass.process_frame.
    destruct (Tracker.process_circles self frame0 (n + 1)) as [self1|]; [|reflexivity].
    cbn [bind].
    destruct (Tracker.process_rectangles self1 frame0 (n + 1)) as [self2|]; [|reflexivity].
    cbn [bind].
    rewrite (IH self2 (n + 1)).
    + replace (n + 1 + Z.of_nat (List.length frames))
        with (n + Z.of_nat (List.length (frame0 :: frames)))
        by (cbn [List.length]; lia).
      reflexivity.
    + intros i f Hi. specialize (Hplays (S i) f Hi).
      replace (n + 1 + Z.of_nat i) with (n + Z.of_nat (S i)) by lia. exact Hplays.
    + lia.
Qed.

(** X16: the loop of [track] is the passes over the frames read, in
    order, up to the first of four ends: 1000 frames were read; the video
    is closed; a read fails or raises, which still counts the frame; or
    [q] is pressed, after the frame on the screen was processed. *)
Theorem track_loop_ends (video : Tracker.VideoCapture) (frames : list Tracker.Frame)
    (self : Tracker.t) :
  Pass.plays video 0 frames ->
  Z.of_nat (List.length frames) <= 1000 ->
  (Z.of_nat (List.length frames) = 1000 ->
   Tracker.track_loop video self 0
   = (self' <- Pass.process_frames self frames 0 ;; Ok (self', 1000))) /\
  (Z.of_nat (List.length frames) < 1000 ->
   Tracker.isOpened video (Z.of_nat (List.length frames)) = false ->
   Tracker.track_loop video self 0
   = (self' <- Pass.process_frames self frames 0 ;;
      Ok (self', Z.of_nat (List.length frames)))) /\
  (Z.of_nat (List.length frames) < 1000 ->
   Tracker.isOpened video (Z.of_nat (List.length frames)) = true ->
   Tracker.read video (Z.of_nat (List.length frames) + 1) = Tracker.ReadFails \/
   Tracker.read video (Z.of_nat (List.length frames) + 1) = Tracker.ReadRaises ->
   Tracker.track_loop video self 0
   = (self' <- Pass.process_frames self frames 0 ;;
      Ok (self', Z.of_nat (List.length frames) + 1))) /\
  (forall frame0,
      Z.of_nat (List.length frames) < 1000 ->
      Tracker.isOpened video (Z.of_nat (List.length frames)) = true ->
      Tracker.read video (Z.of_nat (List.length frames) + 1) = Tracker.ReadFrame frame0 ->
      Z.land (Tracker.waitKey video (Z.of_nat (List.length frames) + 1)) 255
      = Tracker.ord_q ->
      Tracker.track_loop video self 0
      = (self' <- Pass.process_frames self (frames ++ [frame0]) 0 ;;
         Ok (self', Z.of_nat (List.length frames) + 1))).
Proof.
  intros Hplays Hlen.
  pose proof (track_loop_prefix video frames self 0 Hplays
                ltac:(unfold Tracker.max_frames; lia)) as Hprefix.
  rewrite Z.add_0_l in Hprefix.
  set (k := Z.of_nat (List.length frames)) in *.
  assert (Hbind : forall (f g : Tracker.t -> result (Tracker.t * Z)),
             (forall s, f s = g s) ->
             (self' <- Pass.process_frames self frames 0 ;; f self')
             = (self' <- Pass.process_frames self frames 0 ;; g self')).
  { intros f g Hfg. destruct (Pass.process_frames self frames 0); cbn [bind];
      [apply Hfg | reflexivity]. }
  split; [|split; [|split]].
  - intros Hk. rewrite Hprefix. apply Hbind. intros s.
    rewrite track_loop_unfold.
    destruct (Z_lt_dec k Tracker.max_frames) as [Hlt|_];
      [unfold Tracker.max_frames in Hlt; lia|].
    rewrite Hk. reflexivity.
  - intros Hk Hclosed. rewrite Hprefix. apply Hbind. intros s.
    rewrite track_loop_unfold.
    destruct (Z_lt_dec k Tracker.max_frames) as [_|Hge];
      [|unfold Tracker.max_frames in Hge; lia].
    rewrite Hclosed. reflexivity.
  - intros Hk Hopen Hread. rewrite Hprefix. apply Hbind. intros s.
    rewrite track_loop_unfold.
    destruct (Z_lt_dec k Tracker.max_frames) as [_|Hge];
      [|unfold Tracker.max_frames in Hge; lia].
    rewrite Hopen. cbn [negb]. destruct Hread as [-> | ->]; reflexivity.
  - intros frame0 Hk Hopen Hread Hkey. rewrite Hprefix.
    assert (Happ : forall frames' s n,
               Pass.process_frames s (frames' ++ [frame0]) n
               = (s' <- Pass.process_frames s frames' n ;;
                  Pass.process_frame s' frame0 (n + Z.of_nat (List.length frames') + 1))).
    { induction frames' as [|f frames' IH]; intros s n; cbn [app Pass.process_frames].
      - cbn [bind List.length]. rewrite Z.add_0_r.
        destruct (Pass.process_frame s frame0 (n + 1)); reflexivity.
      - destruct (Pass.process_frame s f (n + 1)) as [s1|]; cbn [bind]; [|reflexivity].
        rewrite IH. cbn [List.length].
        replace (n + 1 + Z.of_nat (List.length frames') + 1)
          with (n + Z.of_nat (S (List.length frames')) + 1) by lia.
        reflexivity. }
    rewrite Happ. rewrite Z.add_0_l. fold k.
    destruct (Pass.process_frames self frames 0) as [s|]; cbn [bind]; [|reflexivity].
    rewrite track_loop_unfold.
    destruct (Z_lt_dec k Tracker.max_frames) as [_|Hge];
      [|unfold Tracker.max_frames in Hge; lia].
    rewrite Hopen, Hread. cbn [negb]. unfold Pass.process_frame.
    destruct (Tracker.process_circles s frame0 (k + 1)) as [s1|]; cbn [bind];
      [|reflexivity].
    destruct (Tracker.process_rectangles s1 frame0 (k + 1)) as [s2|]; cbn [bind];
      [|reflexivity].
    apply Z.eqb_eq in Hkey. rewrite Hkey. reflexivity.
Qed.

Lemma short_video_plays :
  Pass.plays Examples.short_video 0
    [Examples.white_frame; Examples.white_frame; Examples.white_frame].
Proof.
  intros [|[|[|i]]] f Hf; simpl in Hf; try discriminate;
    try (injection Hf as <-; repeat split; discriminate).
  destruct i; discriminate.
Qed.

Lemma track_loop_ends_witness :
  Tracker.track_loop Examples.short_video Tracker.init 0
  = (self' <- Pass.process_frames Tracker.init
                [Examples.white_frame; Examples.white_frame; Examples.white_frame] 0 ;;
     Ok (self', 4)).
Proof.
  destruct (track_loop_ends Examples.short_video
              [Examples.white_frame; Examples.white_frame; Examples.white_frame]
              Tracker.init short_video_plays ltac:(simpl; lia))
    as [_ [_ [Hfails _]]].
  apply Hfails; [simpl; lia | reflexivity | left; reflexivity].
Defined.

(** ** The files of a run *)

Section FileNames.






Lemma NoDup_map_inj {A B : Type} (f : A -> B) (l : list A) :
  (forall a b, f a = f b -> a = b) -> NoDup l -> NoDup (map f l).
Proof.
  intros Hinj. induction 1 as [|a l Hnotin Hnodup IH]; simpl; constructor; [|exact IH].
  intros Hin. apply in_map_iff in Hin as [b [Hb Hin]].
  apply Hinj in Hb. subst b. contradiction.
Qed.





End FileNames.


(** ** The clean-up of the data directory *)

Lemma contains_prefix (marker rest : string) :
  marker <> EmptyString -> Files.contains marker (marker ++ rest) = true.
Proof.
  intros Hne. unfold Files.contains.
  destruct marker as [|c marker]; [contradiction|].
  cbn [append String.index].
  replace (prefix (String c marker) (String c (marker ++ rest))) with true; [reflexivity|].
  symmetry. apply prefix_correct.
  change (String c (marker ++ rest)) with (String c marker ++ rest)%string.
  generalize (String c marker). intros s.
  induction s as [|a s IH]; simpl; [destruct rest; reflexivity|].
  rewrite IH. reflexivity.
Qed.

Lemma delete_loop_filter (listing : list Files.entry) :
  Files.delete_loop listing
  = filter (fun e => negb (Files.stale e && Files.removable e)) listing.
Proof.
  induction listing as [|e rest IH]; simpl; [reflexivity|].
  unfold Files.stale. rewrite IH.
  destruct (Files.isfile e); simpl; [|reflexivity].
  destruct (_ || _); simpl; [|reflexivity].
  destruct (Files.removable e); reflexivity.
Qed.

(** X18: on a data directory that [os.listdir] reads, [delete_dir] returns,
    keeps every entry that is not a regular file or whose name contains
    neither marker, adds nothing, and, when [os.remove] succeeds on the
    marked files, leaves no marked file behind; the names that
    [save_circle] and [save_rectangle] generate are marked, so the files of
    an earlier run are cleaned up.  A missing directory that [os.makedirs]
    creates is found empty.  Where the listing raises, on a directory that
    may not be read or on a path where no directory is and none can be
    created, [delete_dir] ends in the exception of [os.listdir], whichever
    it is; nothing else makes it raise. *)
Theorem delete_dir_cleans_marked_files :
  (forall entries e,
      In e entries -> Files.stale e = false ->
      exists kept, Files.delete_dir (Files.Present entries) = Ok kept /\ In e kept) /\
  (forall entries,
      exists kept,
        Files.delete_dir (Files.Present entries) = Ok kept /\
        (forall e, In e kept -> In e entries) /\
        ((forall e, In e entries -> Files.stale e = true -> Files.removable e = true) ->
         forall e, In e kept -> Files.stale e = false)) /\
  (forall (c : Circle.t) (r : Rectangle.t) (n : Z),
      exists circle_file rectangle_file,
        fst (Circle.save_circle c n) = ("data/" ++ circle_file)%string /\
        fst (Rectangle.save_rectangle r n) = ("data/" ++ rectangle_file)%string /\
        forall removable,
          Files.stale (Files.mkEntry circle_file true removable) = true /\
          Files.stale (Files.mkEntry rectangle_file true removable) = true) /\
  Files.delete_dir Files.Absent = Ok [] /\
  (forall (dir : Files.directory) (e : exn),
      Files.delete_dir dir = Raise e <->
      Files.listdir dir (Files.created dir) = Raise e) /\
  (forall (dir : Files.directory) (e : exn),
      Files.delete_dir dir = Raise e <-> dir = Files.Unreadable e \/ dir = Files.Blocked e).
Proof.
  split; [|split; [|split; [|split; [reflexivity | split]]]].
  - intros entries e Hin Hstale. eexists. split; [reflexivity|].
    cbn [Files.listdir bind]. rewrite delete_loop_filter. apply filter_In.
    split; [exact Hin|]. rewrite Hstale. reflexivity.
  - intros entries. eexists. split; [reflexivity|].
    cbn [Files.listdir bind]. rewrite delete_loop_filter. split.
    + intros e He. apply filter_In in He. tauto.
    + intros Hremovable e He. apply filter_In in He as [Hin Hkept].
      destruct (Files.stale e) eqn:Hstale; [|reflexivity].
      rewrite (Hremovable e Hin Hstale) in Hkept. discriminate.
  - intros c r n.
    exists ("circle_data_" ++ format_int n ++ ".json")%string,
           ("rectangle_data_" ++ format_int n ++ ".json")%string.
    split; [reflexivity|]. split; [reflexivity|].
    intros removable. unfold Files.stale. cbn [Files.isfile Files.name andb].
    split.
    + rewrite contains_prefix by discriminate. reflexivity.
    + rewrite (contains_prefix "rectangle_data_") by discriminate.
      apply orb_true_r.
  - intros dir e. unfold Files.delete_dir.
    destruct dir as [entries|e0| |e0]; cbn; split; congruence.
  - intros dir e. unfold Files.delete_dir.
    destruct dir as [entries|e0| |e0]; cbn; split.
    + discriminate.
    + intros [H | H]; discriminate.
    + intros [= ->]. left. reflexivity.
    + intros [[= ->] | H]; [reflexivity | discriminate].
    + discriminate.
    + intros [H | H]; discriminate.
    + intros [= ->]. right. reflexivity.
    + intros [H | [= ->]]; [discriminate | reflexivity].
Qed.

(** The assertions of [test_delete_dir]. *)
Lemma delete_dir_test :
  Files.delete_dir Examples.test_directory
  = Ok [ Files.mkEntry "other_file.txt" true true ].
Proof. reflexivity. Qed.

Lemma delete_dir_witness :
  exists kept,
    Files.delete_dir
      (Files.Present [ Files.mkEntry "circle_data_test.txt" true true;
                       Files.mkEntry "rectangle_data_test.txt" true true;
                       Files.mkEntry "other_file.txt" true true ]) = Ok kept /\
    In (Files.mkEntry "other_file.txt" true true) kept.
Proof.
  apply (proj1 delete_dir_cleans_marked_files).
  - right. right. left. reflexivity.
  - reflexivity.
Defined.

(** ** The presenter *)

Section Dict.

Import Presenter.

Lemma getitem_setitem (d : list (Z * (Z * Z))) (k k' : Z) (v : Z * Z) :
  getitem (setitem d k v) k' = if k =? k' then Some v else getitem d k'.
Proof.
  induction d as [|[k0 v0] d IH]; simpl.
  - reflexivity.
  - destruct (Z.eqb_spec k0 k) as [-> | Hne]; simpl.
    + destruct (k =? k'); reflexivity.
    + rewrite IH. destruct (Z.eqb_spec k0 k') as [-> | Hne'].
      * destruct (Z.eqb_spec k k'); [congruence | reflexivity].
      * reflexivity.
Qed.

Lemma keys_setitem (d : list (Z * (Z * Z))) (k : Z) (v : Z * Z) :
  map fst (setitem d k v)
  = if existsb (Z.eqb k) (map fst d) then map fst d else map fst d ++ [k].
Proof.
  induction d as [|[k0 v0] d IH]; simpl; [reflexivity|].
  rewrite (Z.eqb_sym k k0).
  destruct (k0 =? k); simpl; [reflexivity|].
  rewrite IH. destruct (existsb (Z.eqb k) (map fst d)); reflexivity.
Qed.

Lemma getitem_full_data (k : Z) (data : list point) (d : list (Z * (Z * Z))) :
  getitem (fold_left (fun new_dict p => setitem new_dict (frame p) (x p, y p)) data d) k
  = match last_at k data with
    | Some p => Some (x p, y p)
    | None => getitem d k
    end.
Proof.
  revert d. induction data as [|p data IH]; intros d; simpl; [reflexivity|].
  rewrite IH. destruct (last_at k data); [reflexivity|].
  rewrite getitem_setitem. destruct (frame p =? k); reflexivity.
Qed.

Lemma in_range (a b k : Z) : In k (range a b) <-> a <= k < b.
Proof.
  unfold range. rewrite in_map_iff. split.
  - intros [i [<- Hi]]. apply in_seq in Hi. lia.
  - intros Hk. exists (Z.to_nat (k - a)). split; [lia|]. apply in_seq. lia.
Qed.

Lemma existsb_range (a b k : Z) :
  existsb (Z.eqb k) (range a b) = (a <=? k) && (k <? b).
Proof.
  destruct (existsb (Z.eqb k) (range a b)) eqn:H.
  - apply existsb_exists in H as [k' [Hin Hk]]. apply Z.eqb_eq in Hk. subst k'.
    apply in_range in Hin. symmetry. apply andb_true_iff.
    split; [apply Z.leb_le | apply Z.ltb_lt]; lia.
  - symmetry. apply andb_false_iff.
    destruct (Z.leb_spec a k); [|left; reflexivity]. right. apply Z.ltb_ge.
    destruct (Z_lt_le_dec k b) as [Hlt|]; [|assumption].
    assert (Hin : In k (range a b)) by (apply in_range; lia).
    assert (existsb (Z.eqb k) (range a b) = true)
      by (apply existsb_exists; exists k; split; [exact Hin | apply Z.eqb_refl]).
    congruence.
Qed.

Lemma getitem_placeholders (a b k : Z) :
  getitem (map (fun i => (i, (-1, -1))) (range a b)) k
  = if (a <=? k) && (k <? b) then Some (-1, -1) else None.
Proof.
  rewrite <- existsb_range.
  induction (range a b) as [|i l IH]; simpl; [reflexivity|].
  rewrite (Z.eqb_sym k i). destruct (i =? k); simpl; [reflexivity | exact IH].
Qed.

(** The keys of the dict when every frame of the trajectory lies between
    the two bounds: the range, and the upper bound once it occurs. *)
Lemma keys_fold (a b : Z) (data : list point) (d : list (Z * (Z * Z))) (seen_max : bool) :
  a <= b ->
  Forall (fun p => a <= frame p <= b) data ->
  map fst d = range a b ++ (if seen_max then [b] else []) ->
  map fst (fold_left (fun new_dict p => setitem new_dict (frame p) (x p, y p)) data d)
  = range a b ++ (if seen_max || existsb (fun p => frame p =? b) data then [b] else []).
Proof.
  intros Hab. revert d seen_max.
  induction data as [|p data IH]; intros d seen_max Hall Hkeys; simpl.
  - rewrite orb_false_r. exact Hkeys.
  - apply Forall_cons_iff in Hall as [Hp Hall].
    assert (Hnotin : existsb (Z.eqb b) (range a b) = false).
    { rewrite existsb_range. apply andb_false_iff. right. apply Z.ltb_irrefl. }
    destruct (Z.eqb_spec (frame p) b) as [Hb | Hb].
    + rewrite (IH (setitem d (frame p) (x p, y p)) true Hall).
      * rewrite orb_true_r. reflexivity.
      * rewrite keys_setitem, Hkeys, Hb, existsb_app, Hnotin.
        destruct seen_max; simpl; [rewrite Z.eqb_refl; reflexivity|].
        rewrite app_nil_r. reflexivity.
    + rewrite (IH (setitem d (frame p) (x p, y p)) seen_max Hall).
      * rewrite orb_false_l. destruct seen_max; reflexivity.
      * rewrite keys_setitem, Hkeys, existsb_app.
        replace (existsb (Z.eqb (frame p)) (range a b)) with true; [reflexivity|].
        symmetry. rewrite existsb_range. apply andb_true_iff.
        split; [apply Z.leb_le | apply Z.ltb_lt]; lia.
Qed.

Lemma nth_error_getitem (d : list (Z * (Z * Z))) (i : nat) (k : Z) :
  NoDup (map fst d) ->
  nth_error (map fst d) i = Some k ->
  exists v, nth_error d i = Some (k, v) /\ getitem d k = Some v.
Proof.
  revert i. induction d as [|[k0 v0] d IH]; intros [|i] Hnodup Hnth; simpl in *;
    try discriminate.
  - injection Hnth as ->. exists v0. rewrite Z.eqb_refl. auto.
  - inversion Hnodup as [|? ? Hnotin Hnodup']; subst.
    destruct (IH i Hnodup' Hnth) as [v [Hv Hget]].
    exists v. split; [exact Hv|].
    destruct (Z.eqb_spec k0 k) as [-> | _]; [|exact Hget].
    exfalso. apply Hnotin. apply nth_error_In with (n := i). exact Hnth.
Qed.

Lemma range_NoDup (a b : Z) : NoDup (range a b).
Proof.
  unfold range. apply NoDup_map_inj; [intros i j; lia | apply seq_NoDup].
Qed.

Lemma range_nth (a b : Z) (i : nat) :
  (i < Z.to_nat (b - a))%nat -> nth_error (range a b) i = Some (a + Z.of_nat i).
Proof.
  intros Hi. unfold range. rewrite nth_error_map.
  rewrite nth_error_seq. 
  replace (i <? Z.to_nat (b - a))%nat with true by (symmetry; apply Nat.ltb_lt; exact Hi).
  reflexivity.
Qed.

Lemma fold_min_le (l : list Z) (a : Z) :
  fold_left Z.min l a <= a /\ Forall (fun z => fold_left Z.min l a <= z) l.
Proof.
  revert a. induction l as [|b l IH]; intros a; simpl; [split; [lia | constructor]|].
  destruct (IH (Z.min a b)) as [H1 H2]. split; [lia|].
  constructor; [lia | exact H2].
Qed.

Lemma fold_max_ge (l : list Z) (a : Z) :
  a <= fold_left Z.max l a /\ Forall (fun z => z <= fold_left Z.max l a) l.
Proof.
  revert a. induction l as [|b l IH]; intros a; simpl; [split; [lia | constructor]|].
  destruct (IH (Z.max a b)) as [H1 H2]. split; [lia|].
  constructor; [lia | exact H2].
Qed.

Lemma py_min_spec (l : list Z) (m : Z) :
  py_min l = Ok m -> In m l /\ Forall (fun z => m <= z) l.
Proof.
  destruct l as [|a l]; [discriminate|]. intros [= <-]. split.
  - clear. revert a. induction l as [|b l IH]; intros a; simpl; [auto|].
    destruct (IH (Z.min a b)) as [H | H]; [|auto].
    destruct (Z.min_spec a b) as [[_ Hm] | [_ Hm]]; rewrite Hm in *; auto.
  - destruct (fold_min_le l a) as [H1 H2]. constructor; assumption.
Qed.

Lemma py_max_spec (l : list Z) (m : Z) :
  py_max l = Ok m -> In m l /\ Forall (fun z => z <= m) l.
Proof.
  destruct l as [|a l]; [discriminate|]. intros [= <-]. split.
  - clear. revert a. induction l as [|b l IH]; intros a; simpl; [auto|].
    destruct (IH (Z.max a b)) as [H | H]; [|auto].
    destruct (Z.max_spec a b) as [[_ Hm] | [_ Hm]]; rewrite Hm in *; auto.
  - destruct (fold_max_ge l a) as [H1 H2]. constructor; assumption.
Qed.

End Dict.

Section Prepared.

Import Presenter.

Lemma map_seq_shift (f : nat -> Z) (s o len : nat) :
  map f (seq (s + o) len) = map (fun i => f (s + i)%nat) (seq o len).
Proof.
  revert o. induction len as [|len IH]; intros o; simpl; [reflexivity|].
  f_equal. rewrite <- Nat.add_succ_r. apply IH.
Qed.

Lemma range_app (a m b : Z) : a <= m <= b -> range a b = range a m ++ range m b.
Proof.
  intros H. unfold range.
  replace (Z.to_nat (b - a)) with (Z.to_nat (m - a) + Z.to_nat (b - m))%nat by lia.
  rewrite seq_app, map_app. f_equal.
  rewrite Nat.add_comm, map_seq_shift.
  apply map_ext. intros i. lia.
Qed.

Lemma range_length (a b : Z) : List.length (range a b) = Z.to_nat (b - a).
Proof. unfold range. rewrite length_map, length_seq. reflexivity. Qed.

Lemma range_single (b : Z) : range b (b + 1) = [b].
Proof.
  unfold range. replace (b + 1 - b) with 1 by lia. simpl. f_equal. lia.
Qed.

Lemma firstn_range (a b : Z) (n : nat) :
  firstn n (range a b) = range a (Z.min b (a + Z.of_nat n)).
Proof.
  destruct (Z_le_gt_dec (a + Z.of_nat n) b) as [Hle | Hgt].
  - rewrite (range_app a (a + Z.of_nat n) b) by lia.
    rewrite Z.min_r by lia.
    rewrite firstn_app, range_length.
    replace (n - Z.to_nat (a + Z.of_nat n - a))%nat with 0%nat by lia.
    rewrite firstn_O, app_nil_r. apply firstn_all2. rewrite range_length. lia.
  - rewrite Z.min_l by lia. apply firstn_all2. rewrite range_length. lia.
Qed.

Lemma last_at_frame (k : Z) (data : list point) (p : point) :
  last_at k data = Some p -> In p data /\ frame p = k.
Proof.
  induction data as [|q data IH]; simpl; [discriminate|].
  destruct (last_at k data) as [r|].
  - intros [= <-]. destruct (IH eq_refl). auto.
  - destruct (Z.eqb_spec (frame q) k); [|discriminate]. intros [= <-]. auto.
Qed.

Lemma last_at_none (k : Z) (data : list point) :
  existsb (fun p => frame p =? k) data = false -> last_at k data = None.
Proof.
  induction data as [|q data IH]; simpl; [reflexivity|].
  intros H. apply orb_false_iff in H as [Hq Hrest].
  rewrite (IH Hrest), Hq. reflexivity.
Qed.

Lemma full_data_keys (a b : Z) (data : list point) :
  a <= b ->
  Forall (fun p => a <= frame p <= b) data ->
  map fst (full_data a b data) = range a (key_end b data).
Proof.
  intros Hab Hall. unfold full_data, key_end.
  rewrite (keys_fold a b data _ false Hab Hall).
  - simpl. destruct (existsb (fun p => frame p =? b) data).
    + rewrite (range_app a b (b + 1)) by lia. rewrite range_single. reflexivity.
    + apply app_nil_r.
  - rewrite map_map. simpl. rewrite map_id, app_nil_r. reflexivity.
Qed.

Lemma full_data_entries (a b : Z) (data : list point) :
  a <= b ->
  Forall (fun p => a <= frame p <= b) data ->
  full_data a b data = map (fun k => (k, value_at data k)) (range a (key_end b data)).
Proof.
  intros Hab Hall.
  pose proof (full_data_keys a b data Hab Hall) as Hkeys.
  apply nth_error_ext. intros i.
  rewrite nth_error_map.
  destruct (nth_error (range a (key_end b data)) i) as [k|] eqn:Hk; simpl.
  - assert (Hnth : nth_error (map fst (full_data a b data)) i = Some k)
      by (rewrite Hkeys; exact Hk).
    destruct (nth_error_getitem (full_data a b data) i k) as [v [Hv Hget]].
    + rewrite Hkeys. apply range_NoDup.
    + exact Hnth.
    + rewrite Hv. f_equal. f_equal.
      unfold full_data in Hget. rewrite getitem_full_data in Hget.
      unfold value_at. destruct (last_at k data) as [p|]; [congruence|].
      rewrite getitem_placeholders in Hget.
      destruct ((a <=? k) && (k <? b)); [congruence|].
      apply nth_error_In in Hk.
      assert (In k (map fst (full_data a b data))) by (rewrite Hkeys; exact Hk).
      discriminate.
  - apply nth_error_None. apply nth_error_None in Hk.
    rewrite <- (length_map fst), Hkeys. exact Hk.
Qed.

Lemma flat_frames_bounds (data_list : list (list point)) (lo hi : Z) :
  py_min (flat_map (map frame) data_list) = Ok lo ->
  py_max (flat_map (map frame) data_list) = Ok hi ->
  lo <= hi /\ Forall (Forall (fun p => lo <= frame p <= hi)) data_list.
Proof.
  intros Hlo Hhi.
  apply py_min_spec in Hlo as [Hin Hlo]. apply py_max_spec in Hhi as [_ Hhi].
  rewrite Forall_forall in Hlo, Hhi. split.
  - apply Hhi. exact Hin.
  - apply Forall_forall. intros d Hd. apply Forall_forall. intros p Hp.
    assert (In (frame p) (flat_map (map frame) data_list)).
    { apply in_flat_map. exists d. split; [exact Hd | apply in_map; exact Hp]. }
    split; [apply Hlo | apply Hhi]; assumption.
Qed.

Lemma flat_max_bound (proj : point -> Z) (data_list : list (list point)) (hi : Z) :
  py_max (flat_map (map proj) data_list) = Ok hi ->
  Forall (Forall (fun p => proj p <= hi)) data_list.
Proof.
  intros Hhi. apply py_max_spec in Hhi as [_ Hhi]. rewrite Forall_forall in Hhi.
  apply Forall_forall. intros d Hd. apply Forall_forall. intros p Hp.
  apply Hhi. apply in_flat_map. exists d. split; [exact Hd | apply in_map; exact Hp].
Qed.

(** What [present] returns on a list of trajectories that is not empty. *)
Lemma present_inv (self self' : t) (d0 : list point) (rest : list (list point))
    (names : list string) :
  present self (Some (d0 :: rest, names)) = Ok self' ->
  exists lo hi mx my,
    py_min (flat_map (map frame) (d0 :: rest)) = Ok lo
    /\ py_max (flat_map (map frame) (d0 :: rest)) = Ok hi
    /\ py_max (flat_map (map x) (d0 :: rest)) = Ok mx
    /\ py_max (flat_map (map y) (d0 :: rest)) = Ok my
    /\ self' =
       {| filenames := Some names;
          x_coords_list :=
            x_coords_list self
            ++ map (map (fun kv => fst (snd kv))) (map (full_data lo hi) (d0 :: rest));
          y_coords_list :=
            y_coords_list self
            ++ map (map (fun kv => snd (snd kv))) (map (full_data lo hi) (d0 :: rest));
          frames_list := frames_list self ++ map (map fst) (map (full_data lo hi) (d0 :: rest));
          min_frame := lo; max_frame := hi; max_x := mx; max_y := my |}.
Proof.
  unfold present.
  destruct (py_min (flat_map (map frame) (d0 :: rest))) as [lo|e]; [|discriminate].
  destruct (py_max (flat_map (map frame) (d0 :: rest))) as [hi|e]; [|discriminate].
  destruct (py_max (flat_map (map x) (d0 :: rest))) as [mx|e]; [|discriminate].
  destruct (py_max (flat_map (map y) (d0 :: rest))) as [my|e]; [|discriminate].
  cbn [bind]. intros [= <-]. exists lo, hi, mx, my. repeat split; reflexivity.
Qed.

Lemma py_min_raise (l : list Z) (e : exn) : py_min l = Raise e -> l = [] /\ e = ValueError.
Proof. destruct l; [intros [= <-]; auto | discriminate]. Qed.

Lemma py_max_raise (l : list Z) (e : exn) : py_max l = Raise e -> l = [] /\ e = ValueError.
Proof. destruct l; [intros [= <-]; auto | discriminate]. Qed.

Lemma flat_map_nil (proj : point -> Z) (data_list : list (list point)) :
  flat_map (map proj) data_list = [] <-> Forall (fun d => d = []) data_list.
Proof.
  induction data_list as [|d dl IH]; simpl.
  - split; [constructor | reflexivity].
  - split.
    + intros H. apply app_eq_nil in H as [Hd Hdl].
      constructor; [destruct d; [reflexivity | discriminate] | apply IH; exact Hdl].
    + intros H. apply Forall_cons_iff in H as [-> Hdl]. simpl. apply IH. exact Hdl.
Qed.

Lemma combine_map_same {A : Type} (f g : A -> Z) (l : list A) :
  combine (map f l) (map g l) = map (fun z => (f z, g z)) l.
Proof. induction l as [|a l IH]; simpl; [reflexivity | rewrite IH; reflexivity]. Qed.

Lemma flat_map_all_nil {A B : Type} (f : A -> list B) (l : list A) :
  (forall a, In a l -> f a = []) -> flat_map f l = [].
Proof.
  induction l as [|a l IH]; intros H; simpl; [reflexivity|].
  rewrite (H a (or_introl eq_refl)). apply IH. intros b Hb. apply H. right. exact Hb.
Qed.

Lemma filtered_points_full_data (a b : Z) (data : list point) (step : nat) :
  a <= b ->
  Forall (fun p => a <= frame p <= b) data ->
  filtered_points (map (fun kv => fst (snd kv)) (full_data a b data))
                  (map (fun kv => snd (snd kv)) (full_data a b data)) step
  = visible a data step.
Proof.
  intros Hab Hall. unfold filtered_points, visible.
  rewrite (full_data_entries a b data Hab Hall).
  rewrite !map_map. cbn [fst snd].
  rewrite !firstn_map, combine_map_same.
  rewrite firstn_range.
  set (stop := Z.min (key_end b data) (a + Z.of_nat (S step))).
  assert (Hstop : a <= stop <= a + Z.of_nat (S step)).
  { unfold stop, key_end. destruct (existsb _ data); lia. }
  rewrite (range_app a stop (a + Z.of_nat (S step)) Hstop), flat_map_app.
  assert (Htail : flat_map
            (fun k => match last_at k data with
                      | Some p => if negb (x p =? -1) && negb (y p =? -1)
                                  then [(x p, y p)] else []
                      | None => []
                      end) (range stop (a + Z.of_nat (S step))) = []).
  { apply flat_map_all_nil. intros k Hk. apply in_range in Hk.
    destruct (last_at k data) as [p|] eqn:Hp; [|reflexivity].
    exfalso. destruct (last_at_frame k data p Hp) as [Hin Hframe].
    rewrite Forall_forall in Hall. specialize (Hall p Hin).
    unfold stop, key_end in Hk.
    destruct (existsb (fun q => frame q =? b) data) eqn:Hex; [lia|].
    assert (Hkb : k = b) by lia. rewrite Hkb in Hp.
    rewrite (last_at_none b data Hex) in Hp. discriminate. }
  rewrite Htail, app_nil_r.
  induction (range a stop) as [|k l IH]; simpl; [reflexivity|].
  rewrite <- IH. unfold value_at.
  destruct (last_at k data) as [p|]; simpl; [|reflexivity].
  destruct (negb (x p =? -1) && negb (y p =? -1)); reflexivity.
Qed.

Lemma flat_map_head {A B : Type} (f : A -> list B) (a : A) (l : list A) :
  flat_map f (a :: l) = f a ++ flat_map f l.
Proof. reflexivity. Qed.

Lemma update_prepared (a b : Z) (step : nat) (data_list : list (list point))
    (names : list string) :
  a <= b ->
  Forall (Forall (fun p => a <= frame p <= b)) data_list ->
  flat_map
    (fun entry =>
       plot (filtered_points (fst (fst entry)) (snd (fst entry)) step) (snd entry))
    (combine (combine (map (map (fun kv => fst (snd kv))) (map (full_data a b) data_list))
                      (map (map (fun kv => snd (snd kv))) (map (full_data a b) data_list)))
             names)
  = flat_map
      (fun entry => plot (visible a (fst entry) step) (snd entry))
      (combine data_list names).
Proof.
  intros Hab. revert names.
  induction data_list as [|d dl IH]; intros names Hall; [reflexivity|].
  apply Forall_cons_iff in Hall as [Hd Hdl].
  destruct names as [|name names]; [reflexivity|].
  cbn [map combine].
  rewrite !flat_map_head, (IH names Hdl). cbn [fst snd].
  rewrite (filtered_points_full_data a b d step Hab Hd).
  reflexivity.
Qed.

End Prepared.

(** X19: [present] puts every loaded trajectory on the common frame axis.
    The lists appended for a trajectory run over the frames from
    [min_frame] up to [max_frame - 1], and one more entry for [max_frame]
    only when the trajectory has a point in that frame; the entry of a
    frame holds the coordinates of the last point recorded for it, and -1
    for both where the trajectory has none. *)
Theorem present_aligns_trajectories (self self' : Presenter.t)
    (data_list : list (list Presenter.point)) (names : list string) :
  Presenter.present self (Some (data_list, names)) = Ok self' ->
  let frames_of d :=
    Presenter.range (Presenter.min_frame self')
                    (Presenter.key_end (Presenter.max_frame self') d) in
  Presenter.frames_list self' = Presenter.frames_list self ++ map frames_of data_list
  /\ Presenter.x_coords_list self'
     = Presenter.x_coords_list self
       ++ map (fun d => map (fun k => fst (Presenter.value_at d k)) (frames_of d)) data_list
  /\ Presenter.y_coords_list self'
     = Presenter.y_coords_list self
       ++ map (fun d => map (fun k => snd (Presenter.value_at d k)) (frames_of d)) data_list.
Proof.
  intros Hpresent frames_of. subst frames_of.
  destruct data_list as [|d0 rest].
  - injection Hpresent as <-. cbn. rewrite !app_nil_r. auto.
  - destruct (present_inv _ _ _ _ _ Hpresent) as [lo [hi [mx [my [Hlo [Hhi [_ [_ ->]]]]]]]].
    destruct (flat_frames_bounds _ _ _ Hlo Hhi) as [Hle Hall].
    cbn [Presenter.frames_list Presenter.x_coords_list Presenter.y_coords_list
         Presenter.min_frame Presenter.max_frame].
    rewrite !map_map. rewrite Forall_forall in Hall.
    split; [|split]; f_equal; apply map_ext_in; intros d Hd;
      rewrite (full_data_entries lo hi d Hle (Hall d Hd)), map_map;
      try reflexivity.
    apply map_id.
Qed.

Lemma present_aligns_witness :
  Presenter.frames_list
    {| Presenter.filenames := Some ["a.json"; "b.json"];
       Presenter.x_coords_list := [[1; 3]; [7]];
       Presenter.y_coords_list := [[2; 4]; [8]];
       Presenter.frames_list := [[1; 2]; [1]];
       Presenter.min_frame := 1; Presenter.max_frame := 2;
       Presenter.max_x := 7; Presenter.max_y := 8 |}
  = [] ++ [[1; 2]; [1]]
  /\ [[1; 3]; [7]] = [] ++ [[1; 3]; [7]]
  /\ [[2; 4]; [8]] = [] ++ [[2; 4]; [8]].
Proof.
  exact (present_aligns_trajectories Presenter.init _
           [PresenterExamples.test_data; PresenterExamples.early_data]
           ["a.json"; "b.json"] eq_refl).
Defined.

(** X20: [present] fails only on files without any point.  It raises, and
    then a [ValueError] from [min], exactly when trajectories were loaded
    and every one of them is empty; without a selection, and with a
    selection of which no file could be loaded, it returns. *)
Theorem present_raises_iff (self : Presenter.t)
    (loaded : option (list (list Presenter.point) * list string)) (e : exn) :
  Presenter.present self loaded = Raise e
  <-> exists data_list names,
        loaded = Some (data_list, names)
        /\ data_list <> []
        /\ Forall (fun d => d = []) data_list
        /\ e = ValueError.
Proof.
  split.
  - destruct loaded as [[[|d0 rest] names]|]; try discriminate.
    intros H. exists (d0 :: rest), names.
    split; [reflexivity|]. split; [discriminate|].
    unfold Presenter.present in H.
    destruct (Presenter.py_min (flat_map (map Presenter.frame) (d0 :: rest)))
      as [lo|e0] eqn:Hlo.
    + exfalso.
      destruct (Presenter.py_max (flat_map (map Presenter.frame) (d0 :: rest)))
        as [hi|e1] eqn:Hhi.
      * assert (Hne : flat_map (map Presenter.frame) (d0 :: rest) <> [])
          by (intros Hnil; rewrite Hnil in Hlo; discriminate).
        destruct (Presenter.py_max (flat_map (map Presenter.x) (d0 :: rest)))
          as [mx|e2] eqn:Hmx.
        -- destruct (Presenter.py_max (flat_map (map Presenter.y) (d0 :: rest)))
             as [my|e3] eqn:Hmy; [discriminate|].
           apply py_max_raise in Hmy as [Hmy _]. apply Hne.
           apply flat_map_nil. apply (flat_map_nil Presenter.y). exact Hmy.
        -- apply py_max_raise in Hmx as [Hmx _]. apply Hne.
           apply flat_map_nil. apply (flat_map_nil Presenter.x). exact Hmx.
      * apply py_max_raise in Hhi as [Hhi _]. rewrite Hhi in Hlo. discriminate.
    + cbn [bind] in H. injection H as <-.
      apply py_min_raise in Hlo as [Hnil ->].
      split; [apply (flat_map_nil Presenter.frame); exact Hnil | reflexivity].
  - intros [data_list [names [-> [Hne [Hall ->]]]]].
    destruct data_list as [|d0 rest]; [congruence|].
    unfold Presenter.present.
    apply (flat_map_nil Presenter.frame) in Hall. rewrite Hall. reflexivity.
Qed.

(** X21: the animation replays each trajectory.  After [present] on a new
    presenter, [update] at a step draws, for each loaded trajectory in the
    order of loading and under the name of its file, the points recorded
    for the frames from [min_frame] to [min_frame + step], one per frame
    and the last recorded one where a frame has several; a point with a
    coordinate equal to -1 is not drawn, and a trajectory without a point to
    draw gets no line. *)
Theorem update_draws_visible_points (self' : Presenter.t)
    (data_list : list (list Presenter.point)) (names : list string) (step : nat) :
  Presenter.present Presenter.init (Some (data_list, names)) = Ok self' ->
  Presenter.update self' step
  = Ok (flat_map
          (fun entry =>
             Presenter.plot
               (Presenter.visible (Presenter.min_frame self') (fst entry) step) (snd entry))
          (combine data_list names)).
Proof.
  intros Hpresent. destruct data_list as [|d0 rest].
  - injection Hpresent as <-. reflexivity.
  - destruct (present_inv _ _ _ _ _ Hpresent) as [lo [hi [mx [my [Hlo [Hhi [_ [_ ->]]]]]]]].
    destruct (flat_frames_bounds _ _ _ Hlo Hhi) as [Hle Hall].
    unfold Presenter.update.
    cbn [Presenter.filenames Presenter.x_coords_list Presenter.y_coords_list
         Presenter.min_frame Presenter.init app].
    rewrite (update_prepared lo hi step (d0 :: rest) names Hle Hall). reflexivity.
Qed.

Lemma update_draws_witness :
  Presenter.update
    {| Presenter.filenames := Some ["a.json"; "b.json"];
       Presenter.x_coords_list := [[1; 3]; [7]];
       Presenter.y_coords_list := [[2; 4]; [8]];
       Presenter.frames_list := [[1; 2]; [1]];
       Presenter.min_frame := 1; Presenter.max_frame := 2;
       Presenter.max_x := 7; Presenter.max_y := 8 |} 1
  = Ok [([1; 3], [2; 4], "a.json"); ([7], [8], "b.json")].
Proof.
  exact (update_draws_visible_points _
           [PresenterExamples.test_data; PresenterExamples.early_data]
           ["a.json"; "b.json"] 1%nat eq_refl).
Defined.

(** X22: the bounds that [present] stores.  When trajectories were loaded
    and [present] returns, [min_frame] and [max_frame] are frames of loaded
    points, [min_frame <= max_frame], and every loaded point has its frame
    between them and its coordinates at most [max_x] and [max_y]. *)
Theorem present_bounds (self self' : Presenter.t)
    (data_list : list (list Presenter.point)) (names : list string) :
  Presenter.present self (Some (data_list, names)) = Ok self' ->
  data_list <> [] ->
  Presenter.min_frame self' <= Presenter.max_frame self'
  /\ In (Presenter.min_frame self') (flat_map (map Presenter.frame) data_list)
  /\ In (Presenter.max_frame self') (flat_map (map Presenter.frame) data_list)
  /\ Forall (Forall (fun p =>
               Presenter.min_frame self' <= Presenter.frame p <= Presenter.max_frame self'
               /\ Presenter.x p <= Presenter.max_x self'
               /\ Presenter.y p <= Presenter.max_y self')) data_list.
Proof.
  intros Hpresent Hne. destruct data_list as [|d0 rest]; [congruence|].
  destruct (present_inv _ _ _ _ _ Hpresent) as [lo [hi [mx [my [Hlo [Hhi [Hmx [Hmy ->]]]]]]]].
  cbn [Presenter.min_frame Presenter.max_frame Presenter.max_x Presenter.max_y].
  destruct (flat_frames_bounds _ _ _ Hlo Hhi) as [Hle Hall].
  pose proof (flat_max_bound Presenter.x _ _ Hmx) as Hxs.
  pose proof (flat_max_bound Presenter.y _ _ Hmy) as Hys.
  split; [exact Hle|].
  split; [apply (py_min_spec _ _ Hlo)|].
  split; [apply (py_max_spec _ _ Hhi)|].
  rewrite Forall_forall in *. intros d Hd.
  specialize (Hall d Hd). specialize (Hxs d Hd). specialize (Hys d Hd).
  rewrite Forall_forall in *. intros p Hp. auto.
Qed.

Lemma present_bounds_witness :
  1 <= 2
  /\ In 1 [1; 2; 1]
  /\ In 2 [1; 2; 1]
  /\ Forall (Forall (fun p =>
               1 <= Presenter.frame p <= 2 /\ Presenter.x p <= 7 /\ Presenter.y p <= 8))
            [PresenterExamples.test_data; PresenterExamples.early_data].
Proof.
  refine (present_bounds Presenter.init _
            [PresenterExamples.test_data; PresenterExamples.early_data]
            ["a.json"; "b.json"] eq_refl _).
  discriminate.
Defined.
